(** * NeMo: fused retrieval/adapter model and the k2 import guard

    A shallow embedding of
    - [nemo/collections/nlp/models/language_modeling/megatron_fused_retro.py]
    - [nemo/core/utils/k2_guard.py]
    and the properties stated about them.

    Python integers are [Z]; Python lists are [list]; Python dicts are
    stdpp's [gmap]; attribute assignment on [self] is explicit state passing
    over a record; a raised exception is the [Raise] constructor of
    [result]. *)

From Stdlib Require Import ZArith QArith Ascii String.
From stdpp Require Import base numbers list strings pretty gmap fin_maps.

Local Open Scope string_scope.
Local Open Scope Z_scope.
Local Open Scope list_scope.

(** ** Exceptions and results *)

Module Py.

(** The exception classes the two modules can raise, each with the value
    it carries (message, key or name). *)
Inductive exn : Type :=
| AssertionError (msg : string)
| KeyError (key : string)
| ValueError (msg : string)
| NameError (name : string)
| AttributeError (attr : string)
| RuntimeError (msg : string)
| TypeError (msg : string)
| IndexError (msg : string)
| ZeroDivisionError (msg : string)
| InvalidVersion (msg : string)
| ModuleNotFoundError (msg : string)
| ImportError (msg : string).

Inductive result (A : Type) : Type :=
| Ok (a : A)
| Raise (e : exn).
Arguments Ok {A} a.
Arguments Raise {A} e.

(** Sequencing: the first exception raised ends the computation. *)
Global Instance result_ret : MRet result := λ A a, Ok a.
Global Instance result_bind : MBind result := λ A B k r,
  match r with
  | Ok a => k a
  | Raise e => Raise e
  end.

Global Instance result_fmap : FMap result := λ A B f r,
  match r with
  | Ok a => Ok (f a)
  | Raise e => Raise e
  end.

Definition returns {A} (r : result A) : Prop := ∃ a, r = Ok a.
Definition raises {A} (r : result A) : Prop := ∃ e, r = Raise e.

(** [range(n)]: empty when [n <= 0]. *)
Definition range (n : Z) : list Z := Z.of_nat <$> seq 0 (Z.to_nat n).

(** [len(x)] on a list. *)
Definition len {A} (l : list A) : Z := Z.of_nat (length l).

(** [str(i)] on an [int]: decimal digits, a leading [-] when negative. *)
Definition str (i : Z) : string := pretty i.

(** [a // b] and [a % b] on [int]: rounding toward minus infinity, the
    remainder taking the sign of the divisor. *)
Definition floordiv (a b : Z) : result Z :=
  if bool_decide (b = 0) then
    Raise (ZeroDivisionError "integer division or modulo by zero")
  else Ok (a `div` b).

Definition modulo (a b : Z) : result Z :=
  if bool_decide (b = 0) then
    Raise (ZeroDivisionError "integer division or modulo by zero")
  else Ok (a `mod` b).

(** [float(b)] on a [bool]. *)
Definition float_of_bool (b : bool) : Q := if b then 1%Q else 0%Q.

(** [[x] * n] for a list: [n <= 0] gives the empty list. *)
Definition repeat_list {A} (x : A) (n : Z) : list A := replicate (Z.to_nat n) x.

End Py.

Import Py.

(** ** What "decimal representation" means

    The value of a digit string, read left to right; [None] when a
    character is not a digit.  It is the specification [str] is compared
    with.  The digits are the characters of codes 48 to 57. *)

Definition digit_value (c : ascii) : option N :=
  let code := N_of_ascii c in
  if bool_decide (48 ≤ code ≤ 57)%N then Some (code - 48)%N else None.

Fixpoint digits_value (acc : N) (s : string) : option N :=
match s with
| EmptyString => Some acc
| String c s' =>
      match digit_value c with
      | Some d => digits_value (10 * acc + d)%N s'
      | None => None
      end
end.

Definition decimal_value (s : string) : option Z :=
match s with
| EmptyString => None
| _ => Z.of_N <$> digits_value 0 s
end.

(** ** [get_pseudo_tokens] *)

Module VirtualPromptPlaceholderToken.
(** Modelled from the spec: the enum [VirtualPromptPlaceholderToken] is
      declared in [nemo.collections.nlp.modules.common], outside the
      sources at hand.  Its two values are the ones the docstring of
      [get_pseudo_tokens] shows around the number. *)
Definition BASE : string := "<prompt_".
Definition END : string := ">".
End VirtualPromptPlaceholderToken.

Definition get_pseudo_tokens (num_virtual_tokens : Z) : list string :=
(λ i, VirtualPromptPlaceholderToken.BASE +:+ str i
          +:+ VirtualPromptPlaceholderToken.END)
    <$> range num_virtual_tokens.

(** ** [packaging.version.Version], as far as the guard uses it

    A version is kept in parsed form: epoch, release numbers, optional
    pre-, post- and dev-release parts, optional local label.  The order is
    the one of the library's comparison key. *)

Module Version.

Inductive pre_letter : Type := a | b | rc.

Inductive local_segment : Type :=
| LInt (n : N)
| LStr (s : string).

Record t : Type := mk {
  epoch : N;
  release : list N;
  pre : option (pre_letter * N);
  post : option N;
  dev : option N;
  local : option (list local_segment)
}.

(** [Version("X.Y")] for two numbers. *)
Definition of_release (r : list N) : t :=
  {| epoch := 0; release := r; pre := None; post := None; dev := None;
     local := None |}.

(** Key components may be replaced by the library's two sentinels. *)
Inductive bounded (A : Type) : Type :=
| NegativeInfinity
| Finite (x : A)
| Infinity.
Arguments NegativeInfinity {A}.
Arguments Finite {A} x.
Arguments Infinity {A}.

Definition lex (c1 c2 : comparison) : comparison :=
  match c1 with Eq => c2 | _ => c1 end.

Definition compare_bounded {A} (cmp : A → A → comparison)
    (x y : bounded A) : comparison :=
  match x, y with
  | NegativeInfinity, NegativeInfinity => Eq
  | NegativeInfinity, _ => Lt
  | _, NegativeInfinity => Gt
  | Infinity, Infinity => Eq
  | Infinity, _ => Gt
  | _, Infinity => Lt
  | Finite u, Finite v => cmp u v
  end.

(** Python's order on tuples of the same element type. *)
Fixpoint compare_tuple {A} (cmp : A → A → comparison)
    (xs ys : list A) : comparison :=
  match xs, ys with
  | [], [] => Eq
  | [], _ :: _ => Lt
  | _ :: _, [] => Gt
  | x :: xs', y :: ys' => lex (cmp x y) (compare_tuple cmp xs' ys')
  end.

Fixpoint drop_zeros (l : list N) : list N :=
  match l with
  | 0%N :: l' => drop_zeros l'
  | _ => l
  end.

(** Trailing zeros of the release do not count. *)
Definition release_key (r : list N) : list N := rev (drop_zeros (rev r)).

Definition letter_rank (l : pre_letter) : N :=
  match l with a => 0 | b => 1 | rc => 2 end.

Definition compare_pre (x y : pre_letter * N) : comparison :=
  lex (N.compare (letter_rank x.1) (letter_rank y.1)) (N.compare x.2 y.2).

Definition pre_key (v : t) : bounded (pre_letter * N) :=
  match pre v, post v, dev v with
  | None, None, Some _ => NegativeInfinity
  | None, _, _ => Infinity
  | Some p, _, _ => Finite p
  end.

Definition post_key (v : t) : bounded N :=
  match post v with None => NegativeInfinity | Some n => Finite n end.

Definition dev_key (v : t) : bounded N :=
  match dev v with None => Infinity | Some n => Finite n end.

(** A numeric local segment is above every alphanumeric one. *)
Definition compare_segment (x y : local_segment) : comparison :=
  match x, y with
  | LInt m, LInt n => N.compare m n
  | LInt _, LStr _ => Gt
  | LStr _, LInt _ => Lt
  | LStr s, LStr u => String.compare s u
  end.

Definition local_key (v : t) : bounded (list local_segment) :=
  match local v with None => NegativeInfinity | Some l => Finite l end.

Definition compare (v w : t) : comparison :=
  lex (N.compare (epoch v) (epoch w))
 (lex (compare_tuple N.compare (release_key (release v)) (release_key (release w)))
 (lex (compare_bounded compare_pre (pre_key v) (pre_key w))
 (lex (compare_bounded N.compare (post_key v) (post_key w))
 (lex (compare_bounded N.compare (dev_key v) (dev_key w))
      (compare_bounded (compare_tuple compare_segment)
         (local_key v) (local_key w)))))).

(** [v < w] *)
Definition ltb (v w : t) : bool :=
  match compare v w with Lt => true | _ => false end.

Definition join (sep : string) (l : list string) : string :=
  match l with
  | [] => ""
  | x :: l' => foldl (λ acc y, acc +:+ sep +:+ y) x l'
  end.

Definition str_letter (l : pre_letter) : string :=
  match l with a => "a" | b => "b" | rc => "rc" end.

Definition str_segment (x : local_segment) : string :=
  match x with LInt n => pretty n | LStr s => s end.

(** [str(v)] *)
Definition str (v : t) : string :=
  (if (epoch v =? 0)%N then "" else pretty (epoch v) +:+ "!")
  +:+ join "." (pretty <$> release v)
  +:+ match pre v with
      | Some (l, n) => str_letter l +:+ pretty n
      | None => ""
      end
  +:+ match post v with Some n => ".post" +:+ pretty n | None => "" end
  +:+ match dev v with Some n => ".dev" +:+ pretty n | None => "" end
  +:+ match local v with
      | Some l => "+" +:+ join "." (str_segment <$> l)
      | None => ""
      end.

End Version.

(** ** [nemo/core/utils/k2_guard.py]

    Importing the module runs its body once.  The body is a function of
    what is installed: [None] when [package_available("k2")] is false,
    otherwise the k2 module, of which the guard reads one attribute. *)

Module k2_guard.

(** The line feed character of the messages. *)
Definition nl : string := String (ascii_of_nat 10) "".

(** The installed k2 module.  [__dev_version__] is its version string, kept
    as the version it denotes; [None] stands for a string that
    [Version(...)] rejects. *)
Record K2Module : Type := { __dev_version__ : option Version.t }.

Definition Env : Type := option K2Module.

Definition package_available (env : Env) : bool :=
  match env with Some _ => true | None => false end.

Definition __K2_MINIMUM_MAJOR_VERSION : N := 1.
Definition __K2_MINIMUM_MINOR_VERSION : N := 11.

Definition __K2_MINIMUM_VERSION : Version.t :=
  Version.of_release [__K2_MINIMUM_MAJOR_VERSION; __K2_MINIMUM_MINOR_VERSION].

Definition K2_INSTALLATION_MESSAGE : string :=
  "Could not import `k2`." +:+ nl +:+
  "Please install k2 in one of the following ways:" +:+ nl +:+
  "1) Run `bash scripts/speech_recognition/k2/setup.sh`" +:+ nl +:+
  "2) (not recommended) Use any approach from https://k2-fsa.github.io/k2/installation/index.html " +:+
  "if your your cuda and pytorch versions are supported." +:+ nl +:+
  "It is advised to always install k2 using setup.sh only, " +:+
  "as different versions of k2 may not interact with the NeMo code as expected.".

(** The text of the [ImportError]: the f-string after [textwrap.dedent],
    which removes the common margin of its two lines and empties the
    blank last line. *)
Definition version_message (installed : Version.t) : string :=
  nl +:+ "Minimum required k2 version: " +:+ Version.str __K2_MINIMUM_VERSION
     +:+ ";" +:+ nl +:+
  "Installed k2 version: " +:+ Version.str installed +:+ nl.

(** What the body does with the k2 package, in order. *)
Inductive k2_access : Type :=
| ImportK2
| ReadDevVersion.

(** Outcome of [import nemo.core.utils.k2_guard]: the accesses to k2 made
    by the body, and either the module namespace's binding [k2] or the
    exception that ended the import. *)
Definition import_module (env : Env) : list k2_access * result K2Module :=
  if negb (package_available env) then
    ([], Raise (ModuleNotFoundError K2_INSTALLATION_MESSAGE))
  else
    match env with
    | None => ([], Raise (ModuleNotFoundError "No module named 'k2'"))
    | Some k2 =>
        match __dev_version__ k2 with
        | None =>
            ([ImportK2; ReadDevVersion], Raise (InvalidVersion "Invalid version"))
        | Some __k2_version =>
            if Version.ltb __k2_version __K2_MINIMUM_VERSION then
              ([ImportK2; ReadDevVersion],
               Raise (ImportError (version_message __k2_version)))
            else
              ([ImportK2; ReadDevVersion], Ok k2)
        end
    end.

End k2_guard.

(** ** [megatron_fused_retro.py]: enums, configuration, tokenizer *)

Module VirtualPromptStyle.
(** Modelled from the spec: the enum [VirtualPromptStyle] is declared in
    [nemo.collections.nlp.modules.common], outside the sources at hand.
    The member names are those the model class mentions; their values are
    the four recognized styles: prompt-tuning, p-tuning, inference,
    no-prompt. *)
Inductive t : Type := P_TUNING | PROMPT_TUNING | INFERENCE | NO_PROMPT.

Global Instance style_eq_dec : EqDecision t.
Proof. solve_decision. Defined.

Definition value (s : t) : string :=
  match s with
  | P_TUNING => "p-tuning"
  | PROMPT_TUNING => "prompt-tuning"
  | INFERENCE => "inference"
  | NO_PROMPT => "no-prompt"
  end.

Definition members : list t := [P_TUNING; PROMPT_TUNING; INFERENCE; NO_PROMPT].

(** [VirtualPromptStyle(v)]: lookup of a member by value; the [Enum]
    constructor raises [ValueError] when no member has the value. *)
Definition of_value (v : string) : result t :=
  match List.find (λ s, bool_decide (value s = v)) members with
  | Some s => Ok s
  | None => Raise (ValueError ("'" +:+ v +:+ "' is not a valid VirtualPromptStyle"))
  end.
End VirtualPromptStyle.

Module VirtualPromptSource.
(** Modelled from the spec: the enum [VirtualPromptSource], declared next
    to [VirtualPromptStyle]; only the identity of its members is used. *)
Inductive t : Type := PROMPT_TABLE | PROMPT_ENCODER | NO_PROMPT.

Global Instance source_eq_dec : EqDecision t.
Proof. solve_decision. Defined.
End VirtualPromptSource.

(** One entry of [cfg.task_templates].  The two keys read with
    [task.get(key, default)] are optional. *)
Module Task.
Record t : Type := {
  taskname : string;
  prompt_template : string;
  answer_only_loss : option bool;
  answer_field : option string;
  truncate_field : option string;
  total_virtual_tokens : Z;
  virtual_token_splits : list Z
}.
End Task.

(** One value of the dict [self.task_templates]. *)
Module Template.
Record t : Type := {
  prompt_template : string;
  prompt_template_fields : list string;
  answer_only_loss : bool;
  answer_field : option string;
  truncate_field : option string;
  total_virtual_tokens : Z;
  virtual_token_splits : list Z;
  task_id_num : Z
}.
End Template.

(** [re.findall("\{(.*?)\}", s)]: the texts between an opening brace and
    the first closing brace after it on the same line, left to right and
    without overlap.  [open] is the text read since the pending opening
    brace; a line feed drops it, because [.] does not match one, and with
    it every opening brace seen since. *)
Fixpoint findall_fields (open : option string) (s : string) : list string :=
  match s with
  | EmptyString => []
  | String c s' =>
      match open with
      | None =>
          if bool_decide (c = "{"%char) then findall_fields (Some "") s'
          else findall_fields None s'
      | Some field =>
          if bool_decide (c = "}"%char) then field :: findall_fields None s'
          else if bool_decide (c = ascii_of_nat 10) then findall_fields None s'
          else findall_fields (Some (field +:+ String c "")) s'
      end
  end.

Definition re_findall_fields (s : string) : list string := findall_fields None s.

Module DataCfg.
Record t : Type := {
  train_ds : option (list string);
  validation_ds : option (list string);
  test_ds : option (list string);
  min_seq_length : option Z;
  add_bos : option bool;
  add_eos : option bool;
  num_workers : Z;
  train_cache_data_path : option string;
  validation_cache_data_path : option string;
  test_cache_data_path : option string;
  load_cache : option bool
}.
End DataCfg.

Module RetroCfg.
Record t : Type := {
  data_prefix : list string;
  data_impl : string;
  splits_string : string;
  seq_length : Z;
  skip_warmup : option bool;
  retrieval_prefix : string;
  knn_index : list string
}.
End RetroCfg.

(** The keys of the model configuration the class reads. *)
Module Cfg.
Record t : Type := {
  existing_tasks : option (list string);
  new_tasks : option (list string);
  virtual_prompt_style : string;
  language_model_path : option string;
  task_templates : list Task.t;
  data : DataCfg.t;
  global_batch_size : option Z;
  micro_batch_size : Z;
  tensor_model_parallel_size : Z;
  sequence_parallel : option bool;
  retro_data : RetroCfg.t;
  seed : Z
}.
End Cfg.

Module Trainer.
Record t : Type := {
  world_size : Z;
  max_steps : Z;
  accumulate_grad_batches : Z;
  val_check_interval : Z;
  limit_val_batches : Z;
  limit_test_batches : Z
}.
End Trainer.

Module Tokenizer.
(** Modelled from the spec: the tokenizer classes live outside the sources
    at hand.  A tokenizer is its vocabulary, a token's id being its
    position; special tokens not yet known are appended, and a list of
    tokens is mapped to ids token by token, an unknown one to [unk_id]. *)
Record t : Type := {
  vocab : list string;
  pad_id : option Z;
  unk_id : Z
}.

Definition token_to_id (tok : t) (token : string) : Z :=
  match list_find (λ x, x = token) (vocab tok) with
  | Some (i, _) => Z.of_nat i
  | None => unk_id tok
  end.

Definition tokens_to_ids (tok : t) (tokens : list string) : list Z :=
  token_to_id tok <$> tokens.

Definition add_special_tokens (tok : t) (tokens : list string) : t :=
  {| vocab := foldl (λ (v : list string) s,
                       if bool_decide (s ∈ v) then v else (v ++ [s])%list)
                    (vocab tok) tokens;
     pad_id := pad_id tok;
     unk_id := unk_id tok |}.
End Tokenizer.

(** ** Objects of the libraries the class builds on

    An object built by a library constructor is kept as the arguments it
    was built from. *)

Module FrozenModel.
Record cfg_t : Type := { encoder_seq_length : Z }.
(** The restored [MegatronGPTModel]; [frozen] is set by [freeze()]. *)
Record t : Type := { cfg : cfg_t; frozen : bool }.
Definition freeze (fm : t) : t := {| cfg := cfg fm; frozen := true |}.
End FrozenModel.

Module GPTPromptLearningDataset.
Record t : Type := {
  data : list string;
  tokenizer : Tokenizer.t;
  virtual_prompt_source : VirtualPromptSource.t;
  task_templates : gmap string Template.t;
  pseudo_tokens : list string;
  pad_token_id : Z;
  max_seq_length : Z;
  min_seq_length : Z;
  add_bos : bool;
  add_eos : bool;
  for_train : bool;
  tokens_to_generate : option Z;
  cache_data_path : option string;
  load_cache : bool
}.
End GPTPromptLearningDataset.

Module DistributedSampler.
Record t : Type := { num_replicas : Z; rank : Z; shuffle : bool }.
End DistributedSampler.

(** The collate function handed to a data loader: the model's own
    [collate_fn] with [tp_workers] fixed, or the dataset's
    [inference_collate_fn]. *)
Inductive collate_choice : Type :=
| partial_collate_fn (tp_workers : Z)
| inference_collate_fn.

Module DataLoader.
Record t : Type := {
  dataset : GPTPromptLearningDataset.t;
  collate_fn : collate_choice;
  sampler : DistributedSampler.t;
  batch_size : Z;
  drop_last : bool;
  num_workers : Z;
  pin_memory : bool
}.
End DataLoader.

(** A tensor of any rank, as its shape and its entries in row-major
    order.  Used where the class only passes tensors on. *)
Record Tensor : Type := { shape : list Z; entries : list Q }.

(** One layer of [self.layers], as the adapters it holds and whether each
    is enabled.  The methods of a layer work on the layer in place: a call
    is a function from the layer to the layer as the call leaves it and
    the outcome of the call, so that a call that raises may have changed
    the layer before.  The layers of a model are distinct objects. *)
Definition Layer : Type := list (string * bool).

(** A dataset returned by [build_train_valid_test_datasets]. *)
Record RetroDataset : Type := { retro_split : string; retro_num_samples : Z }.

(** [apex.transformer.parallel_state], when apex could be imported. *)
Module parallel_state.
Record t : Type := {
  get_data_parallel_rank : Z;
  get_data_parallel_world_size : Z;
  get_tensor_model_parallel_world_size : Z
}.
End parallel_state.

(** What [super().__init__(cfg, trainer)] leaves on the object. *)
Module Base.
Record t : Type := {
  cfg : Cfg.t;
  tokenizer : Tokenizer.t;
  prompt_table : option (gmap string bool);
  word_embeddings : option bool
}.
End Base.

(** The surroundings of the model: installed packages, checkpoints on
    disk, the process group, and the library functions whose result the
    class stores or returns without looking into it. *)
Module World.
Record t : Type := {
  apex : option parallel_state.t;
  restore_config : option string → result FrozenModel.cfg_t;
  restore_model : option string → FrozenModel.cfg_t → result FrozenModel.t;
  build_train_valid_test_datasets :
    Cfg.t → Trainer.t → Tokenizer.t → list Z →
    result (RetroDataset * RetroDataset * RetroDataset);
  forward : Tensor → Tensor → Tensor → Tensor → Tensor → result Tensor;
  build_position_ids : list (list Z) → list (list Z);
  masked_mean : Tensor → Tensor → Tensor;
  average_losses_across_data_parallel_group : list Tensor → Tensor;
  layer_add_adapter : Layer → string → string → Layer * result unit;
  layer_get_enabled_adapters : Layer → list string;
  layer_set_enabled_adapters : Layer → option string → bool → Layer * result unit;
  layer_is_adapter_available : Layer → bool
}.
End World.

(** ** The model object

    [self], as a record of the attributes the class assigns or reads.  An
    attribute that may be missing when it is read is an [option], [None]
    standing for the missing attribute.  The attributes that [__init__]
    assigns on every path from line 72 on do not exist before: their
    fields hold a placeholder that nothing reads, and [assigned] holds the
    names of those that have been assigned, so that such an attribute
    exists on the object exactly when its name is in [assigned]. *)

Module MegatronFusedRetrievalAdapterModel.

Record t : Type := mk {
  trainer : Trainer.t;
  cfg : Cfg.t;
  tokenizer : Tokenizer.t;
  prompt_table : option (gmap string bool);
  word_embeddings : option bool;
  existing_tasks : list string;
  new_tasks : list string;
  virtual_prompt_style : VirtualPromptStyle.t;
  frozen_model : option FrozenModel.t;
  layers : list Layer;
  task_templates : gmap string Template.t;
  task_id_num_to_name : gmap Z string;
  max_virtual_tokens : Z;
  total_new_task_virtual_tokens : option Z;
  pseudo_tokens : list string;
  pseudo_token_ids : list Z;
  pseudo_token_ids_start : option Z;
  pad_token_id : Z;
  virtual_prompt_source : option VirtualPromptSource.t;
  _train_ds : option GPTPromptLearningDataset.t;
  _train_dl : option DataLoader.t;
  _validation_ds : option GPTPromptLearningDataset.t;
  _validation_dl : option DataLoader.t;
  _test_ds : option GPTPromptLearningDataset.t;
  _test_dl : option DataLoader.t;
  retro_train_ds : option RetroDataset;
  retro_validation_ds : option RetroDataset;
  retro_test_ds : option RetroDataset;
  assigned : gset string
}.

(** [self.x = v], one function per assigned attribute.  An assignment of
    one of the attributes that the constructor assigns from line 72 on
    also records the name in [assigned]. *)
Definition set_tokenizer (v : Tokenizer.t) (self : t) : t :=
  mk (trainer self) (cfg self) v (prompt_table self) (word_embeddings self)
     (existing_tasks self) (new_tasks self) (virtual_prompt_style self)
     (frozen_model self) (layers self) (task_templates self)
     (task_id_num_to_name self) (max_virtual_tokens self)
     (total_new_task_virtual_tokens self) (pseudo_tokens self)
     (pseudo_token_ids self) (pseudo_token_ids_start self)
     (pad_token_id self) (virtual_prompt_source self) (_train_ds self)
     (_train_dl self) (_validation_ds self) (_validation_dl self)
     (_test_ds self) (_test_dl self) (retro_train_ds self)
     (retro_validation_ds self) (retro_test_ds self) (assigned self).
Definition set_prompt_table (v : option (gmap string bool)) (self : t) : t :=
  mk (trainer self) (cfg self) (tokenizer self) v (word_embeddings self)
     (existing_tasks self) (new_tasks self) (virtual_prompt_style self)
     (frozen_model self) (layers self) (task_templates self)
     (task_id_num_to_name self) (max_virtual_tokens self)
     (total_new_task_virtual_tokens self) (pseudo_tokens self)
     (pseudo_token_ids self) (pseudo_token_ids_start self)
     (pad_token_id self) (virtual_prompt_source self) (_train_ds self)
     (_train_dl self) (_validation_ds self) (_validation_dl self)
     (_test_ds self) (_test_dl self) (retro_train_ds self)
     (retro_validation_ds self) (retro_test_ds self) (assigned self).
Definition set_word_embeddings (v : option bool) (self : t) : t :=
  mk (trainer self) (cfg self) (tokenizer self) (prompt_table self) v
     (existing_tasks self) (new_tasks self) (virtual_prompt_style self)
     (frozen_model self) (layers self) (task_templates self)
     (task_id_num_to_name self) (max_virtual_tokens self)
     (total_new_task_virtual_tokens self) (pseudo_tokens self)
     (pseudo_token_ids self) (pseudo_token_ids_start self)
     (pad_token_id self) (virtual_prompt_source self) (_train_ds self)
     (_train_dl self) (_validation_ds self) (_validation_dl self)
     (_test_ds self) (_test_dl self) (retro_train_ds self)
     (retro_validation_ds self) (retro_test_ds self) (assigned self).
Definition set_frozen_model (v : option FrozenModel.t) (self : t) : t :=
  mk (trainer self) (cfg self) (tokenizer self) (prompt_table self)
     (word_embeddings self) (existing_tasks self) (new_tasks self)
     (virtual_prompt_style self) v (layers self) (task_templates self)
     (task_id_num_to_name self) (max_virtual_tokens self)
     (total_new_task_virtual_tokens self) (pseudo_tokens self)
     (pseudo_token_ids self) (pseudo_token_ids_start self)
     (pad_token_id self) (virtual_prompt_source self) (_train_ds self)
     (_train_dl self) (_validation_ds self) (_validation_dl self)
     (_test_ds self) (_test_dl self) (retro_train_ds self)
     (retro_validation_ds self) (retro_test_ds self) (assigned self).
Definition set_layers (v : list Layer) (self : t) : t :=
  mk (trainer self) (cfg self) (tokenizer self) (prompt_table self)
     (word_embeddings self) (existing_tasks self) (new_tasks self)
     (virtual_prompt_style self) (frozen_model self) v (task_templates self)
     (task_id_num_to_name self) (max_virtual_tokens self)
     (total_new_task_virtual_tokens self) (pseudo_tokens self)
     (pseudo_token_ids self) (pseudo_token_ids_start self)
     (pad_token_id self) (virtual_prompt_source self) (_train_ds self)
     (_train_dl self) (_validation_ds self) (_validation_dl self)
     (_test_ds self) (_test_dl self) (retro_train_ds self)
     (retro_validation_ds self) (retro_test_ds self) (assigned self).
Definition set_task_templates (v : gmap string Template.t) (self : t) : t :=
  mk (trainer self) (cfg self) (tokenizer self) (prompt_table self)
     (word_embeddings self) (existing_tasks self) (new_tasks self)
     (virtual_prompt_style self) (frozen_model self) (layers self) v
     (task_id_num_to_name self) (max_virtual_tokens self)
     (total_new_task_virtual_tokens self) (pseudo_tokens self)
     (pseudo_token_ids self) (pseudo_token_ids_start self)
     (pad_token_id self) (virtual_prompt_source self) (_train_ds self)
     (_train_dl self) (_validation_ds self) (_validation_dl self)
     (_test_ds self) (_test_dl self) (retro_train_ds self)
     (retro_validation_ds self) (retro_test_ds self)
     ({["task_templates"]} ∪ assigned self).
Definition set_task_id_num_to_name (v : gmap Z string) (self : t) : t :=
  mk (trainer self) (cfg self) (tokenizer self) (prompt_table self)
     (word_embeddings self) (existing_tasks self) (new_tasks self)
     (virtual_prompt_style self) (frozen_model self) (layers self)
     (task_templates self) v (max_virtual_tokens self)
     (total_new_task_virtual_tokens self) (pseudo_tokens self)
     (pseudo_token_ids self) (pseudo_token_ids_start self)
     (pad_token_id self) (virtual_prompt_source self) (_train_ds self)
     (_train_dl self) (_validation_ds self) (_validation_dl self)
     (_test_ds self) (_test_dl self) (retro_train_ds self)
     (retro_validation_ds self) (retro_test_ds self)
     ({["task_id_num_to_name"]} ∪ assigned self).
Definition set_max_virtual_tokens (v : Z) (self : t) : t :=
  mk (trainer self) (cfg self) (tokenizer self) (prompt_table self)
     (word_embeddings self) (existing_tasks self) (new_tasks self)
     (virtual_prompt_style self) (frozen_model self) (layers self)
     (task_templates self) (task_id_num_to_name self) v
     (total_new_task_virtual_tokens self) (pseudo_tokens self)
     (pseudo_token_ids self) (pseudo_token_ids_start self)
     (pad_token_id self) (virtual_prompt_source self) (_train_ds self)
     (_train_dl self) (_validation_ds self) (_validation_dl self)
     (_test_ds self) (_test_dl self) (retro_train_ds self)
     (retro_validation_ds self) (retro_test_ds self)
     ({["max_virtual_tokens"]} ∪ assigned self).
Definition set_total_new_task_virtual_tokens (v : option Z) (self : t) : t :=
  mk (trainer self) (cfg self) (tokenizer self) (prompt_table self)
     (word_embeddings self) (existing_tasks self) (new_tasks self)
     (virtual_prompt_style self) (frozen_model self) (layers self)
     (task_templates self) (task_id_num_to_name self)
     (max_virtual_tokens self) v (pseudo_tokens self) (pseudo_token_ids self)
     (pseudo_token_ids_start self) (pad_token_id self)
     (virtual_prompt_source self) (_train_ds self) (_train_dl self)
     (_validation_ds self) (_validation_dl self) (_test_ds self)
     (_test_dl self) (retro_train_ds self) (retro_validation_ds self)
     (retro_test_ds self) (assigned self).
Definition set_pseudo_tokens (v : list string) (self : t) : t :=
  mk (trainer self) (cfg self) (tokenizer self) (prompt_table self)
     (word_embeddings self) (existing_tasks self) (new_tasks self)
     (virtual_prompt_style self) (frozen_model self) (layers self)
     (task_templates self) (task_id_num_to_name self)
     (max_virtual_tokens self) (total_new_task_virtual_tokens self) v
     (pseudo_token_ids self) (pseudo_token_ids_start self)
     (pad_token_id self) (virtual_prompt_source self) (_train_ds self)
     (_train_dl self) (_validation_ds self) (_validation_dl self)
     (_test_ds self) (_test_dl self) (retro_train_ds self)
     (retro_validation_ds self) (retro_test_ds self)
     ({["pseudo_tokens"]} ∪ assigned self).
Definition set_pseudo_token_ids (v : list Z) (self : t) : t :=
  mk (trainer self) (cfg self) (tokenizer self) (prompt_table self)
     (word_embeddings self) (existing_tasks self) (new_tasks self)
     (virtual_prompt_style self) (frozen_model self) (layers self)
     (task_templates self) (task_id_num_to_name self)
     (max_virtual_tokens self) (total_new_task_virtual_tokens self)
     (pseudo_tokens self) v (pseudo_token_ids_start self) (pad_token_id self)
     (virtual_prompt_source self) (_train_ds self) (_train_dl self)
     (_validation_ds self) (_validation_dl self) (_test_ds self)
     (_test_dl self) (retro_train_ds self) (retro_validation_ds self)
     (retro_test_ds self) ({["pseudo_token_ids"]} ∪ assigned self).
Definition set_pseudo_token_ids_start (v : option Z) (self : t) : t :=
  mk (trainer self) (cfg self) (tokenizer self) (prompt_table self)
     (word_embeddings self) (existing_tasks self) (new_tasks self)
     (virtual_prompt_style self) (frozen_model self) (layers self)
     (task_templates self) (task_id_num_to_name self)
     (max_virtual_tokens self) (total_new_task_virtual_tokens self)
     (pseudo_tokens self) (pseudo_token_ids self) v (pad_token_id self)
     (virtual_prompt_source self) (_train_ds self) (_train_dl self)
     (_validation_ds self) (_validation_dl self) (_test_ds self)
     (_test_dl self) (retro_train_ds self) (retro_validation_ds self)
     (retro_test_ds self) ({["pseudo_token_ids_start"]} ∪ assigned self).
Definition set_pad_token_id (v : Z) (self : t) : t :=
  mk (trainer self) (cfg self) (tokenizer self) (prompt_table self)
     (word_embeddings self) (existing_tasks self) (new_tasks self)
     (virtual_prompt_style self) (frozen_model self) (layers self)
     (task_templates self) (task_id_num_to_name self)
     (max_virtual_tokens self) (total_new_task_virtual_tokens self)
     (pseudo_tokens self) (pseudo_token_ids self)
     (pseudo_token_ids_start self) v (virtual_prompt_source self)
     (_train_ds self) (_train_dl self) (_validation_ds self)
     (_validation_dl self) (_test_ds self) (_test_dl self)
     (retro_train_ds self) (retro_validation_ds self) (retro_test_ds self)
     ({["pad_token_id"]} ∪ assigned self).
Definition set_virtual_prompt_source (v : option VirtualPromptSource.t) (self : t) : t :=
  mk (trainer self) (cfg self) (tokenizer self) (prompt_table self)
     (word_embeddings self) (existing_tasks self) (new_tasks self)
     (virtual_prompt_style self) (frozen_model self) (layers self)
     (task_templates self) (task_id_num_to_name self)
     (max_virtual_tokens self) (total_new_task_virtual_tokens self)
     (pseudo_tokens self) (pseudo_token_ids self)
     (pseudo_token_ids_start self) (pad_token_id self) v (_train_ds self)
     (_train_dl self) (_validation_ds self) (_validation_dl self)
     (_test_ds self) (_test_dl self) (retro_train_ds self)
     (retro_validation_ds self) (retro_test_ds self) (assigned self).
Definition set__train_ds (v : option GPTPromptLearningDataset.t) (self : t) : t :=
  mk (trainer self) (cfg self) (tokenizer self) (prompt_table self)
     (word_embeddings self) (existing_tasks self) (new_tasks self)
     (virtual_prompt_style self) (frozen_model self) (layers self)
     (task_templates self) (task_id_num_to_name self)
     (max_virtual_tokens self) (total_new_task_virtual_tokens self)
     (pseudo_tokens self) (pseudo_token_ids self)
     (pseudo_token_ids_start self) (pad_token_id self)
     (virtual_prompt_source self) v (_train_dl self) (_validation_ds self)
     (_validation_dl self) (_test_ds self) (_test_dl self)
     (retro_train_ds self) (retro_validation_ds self) (retro_test_ds self)
     (assigned self).
Definition set__train_dl (v : option DataLoader.t) (self : t) : t :=
  mk (trainer self) (cfg self) (tokenizer self) (prompt_table self)
     (word_embeddings self) (existing_tasks self) (new_tasks self)
     (virtual_prompt_style self) (frozen_model self) (layers self)
     (task_templates self) (task_id_num_to_name self)
     (max_virtual_tokens self) (total_new_task_virtual_tokens self)
     (pseudo_tokens self) (pseudo_token_ids self)
     (pseudo_token_ids_start self) (pad_token_id self)
     (virtual_prompt_source self) (_train_ds self) v (_validation_ds self)
     (_validation_dl self) (_test_ds self) (_test_dl self)
     (retro_train_ds self) (retro_validation_ds self) (retro_test_ds self)
     (assigned self).
Definition set__validation_ds (v : option GPTPromptLearningDataset.t) (self : t) : t :=
  mk (trainer self) (cfg self) (tokenizer self) (prompt_table self)
     (word_embeddings self) (existing_tasks self) (new_tasks self)
     (virtual_prompt_style self) (frozen_model self) (layers self)
     (task_templates self) (task_id_num_to_name self)
     (max_virtual_tokens self) (total_new_task_virtual_tokens self)
     (pseudo_tokens self) (pseudo_token_ids self)
     (pseudo_token_ids_start self) (pad_token_id self)
     (virtual_prompt_source self) (_train_ds self) (_train_dl self) v
     (_validation_dl self) (_test_ds self) (_test_dl self)
     (retro_train_ds self) (retro_validation_ds self) (retro_test_ds self)
     (assigned self).
Definition set__validation_dl (v : option DataLoader.t) (self : t) : t :=
  mk (trainer self) (cfg self) (tokenizer self) (prompt_table self)
     (word_embeddings self) (existing_tasks self) (new_tasks self)
     (virtual_prompt_style self) (frozen_model self) (layers self)
     (task_templates self) (task_id_num_to_name self)
     (max_virtual_tokens self) (total_new_task_virtual_tokens self)
     (pseudo_tokens self) (pseudo_token_ids self)
     (pseudo_token_ids_start self) (pad_token_id self)
     (virtual_prompt_source self) (_train_ds self) (_train_dl self)
     (_validation_ds self) v (_test_ds self) (_test_dl self)
     (retro_train_ds self) (retro_validation_ds self) (retro_test_ds self)
     (assigned self).
Definition set__test_ds (v : option GPTPromptLearningDataset.t) (self : t) : t :=
  mk (trainer self) (cfg self) (tokenizer self) (prompt_table self)
     (word_embeddings self) (existing_tasks self) (new_tasks self)
     (virtual_prompt_style self) (frozen_model self) (layers self)
     (task_templates self) (task_id_num_to_name self)
     (max_virtual_tokens self) (total_new_task_virtual_tokens self)
     (pseudo_tokens self) (pseudo_token_ids self)
     (pseudo_token_ids_start self) (pad_token_id self)
     (virtual_prompt_source self) (_train_ds self) (_train_dl self)
     (_validation_ds self) (_validation_dl self) v (_test_dl self)
     (retro_train_ds self) (retro_validation_ds self) (retro_test_ds self)
     (assigned self).
Definition set__test_dl (v : option DataLoader.t) (self : t) : t :=
  mk (trainer self) (cfg self) (tokenizer self) (prompt_table self)
     (word_embeddings self) (existing_tasks self) (new_tasks self)
     (virtual_prompt_style self) (frozen_model self) (layers self)
     (task_templates self) (task_id_num_to_name self)
     (max_virtual_tokens self) (total_new_task_virtual_tokens self)
     (pseudo_tokens self) (pseudo_token_ids self)
     (pseudo_token_ids_start self) (pad_token_id self)
     (virtual_prompt_source self) (_train_ds self) (_train_dl self)
     (_validation_ds self) (_validation_dl self) (_test_ds self) v
     (retro_train_ds self) (retro_validation_ds self) (retro_test_ds self)
     (assigned self).
Definition set_retro_train_ds (v : option RetroDataset) (self : t) : t :=
  mk (trainer self) (cfg self) (tokenizer self) (prompt_table self)
     (word_embeddings self) (existing_tasks self) (new_tasks self)
     (virtual_prompt_style self) (frozen_model self) (layers self)
     (task_templates self) (task_id_num_to_name self)
     (max_virtual_tokens self) (total_new_task_virtual_tokens self)
     (pseudo_tokens self) (pseudo_token_ids self)
     (pseudo_token_ids_start self) (pad_token_id self)
     (virtual_prompt_source self) (_train_ds self) (_train_dl self)
     (_validation_ds self) (_validation_dl self) (_test_ds self)
     (_test_dl self) v (retro_validation_ds self) (retro_test_ds self)
     (assigned self).
Definition set_retro_validation_ds (v : option RetroDataset) (self : t) : t :=
  mk (trainer self) (cfg self) (tokenizer self) (prompt_table self)
     (word_embeddings self) (existing_tasks self) (new_tasks self)
     (virtual_prompt_style self) (frozen_model self) (layers self)
     (task_templates self) (task_id_num_to_name self)
     (max_virtual_tokens self) (total_new_task_virtual_tokens self)
     (pseudo_tokens self) (pseudo_token_ids self)
     (pseudo_token_ids_start self) (pad_token_id self)
     (virtual_prompt_source self) (_train_ds self) (_train_dl self)
     (_validation_ds self) (_validation_dl self) (_test_ds self)
     (_test_dl self) (retro_train_ds self) v (retro_test_ds self)
     (assigned self).
Definition set_retro_test_ds (v : option RetroDataset) (self : t) : t :=
  mk (trainer self) (cfg self) (tokenizer self) (prompt_table self)
     (word_embeddings self) (existing_tasks self) (new_tasks self)
     (virtual_prompt_style self) (frozen_model self) (layers self)
     (task_templates self) (task_id_num_to_name self)
     (max_virtual_tokens self) (total_new_task_virtual_tokens self)
     (pseudo_tokens self) (pseudo_token_ids self)
     (pseudo_token_ids_start self) (pad_token_id self)
     (virtual_prompt_source self) (_train_ds self) (_train_dl self)
     (_validation_ds self) (_validation_dl self) (_test_ds self)
     (_test_dl self) (retro_train_ds self) (retro_validation_ds self) v
     (assigned self).

(** A method body runs on [self]: it leaves [self] as updated so far and
    returns a value or raises. *)
Definition M (A : Type) : Type := t → t * result A.

Global Instance M_ret : MRet M := λ A x self, (self, Ok x).
Global Instance M_bind : MBind M := λ A B k c self,
  match c self with
  | (self', Ok x) => k x self'
  | (self', Raise e) => (self', Raise e)
  end.

(** [self.x] for an attribute that exists. *)
Definition get {A} (f : t → A) : M A := λ self, (self, Ok (f self)).

(** [self.x] for an attribute that may be missing. *)
Definition getattr {A} (name : string) (f : t → option A) : M A := λ self,
  match f self with
  | Some x => (self, Ok x)
  | None => (self, Raise (AttributeError name))
  end.

(** [self.x = v] *)
Definition assign (set : t → t) : M unit := λ self, (set self, Ok ()).

(** A computation that does not touch [self]. *)
Definition lift {A} (r : result A) : M A := λ self, (self, r).

(** *** [load_task_templates] *)

(** The dict stored under a task's name. *)
Definition template_of (task : Task.t) (task_id_num : Z) : Template.t :=
  {| Template.prompt_template := Task.prompt_template task;
     Template.prompt_template_fields :=
       re_findall_fields (Task.prompt_template task);
     Template.answer_only_loss := default false (Task.answer_only_loss task);
     Template.answer_field := Task.answer_field task;
     Template.truncate_field := Task.truncate_field task;
     Template.total_virtual_tokens := Task.total_virtual_tokens task;
     Template.virtual_token_splits := Task.virtual_token_splits task;
     Template.task_id_num := task_id_num |}.

(** The body of the loop over the config list: the three updates of
    [self], then the increment of [task_id_num]. *)
Definition register_task (st : t * Z) (task : Task.t) : t * Z :=
  let self := st.1 in
  let task_id_num := st.2 in
  let self :=
    set_task_templates
      (<[Task.taskname task := template_of task task_id_num]>
         (task_templates self)) self in
  let self :=
    set_max_virtual_tokens
      (Z.max (max_virtual_tokens self) (Task.total_virtual_tokens task)) self in
  let self :=
    set_task_id_num_to_name
      (<[task_id_num := Task.taskname task]> (task_id_num_to_name self)) self in
  (self, task_id_num + 1).

(** [self.task_templates[taskname]["total_virtual_tokens"]] *)
Definition total_virtual_tokens_of (self : t) (taskname : string) : result Z :=
  match task_templates self !! taskname with
  | Some entry => Ok (Template.total_virtual_tokens entry)
  | None => Raise (KeyError taskname)
  end.

(** [all(... for taskname in names)]: the generator is consumed up to the
    first false value; a lookup that fails on the way raises. *)
Fixpoint all_totals_match (self : t) (total : Z) (names : list string)
    : result bool :=
  match names with
  | [] => Ok true
  | taskname :: names' =>
      n ← total_virtual_tokens_of self taskname;
      if bool_decide (n = total) then all_totals_match self total names'
      else Ok false
  end.

Definition mismatch_message : string :=
  "Total virtual tokens for each task tuned simultaneously must match. If you want to use a different number of virtual tokens for different tasks, tune them separately.".

(** The check after the loop. *)
Definition check_new_tasks : M unit :=
  names ← get new_tasks;
  match names with
  | [] => mret ()
  | new_task_name :: _ =>
      total ← (λ self, (self, total_virtual_tokens_of self new_task_name));
      assign (set_total_new_task_virtual_tokens (Some total));;
      ok ← (λ self, (self, all_totals_match self total names));
      if ok : bool then mret () else lift (Raise (AssertionError mismatch_message))
  end.

Definition load_task_templates (task_templates : list Task.t) : M unit :=
  assign (set_task_templates ∅);;
  assign (set_task_id_num_to_name ∅);;
  assign (set_max_virtual_tokens 0);;
  assign (λ self, (foldl register_task (self, 0) task_templates).1);;
  check_new_tasks.

(** *** Tensors built by the collation code

    A two-dimensional tensor is the list of its rows. *)

Definition uniform {A} (rows : list (list A)) : bool :=
  match rows with
  | [] => true
  | r :: rows' => forallb (λ r', bool_decide (length r' = length r)) rows'
  end.

(** The values of [torch.long], the 64-bit signed integers. *)
Definition int64 (x : Z) : bool := bool_decide (- 2 ^ 63 ≤ x < 2 ^ 63).

(** The rows are stored one after the other, each entry by entry: a row
    whose length is not the expected one raises [ValueError] before any
    of its entries is looked at, and an entry that is no 64-bit integer
    raises [RuntimeError]. *)
Fixpoint store_rows (width : nat) (rows : list (list Z)) : result unit :=
  match rows with
  | [] => Ok ()
  | r :: rows' =>
      if bool_decide (length r = width) then
        if forallb int64 r then store_rows width rows'
        else Raise (RuntimeError "Overflow when unpacking long")
      else Raise (ValueError "expected sequence of equal length")
  end.

(** [torch.tensor(rows, dtype=torch.long)], and [torch.tensor(rows)] on
    rows of integers, whose type is [torch.long] too: the width is the
    length of the first row. *)
Definition torch_tensor (rows : list (list Z)) : result (list (list Z)) :=
  match rows with
  | [] => Ok []
  | r :: _ => store_rows (length r) rows;; Ok rows
  end.

(** [torch.stack(rows)]: at least one row, and all of one length. *)
Definition torch_stack {A} (rows : list (list A)) : result (list (list A)) :=
  match rows with
  | [] => Raise (RuntimeError "stack expects a non-empty TensorList")
  | _ =>
      if uniform rows then Ok rows
      else Raise (RuntimeError "stack expects each tensor to be equal size")
  end.

(** [max(...)] over the values of a generator. *)
Definition py_max (l : list Z) : result Z :=
  match l with
  | [] => Raise (ValueError "max() arg is an empty sequence")
  | x :: l' => Ok (foldl Z.max x l')
  end.

(** *** [pad_batch_and_build_loss_mask] *)

(** The body of the loop, for one pair of [zip(input_ids, answer_starts)]:
    the padded row and its loss mask. *)
Definition pad_row (self : t) (batch_max : Z)
    (ids : list Z) (answer_start_idx : option Z) : list Z * list Q :=
  let loss_mask :=
    match answer_start_idx with
    | Some answer_start_idx =>
        (λ idx, float_of_bool (bool_decide (answer_start_idx ≤ idx)))
          <$> range (len ids)
    | None =>
        (λ token_id, float_of_bool (bool_decide (token_id ∉ pseudo_token_ids self)))
          <$> ids
    end in
  let input_length := len ids in
  let padding_length := batch_max - input_length in
  let pad_extend := repeat_list (pad_token_id self) padding_length in
  let ids := ids ++ pad_extend in
  let loss_mask := loss_mask ++ repeat_list 0%Q padding_length in
  (ids, loss_mask).

Definition pad_batch_and_build_loss_mask (self : t)
    (input_ids : list (list Z)) (batch_max : Z)
    (answer_starts : list (option Z))
    : result (list (list Z) * list (list Q)) :=
  let rows := (λ p, pad_row self batch_max p.1 p.2) <$> zip input_ids answer_starts in
  let padded_input_ids := fst <$> rows in
  let batch_loss_masks := snd <$> rows in
  padded_input_ids ← torch_tensor padded_input_ids;
  batch_loss_masks ← torch_stack batch_loss_masks;
  mret (padded_input_ids, batch_loss_masks).

(** *** [collate_fn] *)

(** The residual padding of the batch width. *)
Definition resi_padding (batch_max tp_workers : Z) : Z :=
  if bool_decide (tp_workers > 1) then
    (tp_workers - (batch_max - 1) `mod` tp_workers) `mod` tp_workers
  else 0.

(** A task's id in a batch item: a number for the prompt table, the token
    ids of the task name for the prompt encoder. *)
Inductive taskname_id : Type :=
| task_num (n : Z)
| task_ids (ids : list Z).

(** [taskname_ids] once made a tensor. *)
Inductive taskname_tensor : Type :=
| taskname_1d (ids : list Z)
| taskname_2d (rows : list (list Z)).

(** [len(ids)] on a task id. *)
Definition taskname_len (x : taskname_id) : result Z :=
  match x with
  | task_ids ids => Ok (len ids)
  | task_num _ => Raise (TypeError "object of type 'int' has no len()")
  end.

(** [mapM] for [result]: the first exception wins. *)
Fixpoint traverse {A B} (f : A → result B) (l : list A) : result (list B) :=
  match l with
  | [] => Ok []
  | x :: l' => y ← f x; ys ← traverse f l'; mret (y :: ys)
  end.

(** [torch.tensor(taskname_ids)] on the tuple of task ids. *)
Definition taskname_to_tensor (ids : list taskname_id) : result taskname_tensor :=
  match ids with
  | task_ids _ :: _ =>
      rows ← traverse (λ x, match x with
                            | task_ids r => Ok r
                            | task_num _ => Raise (ValueError "expected sequence")
                            end) ids;
      taskname_2d <$> torch_tensor rows
  | _ =>
      taskname_1d <$>
        traverse (λ x, match x with
                       | task_num n =>
                           if int64 n then Ok n
                           else Raise (RuntimeError "Overflow when unpacking long")
                       | task_ids _ => Raise (ValueError "expected number")
                       end) ids
  end.

(** The unpacking [a, b, c = zip] of the starred batch, a list of triples:
    three values are expected, an empty batch yields none. *)
Definition zip_star {A B C} (batch : list (A * B * C))
    : result (list A * list B * list C) :=
  match batch with
  | [] => Raise (ValueError "not enough values to unpack (expected 3, got 0)")
  | _ => Ok ((λ x, x.1.1) <$> batch, (λ x, x.1.2) <$> batch, snd <$> batch)
  end.

(** [torch.tril(torch.ones((b, n, n))).view(b, 1, n, n) < 0.5]: true
    strictly above the diagonal. *)
Definition causal_mask (batch_size batch_max : Z)
    : result (list (list (list bool))) :=
  if bool_decide (batch_max < 0) then
    Raise (RuntimeError "Trying to create tensor with negative dimension")
  else
    Ok (replicate (Z.to_nat batch_size)
          ((λ i, (λ j, bool_decide (i < j)) <$> range batch_max)
             <$> range batch_max)).

(** [pad_sequence(rows, batch_first=True, padding_value=v)] *)
Definition pad_sequence (rows : list (list Z)) (padding_value : Z)
    : list (list Z) :=
  let width := foldl Z.max 0 (len <$> rows) in
  (λ r, r ++ repeat_list padding_value (width - len r)) <$> rows.

(** The names bound at module level by the import statements, the class
    statement and the function definition; the apex names only when apex
    could be imported. *)
Definition module_globals (w : World.t) : list string :=
  ["logging"; "re"; "partial"; "List"; "Optional"; "torch"; "nn";
   "DictConfig"; "OmegaConf"; "Trainer"; "masked_select"; "pad_sequence";
   "GPTPromptLearningDataset"; "build_train_valid_test_datasets";
   "MegatronGPTModel"; "MegatronRetrievalModel";
   "VirtualPromptPlaceholderToken"; "VirtualPromptSource";
   "VirtualPromptStyle"; "average_losses_across_data_parallel_group";
   "build_position_ids"; "NLPSaveRestoreConnector"; "adapter_mixins"]
  ++ match World.apex w with
     | Some _ =>
         ["parallel_state"; "tensor_parallel";
          "forward_backward_pipelining_without_interleaving";
          "forward_backward_no_pipelining"]
     | None => []
     end
  ++ ["HAVE_APEX"; "MegatronFusedRetrievalAdapterModel"; "get_pseudo_tokens"].

(** The built-in names the module uses. *)
Definition builtins : list string :=
  ["all"; "any"; "float"; "len"; "list"; "max"; "print"; "range"; "set";
   "super"; "zip"; "ValueError"].

(** The object a name of the module denotes, by name. *)
Inductive PyObject : Type :=
| global_object (name : string)
| attribute (obj : PyObject) (attr : string).

(** Reading a name that the function does not assign: the module's
    globals, then the built-ins, else [NameError]. *)
Definition load_global (w : World.t) (name : string) : result PyObject :=
  if bool_decide (name ∈ module_globals w ++ builtins) then
    Ok (global_object name)
  else Raise (NameError ("name '" +:+ name +:+ "' is not defined")).

Record collate_output : Type := {
  out_tokens : list (list Z);
  out_tokens_mask : list (list Z);
  out_loss_mask : list (list Q);
  out_retrieved_ids : PyObject;
  out_retrieved_emb_mask : PyObject;
  out_labels : list (list Z)
}.

(** The statement [retrieved_ids = retro_train_ds.] stops after the dot.
    Whatever attribute is meant, the name before the dot is read first; it
    is not assigned in the function, so it is read as a global.  The
    attribute is kept as the empty name. *)
Definition collate_fn (w : World.t) (self : t)
    (batch : list (taskname_id * list Z * option Z)) (tp_workers : Z)
    : result collate_output :=
  '(taskname_ids, input_ids, answer_starts) ← zip_star batch;
  source ← match virtual_prompt_source self with
           | Some s => Ok s
           | None => Raise (AttributeError "virtual_prompt_source")
           end;
  taskname_ids ←
    (if bool_decide (source = VirtualPromptSource.PROMPT_ENCODER) then
       lengths ← traverse taskname_len taskname_ids;
       max_taskname_length ← py_max lengths;
       rows ← traverse
                (λ x, match x with
                      | task_ids ids =>
                          Ok (ids ++ repeat_list (pad_token_id self)
                                       (max_taskname_length - len ids))
                      | task_num _ =>
                          Raise (TypeError "object of type 'int' has no len()")
                      end) taskname_ids;
       taskname_2d <$> torch_tensor rows
     else taskname_to_tensor taskname_ids);
  batch_max ← py_max (len <$> input_ids);
  let resi_padding := resi_padding batch_max tp_workers in
  let batch_max := batch_max + resi_padding in
  '(input_ids, loss_mask) ←
    pad_batch_and_build_loss_mask self input_ids batch_max answer_starts;
  let labels := drop 1 <$> input_ids in
  let input_ids := (λ r : list Z, take (length r - 1) r) <$> input_ids in
  let batch_max := batch_max - 1 in
  let loss_mask := drop 1 <$> loss_mask in
  let batch_size := len input_ids in
  attention_mask ← causal_mask batch_size batch_max;
  let position_ids := World.build_position_ids w input_ids in
  let tokens := pad_sequence input_ids 50256 in
  let tokens_mask :=
    (fmap (M := list) (λ x, if bool_decide (x ≠ 50256) then 1 else 0)) <$> tokens in
  retro_train_ds ← load_global w "retro_train_ds";
  let retrieved_ids := attribute retro_train_ds "" in
  retrieved_emb_mask ← load_global w "retrieved_emb_mask";
  mret {| out_tokens := tokens;
          out_tokens_mask := tokens_mask;
          out_loss_mask := loss_mask;
          out_retrieved_ids := retrieved_ids;
          out_retrieved_emb_mask := retrieved_emb_mask;
          out_labels := labels |}.

(** *** [build_virtual_prompt_dataset] and the data hooks *)

Module build_args.
Record t : Type := {
  data : list string;
  batch_size : option Z;
  max_seq_length : Z;
  min_seq_length : Z;
  add_bos : bool;
  add_eos : bool;
  for_train : bool;
  drop_last : bool;
  shuffle : bool;
  num_workers : Z;
  pin_memory : bool;
  tokens_to_generate : option Z;
  get_dataset_only : bool;
  cache_data_path : option string;
  load_cache : bool
}.
End build_args.

(** The value returned: the dataset alone, or the pair with its loader. *)
Inductive built_dataset : Type :=
| dataset_only (dataset : GPTPromptLearningDataset.t)
| dataset_and_loader (dataset : GPTPromptLearningDataset.t)
                     (dataloader : DataLoader.t).

Definition build_virtual_prompt_dataset (w : World.t) (self : t)
    (args : build_args.t) : result built_dataset :=
  source ← match virtual_prompt_source self with
           | Some s => Ok s
           | None => Raise (AttributeError "virtual_prompt_source")
           end;
  let dataset :=
    {| GPTPromptLearningDataset.data := build_args.data args;
       GPTPromptLearningDataset.tokenizer := tokenizer self;
       GPTPromptLearningDataset.virtual_prompt_source := source;
       GPTPromptLearningDataset.task_templates := task_templates self;
       GPTPromptLearningDataset.pseudo_tokens := pseudo_tokens self;
       GPTPromptLearningDataset.pad_token_id := pad_token_id self;
       GPTPromptLearningDataset.max_seq_length := build_args.max_seq_length args;
       GPTPromptLearningDataset.min_seq_length := build_args.min_seq_length args;
       GPTPromptLearningDataset.add_bos := build_args.add_bos args;
       GPTPromptLearningDataset.add_eos := build_args.add_eos args;
       GPTPromptLearningDataset.for_train := build_args.for_train args;
       GPTPromptLearningDataset.tokens_to_generate :=
         build_args.tokens_to_generate args;
       GPTPromptLearningDataset.cache_data_path := build_args.cache_data_path args;
       GPTPromptLearningDataset.load_cache := build_args.load_cache args |} in
  if build_args.get_dataset_only args then mret (dataset_only dataset)
  else
    ps ← match World.apex w with
         | Some ps => Ok ps
         | None => Raise (NameError "name 'parallel_state' is not defined")
         end;
    let rank := parallel_state.get_data_parallel_rank ps in
    let data_parallel_size := parallel_state.get_data_parallel_world_size ps in
    let sampler :=
      {| DistributedSampler.num_replicas := data_parallel_size;
         DistributedSampler.rank := rank;
         DistributedSampler.shuffle := build_args.shuffle args |} in
    batch_size ← match build_args.batch_size args with
                 | Some n => Ok n
                 | None => Raise (TypeError "unsupported operand type(s) for %: 'NoneType' and 'int'")
                 end;
    remainder ← modulo batch_size data_parallel_size;
    if bool_decide (remainder = 0) then
      let collate_fn :=
        if build_args.for_train args then
          if default false (Cfg.sequence_parallel (cfg self)) then
            partial_collate_fn
              (parallel_state.get_tensor_model_parallel_world_size ps)
          else partial_collate_fn 0
        else inference_collate_fn in
      per_rank ← floordiv batch_size data_parallel_size;
      mret (dataset_and_loader dataset
              {| DataLoader.dataset := dataset;
                 DataLoader.collate_fn := collate_fn;
                 DataLoader.sampler := sampler;
                 DataLoader.batch_size := per_rank;
                 DataLoader.drop_last := build_args.drop_last args;
                 DataLoader.num_workers := build_args.num_workers args;
                 DataLoader.pin_memory := build_args.pin_memory args |})
    else
      Raise (AssertionError "Global batch size must be evenly divisible by data parallel size").

(** A list from the config counts as given when it is there and not
    empty. *)
Definition truthy {A} (x : option (list A)) : bool :=
  match x with Some (_ :: _) => true | _ => false end.

(** The call the three data hooks share: the keyword arguments that do
    not depend on the hook come from the config and the frozen model. *)
Definition build_from_cfg (w : World.t) (data : option (list string))
    (for_train drop_last shuffle : bool) (cache_data_path : option string)
    : M (GPTPromptLearningDataset.t * DataLoader.t) :=
  cfg ← get cfg;
  frozen_model ← getattr "frozen_model" frozen_model;
  let args :=
    {| build_args.data := default [] data;
       build_args.batch_size := Cfg.global_batch_size cfg;
       build_args.max_seq_length :=
         FrozenModel.encoder_seq_length (FrozenModel.cfg frozen_model);
       build_args.min_seq_length := default 1 (DataCfg.min_seq_length (Cfg.data cfg));
       build_args.add_bos := default false (DataCfg.add_bos (Cfg.data cfg));
       build_args.add_eos := default true (DataCfg.add_eos (Cfg.data cfg));
       build_args.for_train := for_train;
       build_args.drop_last := drop_last;
       build_args.shuffle := shuffle;
       build_args.num_workers := DataCfg.num_workers (Cfg.data cfg);
       build_args.pin_memory := true;
       build_args.tokens_to_generate := None;
       build_args.get_dataset_only := false;
       build_args.cache_data_path := cache_data_path;
       build_args.load_cache := default false (DataCfg.load_cache (Cfg.data cfg)) |} in
  built ← (λ self, (self, build_virtual_prompt_dataset w self args));
  match built with
  | dataset_and_loader dataset dataloader => mret (dataset, dataloader)
  | dataset_only _ =>
      lift (Raise (TypeError "cannot unpack non-iterable GPTPromptLearningDataset object"))
  end.

Definition setup_training_data (w : World.t) : M unit :=
  cfg ← get cfg;
  if truthy (DataCfg.train_ds (Cfg.data cfg)) then
    '(ds, dl) ← build_from_cfg w (DataCfg.train_ds (Cfg.data cfg)) true true true
                  (DataCfg.train_cache_data_path (Cfg.data cfg));
    assign (set__train_ds (Some ds));;
    assign (set__train_dl (Some dl))
  else mret ().

Definition setup_validation_data (w : World.t) : M unit :=
  cfg ← get cfg;
  if truthy (DataCfg.validation_ds (Cfg.data cfg)) then
    '(ds, dl) ← build_from_cfg w (DataCfg.validation_ds (Cfg.data cfg)) true true false
                  (DataCfg.validation_cache_data_path (Cfg.data cfg));
    assign (set__validation_ds (Some ds));;
    assign (set__validation_dl (Some dl))
  else mret ().

Definition setup_test_data (w : World.t) : M unit :=
  cfg ← get cfg;
  if truthy (DataCfg.test_ds (Cfg.data cfg)) then
    '(ds, dl) ← build_from_cfg w (DataCfg.test_ds (Cfg.data cfg)) false false false
                  (DataCfg.test_cache_data_path (Cfg.data cfg));
    assign (set__test_ds (Some ds));;
    assign (set__test_dl (Some dl))
  else mret ().

(** *** [setup] *)

Definition setup (w : World.t) (stage : option string) : M unit :=
  style ← get virtual_prompt_style;
  if bool_decide (stage = Some "predict")
     || bool_decide (style = VirtualPromptStyle.INFERENCE) then
    frozen_model ← getattr "frozen_model" frozen_model;
    assign (set_frozen_model (Some (FrozenModel.freeze frozen_model)))
  else
    setup_training_data w;;
    setup_validation_data w;;
    trainer ← get trainer;
    cfg ← get cfg;
    global_batch_size ←
      lift (floordiv (Trainer.world_size trainer * Cfg.micro_batch_size cfg)
                     (Cfg.tensor_model_parallel_size cfg));
    let max_train_steps :=
      Trainer.max_steps trainer * Trainer.accumulate_grad_batches trainer in
    checks ← lift (floordiv max_train_steps (Trainer.val_check_interval trainer));
    let eval_iters := (checks + 1) * Trainer.limit_val_batches trainer in
    let test_iters := Trainer.limit_test_batches trainer in
    let train_valid_test_num_samples :=
      [max_train_steps * global_batch_size;
       eval_iters * global_batch_size;
       test_iters * global_batch_size] in
    tokenizer ← get tokenizer;
    '(train, valid, test) ←
      lift (World.build_train_valid_test_datasets w cfg trainer tokenizer
              train_valid_test_num_samples);
    assign (set_retro_train_ds (Some train));;
    assign (set_retro_validation_ds (Some valid));;
    assign (set_retro_test_ds (Some test));;
    _ ← getattr "frozen_model" frozen_model;
    mret ().

(** *** [validation_step] *)

(** [batch[i]] *)
Definition item {A} (l : list A) (i : nat) : result A :=
  match l !! i with
  | Some x => Ok x
  | None => Raise (IndexError "list index out of range")
  end.

Definition validation_step (w : World.t) (self : t)
    (batch : list Tensor) (batch_idx : Z) : result Tensor :=
  input_tokens_id ← item batch 0;
  input_attn_mask ← item batch 1;
  loss_mask ← item batch 2;
  retrieved_ids ← item batch 3;
  retrieved_attn_mask ← item batch 4;
  labels ← item batch 5;
  loss ← World.forward w input_tokens_id input_attn_mask retrieved_ids
           retrieved_attn_mask labels;
  let lm_loss := World.masked_mean w loss loss_mask in
  let reduced_loss := World.average_losses_across_data_parallel_group w [lm_loss] in
  mret reduced_loss.

(** *** The remaining methods *)

(** What [build_virtual_prompt_dataset2] prints. *)
Definition build_virtual_prompt_dataset2 (data : list string) : list string := data.

Definition freeze_existing_virtual_prompt_params : M unit :=
  table ← getattr "prompt_table" prompt_table;
  new_tasks ← get new_tasks;
  assign (set_prompt_table
            (Some (map_imap (λ taskname _, Some (bool_decide (taskname ∈ new_tasks)))
                            table)));;
  _ ← getattr "word_embeddings" word_embeddings;
  assign (set_word_embeddings (Some false)).

(** A loop that calls a method on every layer in turn.  Every layer is
    left as its call leaves it; when a call raises, the loop ends there
    and the layers after that one are not visited. *)
Fixpoint update_layers (f : Layer → Layer * result unit)
    (visited todo : list Layer) : list Layer * result unit :=
  match todo with
  | [] => (visited, Ok ())
  | layer :: todo' =>
      match f layer with
      | (layer', Ok _) => update_layers f (visited ++ [layer']) todo'
      | (layer', Raise e) => (visited ++ layer' :: todo', Raise e)
      end
  end.

Definition add_adapter (w : World.t) (name : string) (adapter_cfg : string)
    : M unit := λ self,
  let '(layers, r) :=
    update_layers (λ layer, World.layer_add_adapter w layer name adapter_cfg)
                  [] (layers self) in
  (set_layers layers self, r).

Definition get_enabled_adapters (w : World.t) (self : t) : list string :=
  remove_dups (concat (World.layer_get_enabled_adapters w <$> layers self)).

Definition set_enabled_adapters (w : World.t) (name : option string)
    (enabled : bool) : M unit := λ self,
  let '(layers, r) :=
    update_layers (λ layer, World.layer_set_enabled_adapters w layer name enabled)
                  [] (layers self) in
  (set_layers layers self, r).

Definition is_adapter_available (w : World.t) (self : t) : bool :=
  existsb (World.layer_is_adapter_available w) (layers self).

(** *** [__init__] *)

Definition unrecognized_message (style : string) : string :=
  String (ascii_of_nat 10) "" +:+ "virtual prompt style '" +:+ style
  +:+ "' not recognized, please use one of 'prompt-tuning' or 'p-tuning'".

(** The constructor from the call of [load_task_templates] on. *)
Definition prepare_prompts (init_cfg : Cfg.t) : M unit :=
  cfg ← get cfg;
  load_task_templates (Cfg.task_templates cfg);;
  max_virtual_tokens ← get max_virtual_tokens;
  assign (set_pseudo_tokens (get_pseudo_tokens max_virtual_tokens));;
  old_tokenizer ← get tokenizer;
  pseudo_tokens ← get pseudo_tokens;
  assign (set_tokenizer (Tokenizer.add_special_tokens old_tokenizer pseudo_tokens));;
  tokenizer ← get tokenizer;
  assign (set_pseudo_token_ids (Tokenizer.tokens_to_ids tokenizer pseudo_tokens));;
  pseudo_token_ids ← get pseudo_token_ids;
  assign (set_pseudo_token_ids_start (head pseudo_token_ids));;
  assign (set_pad_token_id
            (default (Tokenizer.unk_id tokenizer) (Tokenizer.pad_id tokenizer)));;
  style ← get virtual_prompt_style;
  if bool_decide (style ∈ [VirtualPromptStyle.PROMPT_TUNING;
                           VirtualPromptStyle.INFERENCE]) then
    assign (set_virtual_prompt_source (Some VirtualPromptSource.PROMPT_TABLE))
  else if bool_decide (style = VirtualPromptStyle.P_TUNING) then
    assign (set_virtual_prompt_source (Some VirtualPromptSource.PROMPT_ENCODER))
  else if bool_decide (style = VirtualPromptStyle.NO_PROMPT) then
    assign (set_virtual_prompt_source (Some VirtualPromptSource.NO_PROMPT))
  else
    lift (Raise (ValueError (unrecognized_message (Cfg.virtual_prompt_style init_cfg)))).

(** The object once lines 50 to 69 of the constructor have run: the
    attributes assigned there; none of those assigned later exists yet. *)
Definition allocate (base : Base.t) (trainer : Trainer.t)
    (existing_tasks new_tasks : list string)
    (virtual_prompt_style : VirtualPromptStyle.t)
    (frozen_model : option FrozenModel.t) : t :=
  {| trainer := trainer;
     cfg := Base.cfg base;
     tokenizer := Base.tokenizer base;
     prompt_table := Base.prompt_table base;
     word_embeddings := Base.word_embeddings base;
     existing_tasks := existing_tasks;
     new_tasks := new_tasks;
     virtual_prompt_style := virtual_prompt_style;
     frozen_model := frozen_model;
     layers := [];
     task_templates := ∅;
     task_id_num_to_name := ∅;
     max_virtual_tokens := 0;
     total_new_task_virtual_tokens := None;
     pseudo_tokens := [];
     pseudo_token_ids := [];
     pseudo_token_ids_start := None;
     pad_token_id := 0;
     virtual_prompt_source := None;
     _train_ds := None; _train_dl := None;
     _validation_ds := None; _validation_dl := None;
     _test_ds := None; _test_dl := None;
     retro_train_ds := None; retro_validation_ds := None;
     retro_test_ds := None;
     assigned := ∅ |}.

(** The frozen model is restored, and the attribute [frozen_model]
    assigned, only when [language_model_path] is given and not empty. *)
Definition restore_frozen_model (w : World.t) (cfg : Cfg.t)
    (frozen_model_cfg : FrozenModel.cfg_t) : result (option FrozenModel.t) :=
  match Cfg.language_model_path cfg with
  | Some (String _ _ as path) =>
      Some <$> World.restore_model w (Some path) frozen_model_cfg
  | _ => Ok None
  end.

(** [MegatronFusedRetrievalAdapterModel(cfg, trainer)], from the return of
    [super().__init__(cfg, trainer)] on; [base] is what that call left on
    the object.  The result is the object when the constructor returns,
    the exception when it raises. *)
Definition __init__ (w : World.t) (base : Base.t) (cfg : Cfg.t)
    (trainer : Trainer.t) : result t :=
  let existing_tasks := default [] (Cfg.existing_tasks (Base.cfg base)) in
  let new_tasks := default [] (Cfg.new_tasks (Base.cfg base)) in
  virtual_prompt_style ← VirtualPromptStyle.of_value (Cfg.virtual_prompt_style cfg);
  frozen_model_cfg ← World.restore_config w (Cfg.language_model_path cfg);
  frozen_model ← restore_frozen_model w cfg frozen_model_cfg;
  let self :=
    allocate base trainer existing_tasks new_tasks virtual_prompt_style
             frozen_model in
  match prepare_prompts cfg self with
  | (self, Ok _) => Ok self
  | (_, Raise e) => Raise e
  end.

(** *** The operations of a constructed model

    A call of one of the methods other than the constructor and
    [load_task_templates], with its arguments. *)
Inductive operation : Type :=
| call_setup (stage : option string)
| call_setup_training_data
| call_setup_validation_data
| call_setup_test_data
| call_build_virtual_prompt_dataset (args : build_args.t)
| call_collate_fn (batch : list (taskname_id * list Z * option Z)) (tp_workers : Z)
| call_validation_step (batch : list Tensor) (batch_idx : Z)
| call_pad_batch_and_build_loss_mask (input_ids : list (list Z)) (batch_max : Z)
                                     (answer_starts : list (option Z))
| call_build_virtual_prompt_dataset2 (data : list string)
| call_freeze_existing_virtual_prompt_params
| call_add_adapter (name : string) (adapter_cfg : string)
| call_get_enabled_adapters
| call_set_enabled_adapters (name : option string) (enabled : bool)
| call_is_adapter_available.

(** The object after the call, whether the call returned or raised.  The
    methods that only read [self] leave it as it is. *)
Definition after (w : World.t) (op : operation) (self : t) : t :=
  match op with
  | call_setup stage => (setup w stage self).1
  | call_setup_training_data => (setup_training_data w self).1
  | call_setup_validation_data => (setup_validation_data w self).1
  | call_setup_test_data => (setup_test_data w self).1
  | call_build_virtual_prompt_dataset args =>
      let _ := build_virtual_prompt_dataset w self args in self
  | call_collate_fn batch tp_workers =>
      let _ := collate_fn w self batch tp_workers in self
  | call_validation_step batch batch_idx =>
      let _ := validation_step w self batch batch_idx in self
  | call_pad_batch_and_build_loss_mask input_ids batch_max answer_starts =>
      let _ := pad_batch_and_build_loss_mask self input_ids batch_max answer_starts in
      self
  | call_build_virtual_prompt_dataset2 data =>
      let _ := build_virtual_prompt_dataset2 data in self
  | call_freeze_existing_virtual_prompt_params =>
      (freeze_existing_virtual_prompt_params self).1
  | call_add_adapter name adapter_cfg => (add_adapter w name adapter_cfg self).1
  | call_get_enabled_adapters => let _ := get_enabled_adapters w self in self
  | call_set_enabled_adapters name enabled =>
      (set_enabled_adapters w name enabled self).1
  | call_is_adapter_available => let _ := is_adapter_available w self in self
  end.

(** The task-template table and the pseudo-token vocabulary of a model. *)
Definition prompt_tables (self : t)
    : gmap string Template.t * gmap Z string * Z
      * (list string * list Z * option Z) :=
  (task_templates self, task_id_num_to_name self, max_virtual_tokens self,
   (pseudo_tokens self, pseudo_token_ids self, pseudo_token_ids_start self)).

(** A method body that leaves the table and the vocabulary as they are,
    on whatever object it runs and however it ends. *)
Definition keeps_prompt_tables {A} (c : M A) : Prop :=
  ∀ self, prompt_tables (c self).1 = prompt_tables self.

(** A method body that leaves a view [f] of the object, one attribute or
    several, as it is, however the body ends. *)
Definition keeps {A B} (f : t → B) (c : M A) : Prop :=
  ∀ self, f (c self).1 = f self.

(** The characters of a string, and the three characters the pattern of
    the template fields tells apart. *)
Definition chars (s : string) : list ascii := list_ascii_of_string s.

Definition open_brace : ascii := "{"%char.
Definition close_brace : ascii := "}"%char.
Definition line_feed : ascii := ascii_of_nat 10.

(** A prompt template written from its parts: each field in braces, after
    the text that precedes it, and the text after the last field. *)
Definition write_template (parts : list (string * string)) (tail : string)
    : string :=
  foldr (λ part rest, part.1 +:+ "{" +:+ part.2 +:+ "}" +:+ rest) tail parts.

End MegatronFusedRetrievalAdapterModel.

(** ** Concrete inputs

    Configurations and surroundings on which the definitions are run. *)

Module Examples.

(** k2 at version [1.11.dev20220101]. *)
Definition version_old : Version.t :=
  Version.mk 0 [1; 11]%N None None (Some 20220101%N) None.

Definition k2_old : k2_guard.K2Module :=
  {| k2_guard.__dev_version__ := Some version_old |}.

(** k2 at version [1.24.4.dev20240223+cuda11.8.torch2.2.0]. *)
Definition version_new : Version.t :=
  Version.mk 0 [1; 24; 4]%N None None (Some 20240223%N)
    (Some [Version.LStr "cuda11"; Version.LInt 8;
           Version.LStr "torch2"; Version.LInt 2; Version.LInt 0]).

Definition k2_new : k2_guard.K2Module :=
  {| k2_guard.__dev_version__ := Some version_new |}.

(** A task with a name and a number of virtual tokens. *)
Definition task (name : string) (n : Z) : Task.t :=
  {| Task.taskname := name;
     Task.prompt_template := "<|VIRTUAL_PROMPT_0|> {question} {answer}";
     Task.answer_only_loss := Some true;
     Task.answer_field := Some "answer";
     Task.truncate_field := None;
     Task.total_virtual_tokens := n;
     Task.virtual_token_splits := [n] |}.

Definition data_cfg : DataCfg.t :=
  {| DataCfg.train_ds := Some ["train.jsonl"];
     DataCfg.validation_ds := Some ["val.jsonl"];
     DataCfg.test_ds := None;
     DataCfg.min_seq_length := None;
     DataCfg.add_bos := None;
     DataCfg.add_eos := None;
     DataCfg.num_workers := 2;
     DataCfg.train_cache_data_path := None;
     DataCfg.validation_cache_data_path := None;
     DataCfg.test_cache_data_path := None;
     DataCfg.load_cache := None |}.

Definition retro_cfg : RetroCfg.t :=
  {| RetroCfg.data_prefix := ["retro_text"];
     RetroCfg.data_impl := "retmmap";
     RetroCfg.splits_string := "98,2,0";
     RetroCfg.seq_length := 2048;
     RetroCfg.skip_warmup := None;
     RetroCfg.retrieval_prefix := "retro_db";
     RetroCfg.knn_index := ["knn.idx"] |}.

Definition config (style : string) (new_tasks : list string)
    (tasks : list Task.t) : Cfg.t :=
  {| Cfg.existing_tasks := None;
     Cfg.new_tasks := Some new_tasks;
     Cfg.virtual_prompt_style := style;
     Cfg.language_model_path := Some "gpt.nemo";
     Cfg.task_templates := tasks;
     Cfg.data := data_cfg;
     Cfg.global_batch_size := Some 8;
     Cfg.micro_batch_size := 4;
     Cfg.tensor_model_parallel_size := 1;
     Cfg.sequence_parallel := None;
     Cfg.retro_data := retro_cfg;
     Cfg.seed := 1234 |}.

Definition trainer : Trainer.t :=
  {| Trainer.world_size := 2;
     Trainer.max_steps := 100;
     Trainer.accumulate_grad_batches := 1;
     Trainer.val_check_interval := 10;
     Trainer.limit_val_batches := 5;
     Trainer.limit_test_batches := 5 |}.

Definition tokenizer : Tokenizer.t :=
  {| Tokenizer.vocab := ["<pad>"; "<unk>"; "what"; "is"; "this"];
     Tokenizer.pad_id := Some 0;
     Tokenizer.unk_id := 1 |}.

Definition base (c : Cfg.t) : Base.t :=
  {| Base.cfg := c;
     Base.tokenizer := tokenizer;
     Base.prompt_table := None;
     Base.word_embeddings := None |}.

Definition world : World.t :=
  {| World.apex :=
       Some {| parallel_state.get_data_parallel_rank := 0;
               parallel_state.get_data_parallel_world_size := 2;
               parallel_state.get_tensor_model_parallel_world_size := 1 |};
     World.restore_config := λ _, Ok {| FrozenModel.encoder_seq_length := 2048 |};
     World.restore_model := λ _ c, Ok {| FrozenModel.cfg := c; FrozenModel.frozen := false |};
     World.build_train_valid_test_datasets := λ _ _ _ samples,
       Ok ({| retro_split := "train"; retro_num_samples := default 0 (samples !! 0%nat) |},
           {| retro_split := "valid"; retro_num_samples := default 0 (samples !! 1%nat) |},
           {| retro_split := "test"; retro_num_samples := default 0 (samples !! 2%nat) |});
     World.forward := λ _ _ _ _ labels, Ok labels;
     World.build_position_ids := λ rows, (λ r, range (len r)) <$> rows;
     World.masked_mean := λ loss _, loss;
     World.average_losses_across_data_parallel_group := λ losses,
       default {| shape := []; entries := [] |} (head losses);
     World.layer_add_adapter := λ layer name _, (layer ++ [(name, true)], Ok ());
     World.layer_get_enabled_adapters := λ layer, (filter (λ a, a.2 = true) layer).*1;
     World.layer_set_enabled_adapters := λ layer name enabled,
       ((λ a : string * bool,
           if bool_decide (name = None ∨ name = Some a.1) then (a.1, enabled)
           else a) <$> layer,
        Ok ());
     World.layer_is_adapter_available := λ layer, bool_decide (layer ≠ []) |}.

(** The object on which [load_task_templates] runs in the constructor,
    for a p-tuning configuration with the given new tasks. *)
Definition fresh (new_tasks : list string) (tasks : list Task.t)
    : MegatronFusedRetrievalAdapterModel.t :=
  MegatronFusedRetrievalAdapterModel.allocate
    (base (config "p-tuning" new_tasks tasks)) trainer [] new_tasks
    VirtualPromptStyle.P_TUNING None.

(** A p-tuning configuration with two new tasks of ten virtual tokens,
    and the model constructed from it. *)
Definition p_tuning_cfg : Cfg.t :=
  config "p-tuning" ["squad"; "intent"] [task "squad" 10; task "intent" 10].

Definition model : MegatronFusedRetrievalAdapterModel.t :=
  match MegatronFusedRetrievalAdapterModel.__init__ world (base p_tuning_cfg)
          p_tuning_cfg trainer with
  | Ok m => m
  | Raise _ => fresh [] []
  end.

(** A batch of two items: the task's name as token ids, the input ids,
    the start of the answer. *)
Definition batch
    : list (MegatronFusedRetrievalAdapterModel.taskname_id * list Z * option Z) :=
  [(MegatronFusedRetrievalAdapterModel.task_ids [2; 3], [5; 6; 2; 3], Some 2);
   (MegatronFusedRetrievalAdapterModel.task_ids [4], [7; 2; 4], None)].

(** A configuration without task templates, and one whose style is not
    recognized. *)
Definition empty_cfg : Cfg.t := config "prompt-tuning" [] [].

Definition lora_cfg : Cfg.t :=
  config "lora" ["squad"; "intent"] [task "squad" 10; task "intent" 10].

(** The model constructed from the configuration without task templates. *)
Definition empty_model : MegatronFusedRetrievalAdapterModel.t :=
  match MegatronFusedRetrievalAdapterModel.__init__ world (base empty_cfg)
          empty_cfg trainer with
  | Ok m => m
  | Raise _ => fresh [] []
  end.

(** Two tasks with different numbers of virtual tokens. *)
Definition mixed_tasks : list Task.t := [task "squad" 10; task "intent" 12].

(** Two tasks with the same number of virtual tokens. *)
Definition even_tasks : list Task.t := [task "squad" 10; task "intent" 10].

(** Two tasks with one name. *)
Definition twin_tasks : list Task.t := [task "squad" 10; task "squad" 12].

(** Arguments for [build_virtual_prompt_dataset]: a training set with a
    global batch size, with or without the data loader. *)
Definition args (batch_size : option Z) (get_dataset_only : bool)
    : MegatronFusedRetrievalAdapterModel.build_args.t :=
  {| MegatronFusedRetrievalAdapterModel.build_args.data := ["train.jsonl"];
     MegatronFusedRetrievalAdapterModel.build_args.batch_size := batch_size;
     MegatronFusedRetrievalAdapterModel.build_args.max_seq_length := 2048;
     MegatronFusedRetrievalAdapterModel.build_args.min_seq_length := 1;
     MegatronFusedRetrievalAdapterModel.build_args.add_bos := false;
     MegatronFusedRetrievalAdapterModel.build_args.add_eos := true;
     MegatronFusedRetrievalAdapterModel.build_args.for_train := true;
     MegatronFusedRetrievalAdapterModel.build_args.drop_last := true;
     MegatronFusedRetrievalAdapterModel.build_args.shuffle := true;
     MegatronFusedRetrievalAdapterModel.build_args.num_workers := 2;
     MegatronFusedRetrievalAdapterModel.build_args.pin_memory := true;
     MegatronFusedRetrievalAdapterModel.build_args.tokens_to_generate := None;
     MegatronFusedRetrievalAdapterModel.build_args.get_dataset_only :=
       get_dataset_only;
     MegatronFusedRetrievalAdapterModel.build_args.cache_data_path := None;
     MegatronFusedRetrievalAdapterModel.build_args.load_cache := false |}.

(** The same surroundings without apex. *)
Definition world_without_apex : World.t :=
  {| World.apex := None;
     World.restore_config := World.restore_config world;
     World.restore_model := World.restore_model world;
     World.build_train_valid_test_datasets :=
       World.build_train_valid_test_datasets world;
     World.forward := World.forward world;
     World.build_position_ids := World.build_position_ids world;
     World.masked_mean := World.masked_mean world;
     World.average_losses_across_data_parallel_group :=
       World.average_losses_across_data_parallel_group world;
     World.layer_add_adapter := World.layer_add_adapter world;
     World.layer_get_enabled_adapters := World.layer_get_enabled_adapters world;
     World.layer_set_enabled_adapters := World.layer_set_enabled_adapters world;
     World.layer_is_adapter_available := World.layer_is_adapter_available world |}.

(** The p-tuning configuration with a tensor-parallel size of 0, and the
    model constructed from it. *)
Definition zero_tp_cfg : Cfg.t :=
  {| Cfg.existing_tasks := Cfg.existing_tasks p_tuning_cfg;
     Cfg.new_tasks := Cfg.new_tasks p_tuning_cfg;
     Cfg.virtual_prompt_style := Cfg.virtual_prompt_style p_tuning_cfg;
     Cfg.language_model_path := Cfg.language_model_path p_tuning_cfg;
     Cfg.task_templates := Cfg.task_templates p_tuning_cfg;
     Cfg.data := Cfg.data p_tuning_cfg;
     Cfg.global_batch_size := Cfg.global_batch_size p_tuning_cfg;
     Cfg.micro_batch_size := Cfg.micro_batch_size p_tuning_cfg;
     Cfg.tensor_model_parallel_size := 0;
     Cfg.sequence_parallel := Cfg.sequence_parallel p_tuning_cfg;
     Cfg.retro_data := Cfg.retro_data p_tuning_cfg;
     Cfg.seed := Cfg.seed p_tuning_cfg |}.

Definition zero_tp_model : MegatronFusedRetrievalAdapterModel.t :=
  match MegatronFusedRetrievalAdapterModel.__init__ world (base zero_tp_cfg)
          zero_tp_cfg trainer with
  | Ok m => m
  | Raise _ => fresh [] []
  end.

End Examples.

(** * Properties *)

Import MegatronFusedRetrievalAdapterModel.

(** ** Decimal numerals *)

Lemma digit_value_pretty_N_char (d : N) :
  (d < 10)%N → digit_value (pretty_N_char d) = Some d.
Proof.
  intros Hd.
  assert (d = 0 ∨ d = 1 ∨ d = 2 ∨ d = 3 ∨ d = 4 ∨ d = 5 ∨ d = 6 ∨ d = 7
          ∨ d = 8 ∨ d = 9)%N as Hcases by lia.
  repeat (destruct Hcases as [-> | Hcases]; [reflexivity |]).
  by subst.
Qed.

Lemma digits_value_pretty_N_go (x : N) (s : string) :
  digits_value 0 (pretty_N_go x s) = digits_value x s.
Proof.
  revert s. induction (N.lt_wf_0 x) as [x _ IH]. intros s.
  destruct (decide (x = 0)%N) as [-> | Hx].
  - by rewrite pretty_N_go_0.
  - rewrite pretty_N_go_step by lia.
    rewrite IH by (apply N.div_lt; lia).
    simpl. rewrite digit_value_pretty_N_char by (apply N.mod_lt; lia).
    f_equal. rewrite (N.div_mod x 10) at 3 by lia. lia.
Qed.

Lemma decimal_value_pretty_N (x : N) :
  decimal_value (pretty x) = Some (Z.of_N x).
Proof.
  unfold pretty, pretty_N. case_decide as Hx; [by subst |].
  pose proof (digits_value_pretty_N_go x "") as Hgo. simpl in Hgo.
  destruct (pretty_N_go x "") as [| c s] eqn:Hs.
  - simpl in Hgo. congruence.
  - unfold decimal_value. by rewrite Hgo.
Qed.

Lemma str_decimal_value (i : Z) : 0 ≤ i → decimal_value (str i) = Some i.
Proof.
  intros Hi. unfold str, pretty, pretty_Z.
  destruct i as [| p | p]; [done | | lia].
  unfold pretty, pretty_positive. by rewrite decimal_value_pretty_N.
Qed.

Lemma str_inj : Inj (=) (=) str.
Proof. unfold str. apply _. Qed.

(** ** Strings *)

Lemma string_app_length (s u : string) :
  String.length (s +:+ u) = (String.length s + String.length u)%nat.
Proof. induction s as [| c s IH]; simpl; [done | by rewrite IH]. Qed.

Lemma string_app_inj_r (e s u : string) : s +:+ e = u +:+ e → s = u.
Proof.
  revert u. induction s as [| c s IH]; intros [| d u] H.
  - done.
  - apply (f_equal String.length) in H.
    rewrite !string_app_length in H. simpl in H. lia.
  - apply (f_equal String.length) in H.
    rewrite !string_app_length in H. simpl in H. lia.
  - injection H as -> H. f_equal. by apply IH.
Qed.

(** ** [get_pseudo_tokens] *)

Lemma range_length (n : Z) : length (range n) = Z.to_nat n.
Proof. unfold range. by rewrite length_fmap, length_seq. Qed.

Lemma range_lookup (n i : Z) :
  0 ≤ i < n → range n !! Z.to_nat i = Some i.
Proof.
  intros Hi. unfold range. rewrite list_lookup_fmap.
  rewrite lookup_seq_lt by lia. simpl. f_equal. lia.
Qed.

Lemma range_NoDup (n : Z) : NoDup (range n).
Proof.
  unfold range. apply NoDup_fmap_2; [| apply NoDup_seq].
  intros x y Hxy. by apply (inj Z.of_nat).
Qed.

Lemma pseudo_token_inj :
  Inj (=) (=) (λ i, VirtualPromptPlaceholderToken.BASE +:+ str i
                      +:+ VirtualPromptPlaceholderToken.END).
Proof.
  intros i j H. apply String.app_inj in H.
  apply string_app_inj_r in H. by apply str_inj.
Qed.

(** C1.  For a non-negative [n], [get_pseudo_tokens n] has exactly [n]
    elements, they are pairwise distinct, the element at position [i] is
    the base marker, the decimal numeral of [i] and the end marker in this
    order, and for [n = 3] the list is the one of the docstring. *)
Theorem get_pseudo_tokens_spec (n : Z) :
  0 ≤ n →
  len (get_pseudo_tokens n) = n
  ∧ NoDup (get_pseudo_tokens n)
  ∧ (∀ i, 0 ≤ i < n →
       get_pseudo_tokens n !! Z.to_nat i
       = Some (VirtualPromptPlaceholderToken.BASE +:+ str i
               +:+ VirtualPromptPlaceholderToken.END)
       ∧ decimal_value (str i) = Some i)
  ∧ get_pseudo_tokens 3 = ["<prompt_0>"; "<prompt_1>"; "<prompt_2>"].
Proof.
  intros Hn. unfold get_pseudo_tokens. repeat split.
  - unfold len. rewrite length_fmap, range_length. lia.
  - apply (@NoDup_fmap_2 _ _ _ pseudo_token_inj), range_NoDup.
  - rewrite list_lookup_fmap, range_lookup by done. done.
  - apply str_decimal_value. lia.
Qed.

Lemma get_pseudo_tokens_spec_witness :
  len (get_pseudo_tokens 3) = 3
  ∧ NoDup (get_pseudo_tokens 3)
  ∧ (∀ i, 0 ≤ i < 3 →
       get_pseudo_tokens 3 !! Z.to_nat i
       = Some (VirtualPromptPlaceholderToken.BASE +:+ str i
               +:+ VirtualPromptPlaceholderToken.END)
       ∧ decimal_value (str i) = Some i)
  ∧ get_pseudo_tokens 3 = ["<prompt_0>"; "<prompt_1>"; "<prompt_2>"].
Proof. apply (get_pseudo_tokens_spec 3). lia. Defined.

(** ** The residual padding of [collate_fn] *)

(** C9.  For [batch_max >= 1] and [tp_workers > 1] the residual padding is
    non-negative and strictly below [tp_workers], and [tp_workers] divides
    the padded width less one, the width left after the trim by one
    token; for [tp_workers <= 1] the padding is 0. *)
Theorem resi_padding_spec (batch_max tp_workers : Z) :
  1 ≤ batch_max →
  (1 < tp_workers →
     0 ≤ resi_padding batch_max tp_workers < tp_workers
     ∧ (batch_max + resi_padding batch_max tp_workers - 1) `mod` tp_workers = 0)
  ∧ (tp_workers ≤ 1 → resi_padding batch_max tp_workers = 0).
Proof.
  intros Hb. unfold resi_padding. split.
  - intros Ht. rewrite bool_decide_eq_true_2 by lia.
    pose proof (Z.mod_pos_bound (batch_max - 1) tp_workers ltac:(lia)) as Hr.
    pose proof (Z.div_mod (batch_max - 1) tp_workers ltac:(lia)) as Hdm.
    set (r := (batch_max - 1) `mod` tp_workers) in *.
    set (q := (batch_max - 1) `div` tp_workers) in *.
    split; [apply Z.mod_pos_bound; lia |].
    destruct (decide (r = 0)) as [Hr0 | Hr0].
    + rewrite Hr0, Z.sub_0_r, Z.mod_same, Z.add_0_r by lia.
      replace (batch_max - 1) with (q * tp_workers) by lia.
      apply Z.mod_mul. lia.
    + rewrite (Z.mod_small (tp_workers - r)) by lia.
      replace (batch_max + (tp_workers - r) - 1) with ((q + 1) * tp_workers) by lia.
      apply Z.mod_mul. lia.
  - intros Ht. by rewrite bool_decide_eq_false_2 by lia.
Qed.

Lemma resi_padding_spec_witness :
  (0 ≤ resi_padding 6 4 < 4 ∧ (6 + resi_padding 6 4 - 1) `mod` 4 = 0)
  ∧ resi_padding 6 1 = 0.
Proof.
  split.
  - apply (resi_padding_spec 6 4); lia.
  - apply (resi_padding_spec 6 1); lia.
Defined.

(** ** The k2 guard *)

Lemma minimum_version_str : Version.str k2_guard.__K2_MINIMUM_VERSION = "1.11".
Proof. reflexivity. Qed.

(** C4.  Importing the guard module: without k2 it raises
    [ModuleNotFoundError] with the installation instructions, and k2 is not
    touched; with a k2 whose version is below 1.11 it raises [ImportError]
    with the minimum version, 1.11, and the installed one, after importing
    k2 and reading its version and nothing else; in both cases no k2 is
    handed out.  With a k2 of version at least 1.11 the import returns and
    the module's [k2] is the installed k2. *)
Theorem import_module_spec (env : k2_guard.Env) :
  (env = None →
     k2_guard.import_module env
     = ([], Raise (ModuleNotFoundError k2_guard.K2_INSTALLATION_MESSAGE)))
  ∧ (∀ k2 v,
       env = Some k2 → k2_guard.__dev_version__ k2 = Some v →
       Version.ltb v (Version.of_release [1; 11]%N) = true →
       k2_guard.import_module env
       = ([k2_guard.ImportK2; k2_guard.ReadDevVersion],
          Raise (ImportError
                   (k2_guard.nl +:+ "Minimum required k2 version: 1.11;"
                    +:+ k2_guard.nl +:+ "Installed k2 version: "
                    +:+ Version.str v +:+ k2_guard.nl))))
  ∧ (∀ k2 v,
       env = Some k2 → k2_guard.__dev_version__ k2 = Some v →
       Version.ltb v (Version.of_release [1; 11]%N) = false →
       k2_guard.import_module env
       = ([k2_guard.ImportK2; k2_guard.ReadDevVersion], Ok k2)).
Proof.
  repeat split.
  - by intros ->.
  - intros k2 v -> Hv Hlt.
    unfold k2_guard.import_module, k2_guard.package_available. cbn [negb].
    rewrite Hv.
    change k2_guard.__K2_MINIMUM_VERSION with (Version.of_release [1; 11]%N).
    rewrite Hlt. reflexivity.
  - intros k2 v -> Hv Hge.
    unfold k2_guard.import_module, k2_guard.package_available. cbn [negb].
    rewrite Hv.
    change k2_guard.__K2_MINIMUM_VERSION with (Version.of_release [1; 11]%N).
    by rewrite Hge.
Qed.

Lemma import_module_spec_witness :
  k2_guard.import_module None
  = ([], Raise (ModuleNotFoundError k2_guard.K2_INSTALLATION_MESSAGE))
  ∧ k2_guard.import_module (Some Examples.k2_old)
    = ([k2_guard.ImportK2; k2_guard.ReadDevVersion],
       Raise (ImportError
                (k2_guard.nl +:+ "Minimum required k2 version: 1.11;"
                 +:+ k2_guard.nl +:+ "Installed k2 version: 1.11.dev20220101"
                 +:+ k2_guard.nl)))
  ∧ k2_guard.import_module (Some Examples.k2_new)
    = ([k2_guard.ImportK2; k2_guard.ReadDevVersion], Ok Examples.k2_new).
Proof.
  split; [| split].
  - apply (import_module_spec None). reflexivity.
  - apply (proj1 (proj2 (import_module_spec (Some Examples.k2_old)))
             Examples.k2_old Examples.version_old); reflexivity.
  - apply (proj2 (proj2 (import_module_spec (Some Examples.k2_new)))
             Examples.k2_new Examples.version_new); reflexivity.
Defined.

(** ** [load_task_templates]: the loop *)

Lemma register_task_counter (st : t * Z) (task : Task.t) :
  (register_task st task).2 = st.2 + 1.
Proof. reflexivity. Qed.

Lemma loop_counter (tasks : list Task.t) (st : t * Z) :
  (foldl register_task st tasks).2 = st.2 + len tasks.
Proof.
  revert st. induction tasks as [| task tasks IH]; intros st; simpl.
  - unfold len. simpl. lia.
  - rewrite IH, register_task_counter. unfold len. simpl. lia.
Qed.

Lemma loop_new_tasks (tasks : list Task.t) (st : t * Z) :
  new_tasks (foldl register_task st tasks).1 = new_tasks st.1.
Proof.
  revert st. induction tasks as [| task tasks IH]; intros st; simpl; [done |].
  by rewrite IH.
Qed.

Lemma loop_style (tasks : list Task.t) (st : t * Z) :
  virtual_prompt_style (foldl register_task st tasks).1
  = virtual_prompt_style st.1.
Proof.
  revert st. induction tasks as [| task tasks IH]; intros st; simpl; [done |].
  by rewrite IH.
Qed.

Lemma loop_tokenizer (tasks : list Task.t) (st : t * Z) :
  tokenizer (foldl register_task st tasks).1 = tokenizer st.1.
Proof.
  revert st. induction tasks as [| task tasks IH]; intros st; simpl; [done |].
  by rewrite IH.
Qed.

Lemma loop_max_virtual_tokens (tasks : list Task.t) (st : t * Z) :
  max_virtual_tokens (foldl register_task st tasks).1
  = foldl Z.max (max_virtual_tokens st.1) (Task.total_virtual_tokens <$> tasks).
Proof.
  revert st. induction tasks as [| task tasks IH]; intros st; simpl; [done |].
  by rewrite IH.
Qed.

(** Ids below the counter are not written again. *)
Lemma loop_names_below (tasks : list Task.t) (st : t * Z) (j : Z) :
  j < st.2 →
  task_id_num_to_name (foldl register_task st tasks).1 !! j
  = task_id_num_to_name st.1 !! j.
Proof.
  revert st. induction tasks as [| task tasks IH]; intros st Hj; simpl; [done |].
  rewrite IH by (rewrite register_task_counter; lia).
  simpl. apply lookup_insert_ne. lia.
Qed.

Lemma loop_names (tasks : list Task.t) (st : t * Z) (i : nat) (task : Task.t) :
  tasks !! i = Some task →
  task_id_num_to_name (foldl register_task st tasks).1 !! (st.2 + Z.of_nat i)
  = Some (Task.taskname task).
Proof.
  revert st i. induction tasks as [| x tasks IH]; intros st i Hi; [done |].
  destruct i as [| i]; cbn [foldl].
  - injection Hi as ->.
    rewrite loop_names_below by (rewrite register_task_counter; lia).
    rewrite Z.add_0_r. apply lookup_insert_eq.
  - replace (st.2 + Z.of_nat (S i))
      with ((register_task st x).2 + Z.of_nat i)
      by (rewrite register_task_counter; lia).
    by apply IH.
Qed.

(** A name that no task of the list bears keeps its entry. *)
Lemma loop_templates_other (tasks : list Task.t) (st : t * Z) (name : string) :
  (∀ task, task ∈ tasks → Task.taskname task ≠ name) →
  task_templates (foldl register_task st tasks).1 !! name
  = task_templates st.1 !! name.
Proof.
  revert st. induction tasks as [| x tasks IH]; intros st Hname; simpl; [done |].
  rewrite IH by (intros task Htask; apply Hname; by right).
  simpl. apply lookup_insert_ne, Hname. by left.
Qed.

(** The entry under a name is the one of the last task that bears it. *)
Lemma loop_templates (tasks : list Task.t) (st : t * Z) (i : nat) (task : Task.t) :
  tasks !! i = Some task →
  (∀ j task', (i < j)%nat → tasks !! j = Some task' →
              Task.taskname task' ≠ Task.taskname task) →
  task_templates (foldl register_task st tasks).1 !! Task.taskname task
  = Some (template_of task (st.2 + Z.of_nat i)).
Proof.
  revert st i. induction tasks as [| x tasks IH]; intros st i Hi Hlast; [done |].
  destruct i as [| i]; cbn [foldl].
  - injection Hi as ->.
    rewrite loop_templates_other.
    + rewrite Z.add_0_r. apply lookup_insert_eq.
    + intros task' [j Hj]%list_elem_of_lookup.
      apply (Hlast (S j)); [lia | done].
  - rewrite (IH (register_task st x) i Hi).
    + rewrite register_task_counter. f_equal. f_equal. lia.
    + intros j task' Hij Hj. apply (Hlast (S j)); [lia | done].
Qed.

Lemma loop_names_above (tasks : list Task.t) (st : t * Z) (j : Z) :
  st.2 + len tasks ≤ j →
  task_id_num_to_name (foldl register_task st tasks).1 !! j
  = task_id_num_to_name st.1 !! j.
Proof.
  revert st. induction tasks as [| task tasks IH]; intros st Hj; [done |].
  cbn [foldl]. unfold len in *. cbn [length] in Hj.
  rewrite IH by (rewrite register_task_counter; lia).
  apply lookup_insert_ne. lia.
Qed.

(** Among the tasks that bear the name of the task at [i], one is last. *)
Lemma last_bearer (tasks : list Task.t) (i : nat) (task : Task.t) :
  tasks !! i = Some task →
  ∃ j task',
    (i ≤ j)%nat ∧ tasks !! j = Some task'
    ∧ Task.taskname task' = Task.taskname task
    ∧ ∀ k task'', (j < k)%nat → tasks !! k = Some task'' →
                  Task.taskname task'' ≠ Task.taskname task'.
Proof.
  remember (length tasks - i)%nat as d eqn:Hd.
  revert i task Hd. induction (lt_wf d) as [d _ IH]. intros i task Hd Hi.
  destruct (decide (Exists (λ t', Task.taskname t' = Task.taskname task)
                           (drop (S i) tasks))) as [Hex | Hnone].
  - apply Exists_exists in Hex as (t' & [k Hk]%list_elem_of_lookup & Hname).
    rewrite lookup_drop in Hk.
    pose proof (lookup_lt_Some _ _ _ Hk) as Hlt.
    destruct (IH (length tasks - (S i + k))%nat ltac:(lia) (S i + k)%nat t'
                 eq_refl Hk) as (j & t'' & Hj & Hlook & Hsame & Hlast).
    exists j, t''. repeat split; [lia | done | congruence | done].
  - exists i, task. repeat split; [done.. |].
    intros k t'' Hk Hlook Hname. apply Hnone, Exists_exists.
    exists t''. split; [| done].
    apply list_elem_of_lookup. exists (k - S i)%nat.
    rewrite lookup_drop. by replace (S i + (k - S i))%nat with k by lia.
Qed.

(** ** [load_task_templates]: the check of the new tasks *)

Lemma load_task_templates_eq (tasks : list Task.t) (self : t) :
  load_task_templates tasks self
  = check_new_tasks
      (foldl register_task
         (set_max_virtual_tokens 0
            (set_task_id_num_to_name ∅ (set_task_templates ∅ self)), 0)
         tasks).1.
Proof. reflexivity. Qed.

Lemma all_totals_match_set_total (self : t) (v : option Z) (total : Z)
    (names : list string) :
  all_totals_match (set_total_new_task_virtual_tokens v self) total names
  = all_totals_match self total names.
Proof.
  induction names as [| name names IH]; [done |].
  cbn [all_totals_match].
  change (total_virtual_tokens_of (set_total_new_task_virtual_tokens v self) name)
    with (total_virtual_tokens_of self name).
  destruct (total_virtual_tokens_of self name); cbn; [| done].
  by rewrite IH.
Qed.

(** The check written out: what it leaves on [self] and what it returns. *)
Lemma check_new_tasks_eq (self : t) :
  check_new_tasks self
  = match new_tasks self with
    | [] => (self, Ok ())
    | first :: _ =>
        match total_virtual_tokens_of self first with
        | Raise e => (self, Raise e)
        | Ok total =>
            (set_total_new_task_virtual_tokens (Some total) self,
             match all_totals_match self total (new_tasks self) with
             | Ok true => Ok ()
             | Ok false => Raise (AssertionError mismatch_message)
             | Raise e => Raise e
             end)
        end
    end.
Proof.
  unfold check_new_tasks, get, assign, lift, mbind, M_bind, mret, M_ret.
  destruct (new_tasks self) as [| first rest] eqn:Hnames; [done |].
  destruct (total_virtual_tokens_of self first) as [total | e]; [| done].
  rewrite all_totals_match_set_total.
  by destruct (all_totals_match self total (first :: rest)) as [[|] | e].
Qed.

Lemma check_new_tasks_tables (self : t) :
  task_templates (check_new_tasks self).1 = task_templates self
  ∧ task_id_num_to_name (check_new_tasks self).1 = task_id_num_to_name self
  ∧ max_virtual_tokens (check_new_tasks self).1 = max_virtual_tokens self
  ∧ virtual_prompt_style (check_new_tasks self).1 = virtual_prompt_style self
  ∧ tokenizer (check_new_tasks self).1 = tokenizer self.
Proof.
  rewrite check_new_tasks_eq.
  destruct (new_tasks self) as [| first rest]; [done |].
  by destruct (total_virtual_tokens_of self first).
Qed.

Lemma all_totals_match_true (self : t) (total : Z) (names : list string) :
  all_totals_match self total names = Ok true
  ↔ ∀ name, name ∈ names → total_virtual_tokens_of self name = Ok total.
Proof.
  induction names as [| name names IH]; cbn [all_totals_match].
  - split; [intros _ name Hin; by apply elem_of_nil in Hin | done].
  - destruct (total_virtual_tokens_of self name) as [n | e] eqn:Hn; cbn.
    + case_bool_decide as Heq.
      * subst n. rewrite IH. split.
        -- intros H name' [-> | Hin]%elem_of_cons; [done | by apply H].
        -- intros H name' Hin. apply H. by right.
      * split; [done |]. intros H.
        specialize (H name ltac:(by left)). congruence.
    + split; [done |]. intros H.
      specialize (H name ltac:(by left)). congruence.
Qed.

(** The generator stops at the first name whose total differs. *)
Lemma all_totals_match_stop (self : t) (total n : Z)
    (pre post : list string) (bad : string) :
  (∀ name, name ∈ pre → total_virtual_tokens_of self name = Ok total) →
  total_virtual_tokens_of self bad = Ok n → n ≠ total →
  all_totals_match self total (pre ++ bad :: post) = Ok false.
Proof.
  intros Hpre Hbad Hne. induction pre as [| name pre IH]; cbn [all_totals_match app].
  - rewrite Hbad. cbn. by rewrite bool_decide_eq_false_2.
  - rewrite (Hpre name) by (by left). cbn.
    rewrite bool_decide_eq_true_2 by done.
    apply IH. intros name' Hin. apply Hpre. by right.
Qed.

(** ... or at the first name that is missing from the table. *)
Lemma all_totals_match_missing (self : t) (total : Z)
    (pre post : list string) (bad : string) :
  (∀ name, name ∈ pre → total_virtual_tokens_of self name = Ok total) →
  task_templates self !! bad = None →
  all_totals_match self total (pre ++ bad :: post) = Raise (KeyError bad).
Proof.
  intros Hpre Hbad. induction pre as [| name pre IH]; cbn [all_totals_match app].
  - unfold total_virtual_tokens_of. by rewrite Hbad.
  - rewrite (Hpre name) by (by left). cbn.
    rewrite bool_decide_eq_true_2 by done.
    apply IH. intros name' Hin. apply Hpre. by right.
Qed.

(** When the generator yields false, some name has a differing total. *)
Lemma all_totals_match_false (self : t) (total : Z) (names : list string) :
  all_totals_match self total names = Ok false →
  ∃ name n, name ∈ names ∧ total_virtual_tokens_of self name = Ok n ∧ n ≠ total.
Proof.
  induction names as [| name names IH]; cbn [all_totals_match]; [done |].
  destruct (total_virtual_tokens_of self name) as [n | e] eqn:Hn; cbn; [| done].
  case_bool_decide as Heq.
  - intros (name' & n' & Hin & Hn' & Hne)%IH.
    exists name', n'. split; [by right | done].
  - intros _. exists name, n. split; [by left | done].
Qed.

Lemma all_totals_match_raise (self : t) (total : Z) (names : list string)
    (e : exn) :
  all_totals_match self total names = Raise e →
  ∃ name, name ∈ names ∧ task_templates self !! name = None ∧ e = KeyError name.
Proof.
  induction names as [| name names IH]; cbn [all_totals_match]; [done |].
  unfold total_virtual_tokens_of at 1.
  destruct (task_templates self !! name) as [entry |] eqn:Hn; cbn.
  - case_bool_decide as Heq; [| done].
    intros (name' & Hin & Hnone & ->)%IH.
    exists name'. split; [by right | done].
  - intros [= <-]. exists name. split; [by left | done].
Qed.

Lemma load_task_templates_tables (tasks : list Task.t) (self : t) :
  let loop :=
    foldl register_task
      (set_max_virtual_tokens 0
         (set_task_id_num_to_name ∅ (set_task_templates ∅ self)), 0) tasks in
  task_templates (load_task_templates tasks self).1 = task_templates loop.1
  ∧ task_id_num_to_name (load_task_templates tasks self).1
    = task_id_num_to_name loop.1
  ∧ max_virtual_tokens (load_task_templates tasks self).1
    = max_virtual_tokens loop.1
  ∧ virtual_prompt_style (load_task_templates tasks self).1
    = virtual_prompt_style self
  ∧ tokenizer (load_task_templates tasks self).1 = tokenizer self.
Proof.
  intros loop. rewrite load_task_templates_eq. fold loop.
  destruct (check_new_tasks_tables loop.1) as (-> & -> & -> & -> & ->).
  repeat split.
  - unfold loop. by rewrite loop_style.
  - unfold loop. by rewrite loop_tokenizer.
Qed.

(** C3, amended.  After [load_task_templates], whether it returned or
    raised: [task_id_num_to_name] maps [i] to the name of the task at
    position [i] of the config list and has no other keys; the entry
    stored under that name is the one built from the last task of the list
    that bears the name, with that task's position as [task_id_num]; so it
    is the entry of the task at [i], with [task_id_num] [i], whenever no
    later task bears the same name. *)
Theorem load_task_templates_task_ids (tasks : list Task.t) (self : t)
    (i : nat) (task : Task.t) :
  tasks !! i = Some task →
  task_id_num_to_name (load_task_templates tasks self).1 !! Z.of_nat i
  = Some (Task.taskname task)
  ∧ (∀ k, k < 0 ∨ len tasks ≤ k →
          task_id_num_to_name (load_task_templates tasks self).1 !! k = None)
  ∧ ((∀ j task', (i < j)%nat → tasks !! j = Some task' →
                 Task.taskname task' ≠ Task.taskname task) →
     task_templates (load_task_templates tasks self).1 !! Task.taskname task
     = Some (template_of task (Z.of_nat i)))
  ∧ (∃ j task',
       (i ≤ j)%nat ∧ tasks !! j = Some task'
       ∧ Task.taskname task' = Task.taskname task
       ∧ task_templates (load_task_templates tasks self).1 !! Task.taskname task
         = Some (template_of task' (Z.of_nat j))).
Proof.
  intros Hi.
  destruct (load_task_templates_tables tasks self) as (-> & -> & _).
  set (st0 := (set_max_virtual_tokens 0
                 (set_task_id_num_to_name ∅ (set_task_templates ∅ self)), 0)).
  repeat split.
  - exact (loop_names tasks st0 i task Hi).
  - intros k [Hk | Hk].
    + rewrite (loop_names_below tasks st0) by (simpl; lia). apply lookup_empty.
    + rewrite (loop_names_above tasks st0) by (simpl; lia). apply lookup_empty.
  - intros Hlast. exact (loop_templates tasks st0 i task Hi Hlast).
  - destruct (last_bearer tasks i task Hi) as (j & task' & Hij & Hj & Hname & Hlast).
    exists j, task'. repeat split; [done.. |].
    rewrite <- Hname. exact (loop_templates tasks st0 j task' Hj Hlast).
Qed.

Lemma load_task_templates_task_ids_witness :
  task_id_num_to_name
    (load_task_templates Examples.even_tasks
       (Examples.fresh [] [])).1 !! 1
  = Some "intent"
  ∧ task_templates
      (load_task_templates Examples.even_tasks
         (Examples.fresh [] [])).1 !! "intent"
    = Some (template_of (Examples.task "intent" 10) 1).
Proof.
  pose proof (load_task_templates_task_ids
                Examples.even_tasks
                (Examples.fresh [] []) 1 (Examples.task "intent" 10) eq_refl)
    as (Hname & _ & Hentry & _).
  split; [exact Hname |].
  apply Hentry. intros [| [| j]] task' Hj Hlook; [lia | lia | done].
Defined.

(** C3 as stated fails when two tasks of the list bear one name: the entry
    under the name of the task at position 0 has [task_id_num] 1. *)
Lemma load_task_templates_task_ids_counterexample :
  Examples.twin_tasks !! 0%nat
  = Some (Examples.task "squad" 10)
  ∧ Template.task_id_num
      <$> task_templates
            (load_task_templates
               Examples.twin_tasks
               (Examples.fresh [] [])).1 !! "squad"
    = Some 1
  ∧ ¬ (∀ (tasks : list Task.t) (self : t) (i : nat) (task : Task.t),
         tasks !! i = Some task →
         Template.task_id_num
           <$> task_templates (load_task_templates tasks self).1
                 !! Task.taskname task
         = Some (Z.of_nat i)).
Proof.
  assert (Template.task_id_num
            <$> task_templates
                  (load_task_templates
                     Examples.twin_tasks
                     (Examples.fresh [] [])).1 !! "squad"
          = Some 1) as Hentry by (by vm_compute).
  split; [done | split; [exact Hentry |]].
  intros Hall.
  specialize (Hall Examples.twin_tasks
                (Examples.fresh [] []) 0%nat (Examples.task "squad" 10) eq_refl).
  change (Task.taskname (Examples.task "squad" 10)) with "squad" in Hall.
  rewrite Hentry in Hall. discriminate.
Qed.

Lemma total_virtual_tokens_of_ext (self self' : t) (name : string) :
  task_templates self = task_templates self' →
  total_virtual_tokens_of self name = total_virtual_tokens_of self' name.
Proof. unfold total_virtual_tokens_of. by intros ->. Qed.

Lemma all_totals_match_ext (self self' : t) (total : Z) (names : list string) :
  task_templates self = task_templates self' →
  all_totals_match self total names = all_totals_match self' total names.
Proof.
  intros Htable. induction names as [| name names IH]; [done |].
  cbn [all_totals_match].
  by rewrite (total_virtual_tokens_of_ext self self' name Htable), IH.
Qed.

(** The outcome of [load_task_templates] in terms of the table it leaves,
    when the first new task is in that table. *)
Lemma load_task_templates_outcome (tasks : list Task.t) (self : t)
    (first : string) (rest : list string) (total : Z) :
  new_tasks self = first :: rest →
  total_virtual_tokens_of (load_task_templates tasks self).1 first = Ok total →
  (load_task_templates tasks self).2
  = match all_totals_match (load_task_templates tasks self).1 total
            (first :: rest) with
    | Ok true => Ok ()
    | Ok false => Raise (AssertionError mismatch_message)
    | Raise e => Raise e
    end.
Proof.
  intros Hnames Hfirst.
  pose proof (load_task_templates_tables tasks self) as (Htable & _).
  cbv zeta in Htable.
  rewrite (total_virtual_tokens_of_ext _ _ first Htable) in Hfirst.
  rewrite (all_totals_match_ext _ _ total (first :: rest) Htable).
  rewrite load_task_templates_eq, check_new_tasks_eq.
  rewrite loop_new_tasks. cbn [fst]. 
  change (new_tasks (set_max_virtual_tokens 0
            (set_task_id_num_to_name ∅ (set_task_templates ∅ self))))
    with (new_tasks self).
  rewrite Hnames, Hfirst. reflexivity.
Qed.

(** C2, amended.  Let [new_tasks] be non-empty, with its first name in the
    loaded table.  If some name of [new_tasks] has a total in the table
    that differs from the first one's and every name before it has the
    first one's total, [load_task_templates] raises the [AssertionError]
    with the message that the totals must match.  If some name has a
    differing total, it raises in any case, that error or the [KeyError]
    of a name missing from the table.  If every name has the first one's
    total it returns, and if no name has a differing total it does not
    raise the [AssertionError]. *)
Theorem load_task_templates_new_tasks (tasks : list Task.t) (self : t)
    (first : string) (rest : list string) (total : Z) :
  new_tasks self = first :: rest →
  total_virtual_tokens_of (load_task_templates tasks self).1 first = Ok total →
  (∀ pre bad post n,
     first :: rest = pre ++ bad :: post →
     (∀ name, name ∈ pre →
        total_virtual_tokens_of (load_task_templates tasks self).1 name
        = Ok total) →
     total_virtual_tokens_of (load_task_templates tasks self).1 bad = Ok n →
     n ≠ total →
     (load_task_templates tasks self).2
     = Raise (AssertionError mismatch_message))
  ∧ ((∃ name n,
        name ∈ first :: rest
        ∧ total_virtual_tokens_of (load_task_templates tasks self).1 name = Ok n
        ∧ n ≠ total) →
     (load_task_templates tasks self).2
     = Raise (AssertionError mismatch_message)
     ∨ ∃ name,
         name ∈ first :: rest
         ∧ task_templates (load_task_templates tasks self).1 !! name = None
         ∧ (load_task_templates tasks self).2 = Raise (KeyError name))
  ∧ ((∀ name, name ∈ first :: rest →
        total_virtual_tokens_of (load_task_templates tasks self).1 name
        = Ok total) →
     (load_task_templates tasks self).2 = Ok ())
  ∧ ((∀ name n, name ∈ first :: rest →
        total_virtual_tokens_of (load_task_templates tasks self).1 name = Ok n →
        n = total) →
     ∀ msg, (load_task_templates tasks self).2 ≠ Raise (AssertionError msg)).
Proof.
  intros Hnames Hfirst.
  rewrite (load_task_templates_outcome tasks self first rest total Hnames Hfirst).
  repeat split.
  - intros pre bad post n -> Hpre Hbad Hne.
    by rewrite (all_totals_match_stop _ total n pre post bad Hpre Hbad Hne).
  - intros (name & n & Hin & Hn & Hne).
    destruct (all_totals_match _ total (first :: rest)) as [[|] | e] eqn:Hall.
    + apply all_totals_match_true with (name := name) in Hall; [| done].
      congruence.
    + by left.
    + right. apply all_totals_match_raise in Hall as (name' & Hin' & Hnone & ->).
      by exists name'.
  - intros Hall. apply all_totals_match_true in Hall. by rewrite Hall.
  - intros Hagree msg.
    destruct (all_totals_match _ total (first :: rest)) as [[|] | e] eqn:Hall.
    + done.
    + apply all_totals_match_false in Hall as (name & n & Hin & Hn & Hne).
      by specialize (Hagree name n Hin Hn).
    + apply all_totals_match_raise in Hall as (name & _ & _ & ->). done.
Qed.

Lemma load_task_templates_new_tasks_witness :
  (load_task_templates Examples.mixed_tasks
     (Examples.fresh ["squad"; "intent"] Examples.mixed_tasks)).2
  = Raise (AssertionError mismatch_message)
  ∧ (load_task_templates Examples.even_tasks
       (Examples.fresh ["squad"; "intent"] Examples.even_tasks)).2
    = Ok ().
Proof.
  split.
  - assert (total_virtual_tokens_of
              (load_task_templates Examples.mixed_tasks
                 (Examples.fresh ["squad"; "intent"] Examples.mixed_tasks)).1
              "squad" = Ok 10) as Hfirst by (by vm_compute).
    apply (proj1 (load_task_templates_new_tasks Examples.mixed_tasks
                    (Examples.fresh ["squad"; "intent"] Examples.mixed_tasks)
                    "squad" ["intent"] 10 eq_refl Hfirst)
             ["squad"] "intent" [] 12).
    + reflexivity.
    + intros name ->%list_elem_of_singleton. exact Hfirst.
    + by vm_compute.
    + lia.
  - assert (total_virtual_tokens_of
              (load_task_templates Examples.even_tasks
                 (Examples.fresh ["squad"; "intent"] Examples.even_tasks)).1
              "squad" = Ok 10) as Hfirst by (by vm_compute).
    apply (proj1 (proj2 (proj2
             (load_task_templates_new_tasks Examples.even_tasks
                (Examples.fresh ["squad"; "intent"] Examples.even_tasks)
                "squad" ["intent"] 10 eq_refl Hfirst)))).
    intros name [-> | ->%list_elem_of_singleton]%elem_of_cons;
      by vm_compute.
Defined.

(** C2 as stated fails when a name missing from the table comes before
    the name whose total differs: the lookup of the missing name raises
    [KeyError] and the assertion is not reached. *)
Lemma load_task_templates_new_tasks_counterexample :
  new_tasks (Examples.fresh ["squad"; "missing"; "intent"] Examples.mixed_tasks)
  = ["squad"; "missing"; "intent"]
  ∧ total_virtual_tokens_of
      (load_task_templates Examples.mixed_tasks
         (Examples.fresh ["squad"; "missing"; "intent"] Examples.mixed_tasks)).1
      "squad" = Ok 10
  ∧ total_virtual_tokens_of
      (load_task_templates Examples.mixed_tasks
         (Examples.fresh ["squad"; "missing"; "intent"] Examples.mixed_tasks)).1
      "intent" = Ok 12
  ∧ (load_task_templates Examples.mixed_tasks
       (Examples.fresh ["squad"; "missing"; "intent"] Examples.mixed_tasks)).2
    = Raise (KeyError "missing")
  ∧ ¬ (∃ msg,
         (load_task_templates Examples.mixed_tasks
            (Examples.fresh ["squad"; "missing"; "intent"] Examples.mixed_tasks)).2
         = Raise (AssertionError msg)).
Proof.
  assert ((load_task_templates Examples.mixed_tasks
             (Examples.fresh ["squad"; "missing"; "intent"] Examples.mixed_tasks)).2
          = Raise (KeyError "missing")) as Hraise by (by vm_compute).
  split; [done |]. split; [by vm_compute |]. split; [by vm_compute |].
  split; [exact Hraise |].
  intros [msg Hmsg]. rewrite Hraise in Hmsg. discriminate.
Qed.

(** ** [pad_batch_and_build_loss_mask] *)

Lemma uniform_intro {A} (rows : list (list A)) (n : nat) :
  (∀ r, r ∈ rows → length r = n) → uniform rows = true.
Proof.
  destruct rows as [| r rows]; [done |]. intros Hrows. cbn [uniform].
  apply forallb_forall. intros r' Hin%list_elem_of_In.
  apply bool_decide_eq_true.
  rewrite (Hrows r) by (by left). apply Hrows. by right.
Qed.

Lemma store_rows_Ok (width : nat) (rows : list (list Z)) :
  store_rows width rows = Ok ()
  ↔ ∀ r, r ∈ rows → length r = width ∧ forallb int64 r = true.
Proof.
  induction rows as [| r rows IH]; cbn [store_rows].
  - split; [intros _ r Hr; by apply elem_of_nil in Hr | done].
  - case_bool_decide as Hlen.
    + destruct (forallb int64 r) eqn:Hrange.
      * rewrite IH. split.
        -- intros Hrows x [-> | Hx]%elem_of_cons; [done | by apply Hrows].
        -- intros Hrows x Hx. apply Hrows. by right.
      * split; [done |]. intros Hrows.
        destruct (Hrows r) as [_ Hr]; [by left |]. congruence.
    + split; [done |]. intros Hrows. destruct (Hrows r) as [Hr _]; [by left |].
      done.
Qed.

(** [torch.tensor] returns the rows when they have one length and hold
    64-bit integers, and only then. *)
Lemma torch_tensor_Ok (rows rows' : list (list Z)) :
  torch_tensor rows = Ok rows'
  ↔ rows' = rows ∧ uniform rows = true
    ∧ ∀ r, r ∈ rows → forallb int64 r = true.
Proof.
  destruct rows as [| r0 rows]; cbn [torch_tensor uniform].
  - split.
    + intros [= <-]. split; [done |]. split; [done |].
      intros r Hr. by apply elem_of_nil in Hr.
    + by intros (-> & _).
  - destruct (store_rows (length r0) (r0 :: rows)) as [[] | e] eqn:Hstore; cbn.
    + pose proof (proj1 (store_rows_Ok _ _) Hstore) as Hrows. split.
      * intros [= <-]. split; [done |]. split.
        -- apply forallb_forall. intros r Hr%list_elem_of_In.
           apply bool_decide_eq_true. apply Hrows. by right.
        -- intros r Hr. by apply Hrows.
      * by intros (-> & _).
    + split; [done |]. intros (_ & Hlen & Hrange).
      assert (store_rows (length r0) (r0 :: rows) = Ok ()) as Hok; [| congruence].
      apply store_rows_Ok. intros r Hr. split; [| by apply Hrange].
      apply elem_of_cons in Hr as [-> | Hr]; [done |].
      rewrite forallb_forall in Hlen.
      apply list_elem_of_In, Hlen in Hr. by apply bool_decide_eq_true in Hr.
Qed.

(** Rows of 64-bit integers that differ in length make it raise
    [ValueError]. *)
Lemma torch_tensor_ragged (rows : list (list Z)) :
  uniform rows = false →
  (∀ r, r ∈ rows → forallb int64 r = true) →
  torch_tensor rows = Raise (ValueError "expected sequence of equal length").
Proof.
  destruct rows as [| r0 rows]; [done |]. cbn [torch_tensor uniform].
  intros Hlen Hrange.
  assert (∀ todo, (∀ r, r ∈ todo → forallb int64 r = true) →
                  store_rows (length r0) todo = Ok ()
                  ∨ store_rows (length r0) todo
                    = Raise (ValueError "expected sequence of equal length"))
    as Hstore.
  { induction todo as [| r todo IH]; intros Htodo; [by left |].
    cbn [store_rows]. case_bool_decide; [| by right].
    rewrite (Htodo r) by (by left). apply IH. intros x Hx. apply Htodo. by right. }
  destruct (Hstore (r0 :: rows) Hrange) as [Hok | ->]; [| done].
  pose proof (proj1 (store_rows_Ok _ _) Hok) as Hrows. exfalso.
  apply not_true_iff_false in Hlen. apply Hlen.
  apply forallb_forall. intros r Hr%list_elem_of_In.
  apply bool_decide_eq_true. apply Hrows. by right.
Qed.

Lemma repeat_list_length {A} (x : A) (n : Z) :
  length (repeat_list x n) = Z.to_nat n.
Proof. apply length_replicate. Qed.

Lemma pad_row_lengths (self : t) (batch_max : Z) (ids : list Z)
    (answer_start_idx : option Z) :
  len ids ≤ batch_max →
  length (pad_row self batch_max ids answer_start_idx).1 = Z.to_nat batch_max
  ∧ length (pad_row self batch_max ids answer_start_idx).2 = Z.to_nat batch_max.
Proof.
  unfold pad_row, len. intros Hlen. cbn [fst snd]. split.
  - rewrite length_app, repeat_list_length. lia.
  - rewrite length_app, repeat_list_length.
    destruct answer_start_idx as [a |].
    + rewrite length_fmap, range_length. lia.
    + rewrite length_fmap. lia.
Qed.

(** The entries of a padded row and of its loss mask. *)
Lemma pad_row_entries (self : t) (batch_max : Z) (ids : list Z)
    (answer_start_idx : option Z) :
  (∀ (idx : nat) token,
     ids !! idx = Some token →
     (pad_row self batch_max ids answer_start_idx).1 !! idx = Some token
     ∧ (pad_row self batch_max ids answer_start_idx).2 !! idx
       = Some (float_of_bool
                 match answer_start_idx with
                 | Some a => bool_decide (a ≤ Z.of_nat idx)
                 | None => bool_decide (token ∉ pseudo_token_ids self)
                 end))
  ∧ (∀ idx : nat,
       (length ids ≤ idx)%nat → Z.of_nat idx < batch_max →
       (pad_row self batch_max ids answer_start_idx).1 !! idx
       = Some (pad_token_id self)
       ∧ (pad_row self batch_max ids answer_start_idx).2 !! idx = Some 0%Q).
Proof.
  unfold pad_row. cbn [fst snd]. split.
  - intros idx token Hidx.
    pose proof (lookup_lt_Some _ _ _ Hidx) as Hlt. split.
    + by rewrite lookup_app_l.
    + destruct answer_start_idx as [a |].
      * rewrite lookup_app_l by (rewrite length_fmap, range_length; unfold len; lia).
        rewrite list_lookup_fmap.
        rewrite <- (Nat2Z.id idx) at 1.
        rewrite range_lookup by (unfold len; lia). done.
      * rewrite lookup_app_l by (by rewrite length_fmap).
        by rewrite list_lookup_fmap, Hidx.
  - intros idx Hge Hlt. unfold repeat_list, len. split.
    + rewrite lookup_app_r by done.
      apply lookup_replicate_2. lia.
    + assert (length (match answer_start_idx with
                      | Some a =>
                          (λ i, float_of_bool (bool_decide (a ≤ i)))
                            <$> range (Z.of_nat (length ids))
                      | None =>
                          (λ token_id,
                             float_of_bool
                               (bool_decide (token_id ∉ pseudo_token_ids self)))
                            <$> ids
                      end) = length ids) as Hmask.
      { destruct answer_start_idx;
          rewrite length_fmap, ?range_length; lia. }
      rewrite lookup_app_r by (rewrite Hmask; lia).
      apply lookup_replicate_2. rewrite Hmask. lia.
Qed.

(** C8, amended.  For a non-empty list of rows, each of length at most
    [batch_max] and of 64-bit integers, as many answer starts, and a
    [pad_token_id] that is a 64-bit integer, the function returns the
    padded ids and the loss masks, one row of each per input row and every
    row of length [batch_max].  A padded row keeps the tokens at their
    positions and holds [pad_token_id] after them.  The loss mask holds
    0.0 at the padded positions; at a position [idx] of the input row it
    holds 1.0 when the answer start is given and [idx] is not before it,
    or when no answer start is given and the token is not a pseudo-token
    id, and 0.0 otherwise. *)
Theorem pad_batch_and_build_loss_mask_spec (self : t)
    (input_ids : list (list Z)) (batch_max : Z)
    (answer_starts : list (option Z)) :
  input_ids ≠ [] →
  length answer_starts = length input_ids →
  (∀ ids, ids ∈ input_ids → len ids ≤ batch_max) →
  (∀ ids token, ids ∈ input_ids → token ∈ ids → int64 token = true) →
  int64 (pad_token_id self) = true →
  ∃ padded masks,
    pad_batch_and_build_loss_mask self input_ids batch_max answer_starts
    = Ok (padded, masks)
    ∧ length padded = length input_ids
    ∧ length masks = length input_ids
    ∧ ∀ (k : nat) ids answer_start,
        input_ids !! k = Some ids → answer_starts !! k = Some answer_start →
        ∃ row mask,
          padded !! k = Some row ∧ masks !! k = Some mask
          ∧ len row = batch_max ∧ len mask = batch_max
          ∧ (∀ (idx : nat) token,
               ids !! idx = Some token →
               row !! idx = Some token
               ∧ mask !! idx
                 = Some (if match answer_start with
                            | Some a => bool_decide (a ≤ Z.of_nat idx)
                            | None => bool_decide (token ∉ pseudo_token_ids self)
                            end
                         then 1%Q else 0%Q))
          ∧ (∀ idx : nat,
               (length ids ≤ idx)%nat → Z.of_nat idx < batch_max →
               row !! idx = Some (pad_token_id self)
               ∧ mask !! idx = Some 0%Q).
Proof.
  intros Hne Hlen Hrows Hrange Hpad.
  set (rows := (λ p : list Z * option Z, pad_row self batch_max p.1 p.2)
                 <$> zip input_ids answer_starts).
  assert (∀ (k : nat) ids a,
            input_ids !! k = Some ids → answer_starts !! k = Some a →
            rows !! k = Some (pad_row self batch_max ids a)) as Hlook.
  { intros k ids a Hk Ha. unfold rows.
    rewrite list_lookup_fmap, lookup_zip_with, Hk. cbn.
    by rewrite Ha. }
  assert (∀ row, row ∈ rows →
            ∃ ids a, ids ∈ input_ids ∧ row = pad_row self batch_max ids a)
    as Hfrom.
  { intros row ([ids a] & -> & Hin)%list_elem_of_fmap.
    exists ids, a. split; [| done]. by apply elem_of_zip_l in Hin. }
  assert (length rows = length input_ids) as Hlength.
  { unfold rows. rewrite length_fmap, length_zip. lia. }
  assert (uniform (fst <$> rows) = true) as Hids.
  { apply (uniform_intro _ (Z.to_nat batch_max)).
    intros r (row & -> & (ids & a & Hin & ->)%Hfrom)%list_elem_of_fmap.
    by apply pad_row_lengths, Hrows. }
  assert (uniform (snd <$> rows) = true) as Hmasks.
  { apply (uniform_intro _ (Z.to_nat batch_max)).
    intros r (row & -> & (ids & a & Hin & ->)%Hfrom)%list_elem_of_fmap.
    by apply pad_row_lengths, Hrows. }
  assert (torch_tensor (fst <$> rows) = Ok (fst <$> rows)) as Htensor.
  { apply torch_tensor_Ok. split; [done |]. split; [done |].
    intros r (row & -> & (ids & a & Hin & ->)%Hfrom)%list_elem_of_fmap.
    apply forallb_forall. intros token Htoken%list_elem_of_In.
    unfold pad_row in Htoken. cbn [fst] in Htoken.
    apply elem_of_app in Htoken as [Htoken | Htoken]; [by apply (Hrange ids) |].
    unfold repeat_list in Htoken. by apply elem_of_replicate in Htoken as [-> _]. }
  exists (fst <$> rows), (snd <$> rows). split; [| split; [| split]].
  - unfold pad_batch_and_build_loss_mask. fold rows.
    rewrite Htensor. unfold torch_stack. rewrite Hmasks. cbn.
    destruct (snd <$> rows) as [| mask masks] eqn:Hsnd; [| done].
    apply (f_equal length) in Hsnd. rewrite length_fmap, Hlength in Hsnd.
    by destruct input_ids.
  - by rewrite length_fmap.
  - by rewrite length_fmap.
  - intros k ids a Hk Ha.
    exists (pad_row self batch_max ids a).1, (pad_row self batch_max ids a).2.
    rewrite !list_lookup_fmap, (Hlook k ids a Hk Ha). cbn [fmap option_fmap option_map].
    assert (len ids ≤ batch_max) as Hbound
      by (apply Hrows, list_elem_of_lookup; by exists k).
    destruct (pad_row_lengths self batch_max ids a Hbound) as [Hl1 Hl2].
    destruct (pad_row_entries self batch_max ids a) as [Hin Hout].
    unfold len. pose proof (Nat2Z.is_nonneg (length ids)). unfold len in Hbound.
    repeat split; try done; try lia.
    + by apply Hin.
    + by apply Hin.
    + by apply Hout.
    + by apply Hout.
Qed.

Lemma pad_batch_and_build_loss_mask_spec_witness :
  pad_batch_and_build_loss_mask Examples.model [[5; 6; 2; 3]; [7; 2; 4]] 5
    [Some 2; None]
  = Ok ([[5; 6; 2; 3; 0]; [7; 2; 4; 0; 0]],
        [[0; 0; 1; 1; 0]%Q; [0; 1; 1; 0; 0]%Q]).
Proof.
  destruct (pad_batch_and_build_loss_mask_spec Examples.model
              [[5; 6; 2; 3]; [7; 2; 4]] 5 [Some 2; None])
    as (padded & masks & Hresult & _).
  - discriminate.
  - reflexivity.
  - intros ids [-> | ->%list_elem_of_singleton]%elem_of_cons; by vm_compute.
  - intros ids token [-> | ->%list_elem_of_singleton]%elem_of_cons Htoken;
      repeat (apply elem_of_cons in Htoken as [-> | Htoken]; [reflexivity |]);
      by apply elem_of_nil in Htoken.
  - by vm_compute.
  - rewrite Hresult. by vm_compute.
Defined.

(** C8 as stated fails on the empty list of rows: [torch.stack] rejects
    an empty list of loss masks.  It also fails on a row that holds an
    integer outside the 64-bit range, which [torch.tensor] rejects. *)
Lemma pad_batch_and_build_loss_mask_counterexample :
  (∀ ids : list Z, ids ∈ [] → len ids ≤ 5)
  ∧ pad_batch_and_build_loss_mask Examples.model [] 5 []
    = Raise (RuntimeError "stack expects a non-empty TensorList")
  ∧ ¬ (∃ padded masks,
         pad_batch_and_build_loss_mask Examples.model [] 5 []
         = Ok (padded, masks))
  ∧ (∀ ids : list Z, ids ∈ [[9223372036854775808]] → len ids ≤ 1)
  ∧ pad_batch_and_build_loss_mask Examples.model [[9223372036854775808]] 1
      [None]
    = Raise (RuntimeError "Overflow when unpacking long").
Proof.
  split; [intros ids Hin; by apply elem_of_nil in Hin |].
  split; [reflexivity |].
  split; [intros (padded & masks & Hresult); discriminate Hresult |].
  split; [by intros ids ->%list_elem_of_singleton |].
  reflexivity.
Qed.

(** ** [collate_fn] *)

Lemma raises_bind {A B} (r : result A) (k : A → result B) :
  (∀ x, raises (k x)) → raises (r ≫= k).
Proof. intros Hk. destruct r as [x | e]; [apply Hk | by exists e]. Qed.

Lemma raises_not_returns {A} (r : result A) : raises r → ¬ returns r.
Proof. intros [e ->] [x Hx]. discriminate. Qed.

(** The name before the dot is bound nowhere. *)
Lemma load_global_retro_train_ds (w : World.t) :
  load_global w "retro_train_ds"
  = Raise (NameError "name 'retro_train_ds' is not defined").
Proof.
  unfold load_global, module_globals. by destruct (World.apex w).
Qed.

(** C6.  [collate_fn] returns for no batch: whatever the surroundings,
    the model, the batch and [tp_workers], the call ends in an exception,
    so the six-element result is never produced.  When the statements
    before it go through, the exception is the [NameError] of the read of
    [retro_train_ds]. *)
Theorem collate_fn_never_returns (w : World.t) (self : t)
    (batch : list (taskname_id * list Z * option Z)) (tp_workers : Z) :
  raises (collate_fn w self batch tp_workers)
  ∧ ¬ returns (collate_fn w self batch tp_workers)
  ∧ collate_fn Examples.world Examples.model Examples.batch 0
    = Raise (NameError "name 'retro_train_ds' is not defined").
Proof.
  assert (raises (collate_fn w self batch tp_workers)) as Hraises.
  { unfold collate_fn.
    apply raises_bind; intros [[taskname_ids input_ids] answer_starts].
    apply raises_bind; intros source.
    apply raises_bind; intros taskname_tensor.
    apply raises_bind; intros batch_max. cbv zeta.
    apply raises_bind; intros [padded masks].
    apply raises_bind; intros attention_mask.
    rewrite load_global_retro_train_ds. by eexists. }
  split; [done |]. split; [by apply raises_not_returns |].
  by vm_compute.
Qed.

(** ** The table and the vocabulary are left alone after construction *)

Lemma keeps_ret {A} (x : A) : keeps_prompt_tables (mret x).
Proof. by intros self. Qed.

Lemma keeps_bind {A B} (c : M A) (k : A → M B) :
  keeps_prompt_tables c → (∀ x, keeps_prompt_tables (k x)) →
  keeps_prompt_tables (c ≫= k).
Proof.
  intros Hc Hk self. unfold mbind, M_bind.
  specialize (Hc self). destruct (c self) as [self' [x | e]]; cbn [fst] in *.
  - by rewrite Hk.
  - done.
Qed.

Lemma keeps_get {A} (f : t → A) : keeps_prompt_tables (get f).
Proof. by intros self. Qed.

Lemma keeps_getattr {A} (name : string) (f : t → option A) :
  keeps_prompt_tables (getattr name f).
Proof. intros self. unfold getattr. by destruct (f self). Qed.

Lemma keeps_lift {A} (r : result A) : keeps_prompt_tables (lift r).
Proof. by intros self. Qed.

Lemma keeps_read {A} (f : t → result A) :
  keeps_prompt_tables (λ self, (self, f self)).
Proof. by intros self. Qed.

Lemma keeps_assign (set : t → t) :
  (∀ self, prompt_tables (set self) = prompt_tables self) →
  keeps_prompt_tables (assign set).
Proof. intros Hset self. apply Hset. Qed.

(** One step of the proof that a method body keeps the tables: split a
    sequence, split a branch, or close a read or an assignment to another
    attribute. *)
Ltac keeps_step :=
  first
    [ apply keeps_ret
    | apply keeps_get
    | apply keeps_getattr
    | apply keeps_lift
    | apply keeps_read
    | apply keeps_assign; intros ?; reflexivity
    | apply keeps_bind; [| intros ?]
    | match goal with
      | |- keeps_prompt_tables (if ?b then _ else _) => destruct b
      | |- keeps_prompt_tables (match ?x with _ => _ end) => destruct x
      end ].

Lemma keeps_build_from_cfg (w : World.t) (data : option (list string))
    (for_train drop_last shuffle : bool) (cache_data_path : option string) :
  keeps_prompt_tables
    (build_from_cfg w data for_train drop_last shuffle cache_data_path).
Proof. unfold build_from_cfg. repeat keeps_step. Qed.

Lemma keeps_setup_training_data (w : World.t) :
  keeps_prompt_tables (setup_training_data w).
Proof.
  unfold setup_training_data.
  repeat first [apply keeps_build_from_cfg | keeps_step].
Qed.

Lemma keeps_setup_validation_data (w : World.t) :
  keeps_prompt_tables (setup_validation_data w).
Proof.
  unfold setup_validation_data.
  repeat first [apply keeps_build_from_cfg | keeps_step].
Qed.

Lemma keeps_setup_test_data (w : World.t) :
  keeps_prompt_tables (setup_test_data w).
Proof.
  unfold setup_test_data.
  repeat first [apply keeps_build_from_cfg | keeps_step].
Qed.

Lemma keeps_setup (w : World.t) (stage : option string) :
  keeps_prompt_tables (setup w stage).
Proof.
  unfold setup.
  repeat first [apply keeps_setup_training_data
               | apply keeps_setup_validation_data | keeps_step].
Qed.

Lemma keeps_freeze_existing_virtual_prompt_params :
  keeps_prompt_tables freeze_existing_virtual_prompt_params.
Proof. unfold freeze_existing_virtual_prompt_params. repeat keeps_step. Qed.

Lemma keeps_add_adapter (w : World.t) (name adapter_cfg : string) :
  keeps_prompt_tables (add_adapter w name adapter_cfg).
Proof.
  intros self. unfold add_adapter.
  by destruct (update_layers _ [] (layers self)).
Qed.

Lemma keeps_set_enabled_adapters (w : World.t) (name : option string)
    (enabled : bool) :
  keeps_prompt_tables (set_enabled_adapters w name enabled).
Proof.
  intros self. unfold set_enabled_adapters.
  by destruct (update_layers _ [] (layers self)).
Qed.

Lemma after_keeps (w : World.t) (op : operation) (self : t) :
  prompt_tables (after w op self) = prompt_tables self.
Proof.
  destruct op; cbn [after]; try reflexivity.
  - apply keeps_setup.
  - apply keeps_setup_training_data.
  - apply keeps_setup_validation_data.
  - apply keeps_setup_test_data.
  - apply keeps_freeze_existing_virtual_prompt_params.
  - apply keeps_add_adapter.
  - apply keeps_set_enabled_adapters.
Qed.

(** ** The constructor *)

(** The constructor from [load_task_templates] on, written out. *)
Lemma prepare_prompts_eq (init_cfg : Cfg.t) (self : t) :
  prepare_prompts init_cfg self
  = match load_task_templates (Cfg.task_templates (cfg self)) self with
    | (loaded, Raise e) => (loaded, Raise e)
    | (loaded, Ok _) =>
        let pseudo := get_pseudo_tokens (max_virtual_tokens loaded) in
        let tok := Tokenizer.add_special_tokens (tokenizer loaded) pseudo in
        let ids := Tokenizer.tokens_to_ids tok pseudo in
        (set_virtual_prompt_source
           (Some match virtual_prompt_style loaded with
                 | VirtualPromptStyle.PROMPT_TUNING
                 | VirtualPromptStyle.INFERENCE =>
                     VirtualPromptSource.PROMPT_TABLE
                 | VirtualPromptStyle.P_TUNING =>
                     VirtualPromptSource.PROMPT_ENCODER
                 | VirtualPromptStyle.NO_PROMPT =>
                     VirtualPromptSource.NO_PROMPT
                 end)
           (set_pad_token_id
              (default (Tokenizer.unk_id tok) (Tokenizer.pad_id tok))
              (set_pseudo_token_ids_start (head ids)
                 (set_pseudo_token_ids ids
                    (set_tokenizer tok (set_pseudo_tokens pseudo loaded))))),
         Ok ())
    end.
Proof.
  unfold prepare_prompts, get, assign, lift, mbind, M_bind, mret, M_ret.
  destruct (load_task_templates (Cfg.task_templates (cfg self)) self)
    as [loaded [[] | e]]; [| done].
  cbn [virtual_prompt_style set_pad_token_id set_pseudo_token_ids_start
       set_pseudo_token_ids set_tokenizer set_pseudo_tokens].
  by destruct (virtual_prompt_style loaded).
Qed.

Lemma total_virtual_tokens_of_raise (self : t) (name : string) (e : exn) :
  total_virtual_tokens_of self name = Raise e → e = KeyError name.
Proof.
  unfold total_virtual_tokens_of.
  destruct (task_templates self !! name); [done | by intros [= <-]].
Qed.

(** [load_task_templates] raises nothing but the two errors of its check. *)
Lemma load_task_templates_raises (tasks : list Task.t) (self : t) (e : exn) :
  (load_task_templates tasks self).2 = Raise e →
  (∃ name, e = KeyError name) ∨ e = AssertionError mismatch_message.
Proof.
  rewrite load_task_templates_eq, check_new_tasks_eq.
  destruct (new_tasks _) as [| first rest]; [done |].
  destruct (total_virtual_tokens_of _ first) as [total | e'] eqn:Hfirst.
  - cbn [snd].
    destruct (all_totals_match _ total (first :: rest)) as [[|] | e'] eqn:Hall.
    + done.
    + intros [= <-]. by right.
    + intros [= <-]. left.
      apply all_totals_match_raise in Hall as (name & _ & _ & ->). by exists name.
  - intros [= <-]. left. exists first.
    by apply total_virtual_tokens_of_raise in Hfirst.
Qed.

Lemma of_value_unrecognized (v : string) :
  v ∉ ["prompt-tuning"; "p-tuning"; "inference"; "no-prompt"] →
  VirtualPromptStyle.of_value v
  = Raise (ValueError ("'" +:+ v +:+ "' is not a valid VirtualPromptStyle")).
Proof.
  intros Hv. unfold VirtualPromptStyle.of_value, VirtualPromptStyle.members.
  cbn [List.find VirtualPromptStyle.value].
  rewrite !bool_decide_eq_false_2; [done | ..];
    intros <-; apply Hv; set_solver.
Qed.

Lemma of_value_member (s : VirtualPromptStyle.t) :
  VirtualPromptStyle.of_value (VirtualPromptStyle.value s) = Ok s.
Proof. by destruct s. Qed.

Lemma of_value_recognized (v : string) :
  v ∈ ["prompt-tuning"; "p-tuning"; "inference"; "no-prompt"]
  ↔ ∃ s, VirtualPromptStyle.value s = v.
Proof.
  split.
  - intros Hv. repeat (apply elem_of_cons in Hv as [-> | Hv]).
    + by exists VirtualPromptStyle.PROMPT_TUNING.
    + by exists VirtualPromptStyle.P_TUNING.
    + by exists VirtualPromptStyle.INFERENCE.
    + by exists VirtualPromptStyle.NO_PROMPT.
    + by apply elem_of_nil in Hv.
  - intros [[] <-]; set_solver.
Qed.

(** The constructor written out for a recognized style. *)
Lemma init_eq (w : World.t) (base : Base.t) (cfg : Cfg.t) (trainer : Trainer.t)
    (s : VirtualPromptStyle.t) :
  VirtualPromptStyle.value s = Cfg.virtual_prompt_style cfg →
  __init__ w base cfg trainer
  = (frozen_model_cfg ← World.restore_config w (Cfg.language_model_path cfg);
     frozen_model ← restore_frozen_model w cfg frozen_model_cfg;
     match prepare_prompts cfg
             (allocate base trainer
                (default [] (Cfg.existing_tasks (Base.cfg base)))
                (default [] (Cfg.new_tasks (Base.cfg base))) s frozen_model) with
     | (self, Ok _) => Ok self
     | (_, Raise e) => Raise e
     end).
Proof. intros Hs. unfold __init__. by rewrite <- Hs, of_value_member. Qed.

Lemma of_value_Ok (v : string) (s : VirtualPromptStyle.t) :
  VirtualPromptStyle.of_value v = Ok s → VirtualPromptStyle.value s = v.
Proof.
  unfold VirtualPromptStyle.of_value.
  destruct (List.find _ VirtualPromptStyle.members) as [s' |] eqn:Hfind; [| done].
  intros [= <-]. apply find_some in Hfind as [_ Hs].
  by apply bool_decide_eq_true in Hs.
Qed.

(** What the constructor leaves and returns from [load_task_templates] on,
    in terms of what [load_task_templates] leaves and returns. *)
Lemma prepare_prompts_outcome (init_cfg : Cfg.t) (self : t) :
  (prepare_prompts init_cfg self).2
  = (load_task_templates (Cfg.task_templates (cfg self)) self).2
  ∧ ((load_task_templates (Cfg.task_templates (cfg self)) self).2 = Ok () →
     virtual_prompt_source (prepare_prompts init_cfg self).1
     = Some match virtual_prompt_style self with
            | VirtualPromptStyle.PROMPT_TUNING
            | VirtualPromptStyle.INFERENCE => VirtualPromptSource.PROMPT_TABLE
            | VirtualPromptStyle.P_TUNING => VirtualPromptSource.PROMPT_ENCODER
            | VirtualPromptStyle.NO_PROMPT => VirtualPromptSource.NO_PROMPT
            end
     ∧ task_templates (prepare_prompts init_cfg self).1
       = task_templates (load_task_templates (Cfg.task_templates (cfg self)) self).1
     ∧ task_id_num_to_name (prepare_prompts init_cfg self).1
       = task_id_num_to_name
           (load_task_templates (Cfg.task_templates (cfg self)) self).1
     ∧ max_virtual_tokens (prepare_prompts init_cfg self).1
       = max_virtual_tokens
           (load_task_templates (Cfg.task_templates (cfg self)) self).1
     ∧ pseudo_tokens (prepare_prompts init_cfg self).1
       = get_pseudo_tokens (max_virtual_tokens (prepare_prompts init_cfg self).1)
     ∧ tokenizer (prepare_prompts init_cfg self).1
       = Tokenizer.add_special_tokens (tokenizer self)
           (pseudo_tokens (prepare_prompts init_cfg self).1)
     ∧ pseudo_token_ids (prepare_prompts init_cfg self).1
       = Tokenizer.tokens_to_ids (tokenizer (prepare_prompts init_cfg self).1)
           (pseudo_tokens (prepare_prompts init_cfg self).1)
     ∧ pseudo_token_ids_start (prepare_prompts init_cfg self).1
       = head (pseudo_token_ids (prepare_prompts init_cfg self).1)).
Proof.
  rewrite prepare_prompts_eq.
  pose proof (load_task_templates_tables (Cfg.task_templates (cfg self)) self)
    as (_ & _ & _ & Hstyle & Htok).
  destruct (load_task_templates (Cfg.task_templates (cfg self)) self)
    as [loaded [[] | e]]; cbn [fst snd] in *.
  - split; [done |]. intros _. cbv zeta.
    rewrite <- Hstyle, <- Htok. by repeat split.
  - split; [done |]. discriminate.
Qed.

Lemma init_Ok_inv (w : World.t) (base : Base.t) (cfg : Cfg.t)
    (trainer : Trainer.t) (m : t) :
  __init__ w base cfg trainer = Ok m →
  ∃ s frozen_model,
    VirtualPromptStyle.value s = Cfg.virtual_prompt_style cfg
    ∧ prepare_prompts cfg
        (allocate base trainer
           (default [] (Cfg.existing_tasks (Base.cfg base)))
           (default [] (Cfg.new_tasks (Base.cfg base))) s frozen_model)
      = (m, Ok ()).
Proof.
  unfold __init__.
  destruct (VirtualPromptStyle.of_value _) as [s | e] eqn:Hs; [| done].
  apply of_value_Ok in Hs. cbn.
  destruct (World.restore_config w _) as [c | e]; [| done]. cbn.
  destruct (restore_frozen_model w cfg c) as [fm | e]; [| done]. cbn.
  destruct (prepare_prompts cfg _) as [self [[] | e]] eqn:Hprep; [| done].
  intros [= <-]. by exists s, fm.
Qed.

(** The constructor returns when its fallible steps do. *)
Lemma init_returns (w : World.t) (base : Base.t) (cfg : Cfg.t)
    (trainer : Trainer.t) (s : VirtualPromptStyle.t)
    (c : FrozenModel.cfg_t) (frozen_model : option FrozenModel.t) :
  VirtualPromptStyle.value s = Cfg.virtual_prompt_style cfg →
  World.restore_config w (Cfg.language_model_path cfg) = Ok c →
  restore_frozen_model w cfg c = Ok frozen_model →
  (load_task_templates (Cfg.task_templates (Base.cfg base))
     (allocate base trainer
        (default [] (Cfg.existing_tasks (Base.cfg base)))
        (default [] (Cfg.new_tasks (Base.cfg base))) s frozen_model)).2
  = Ok () →
  returns (__init__ w base cfg trainer).
Proof.
  intros Hs Hc Hfm Hload. rewrite (init_eq w base cfg trainer s Hs).
  rewrite Hc. cbn. rewrite Hfm. cbn.
  match goal with
  | |- context [prepare_prompts cfg ?self0] =>
      destruct (prepare_prompts_outcome cfg self0) as [Hout _];
      destruct (prepare_prompts cfg self0) as [self [[] | e]]
  end.
  - by exists self.
  - cbn [snd MegatronFusedRetrievalAdapterModel.cfg allocate] in Hout.
    congruence.
Qed.

(** The two models of the concrete inputs are the ones the constructor
    returns. *)
Lemma example_model_init :
  __init__ Examples.world (Examples.base Examples.p_tuning_cfg)
    Examples.p_tuning_cfg Examples.trainer
  = Ok Examples.model.
Proof.
  unfold Examples.model.
  destruct (init_returns Examples.world (Examples.base Examples.p_tuning_cfg)
              Examples.p_tuning_cfg Examples.trainer VirtualPromptStyle.P_TUNING
              {| FrozenModel.encoder_seq_length := 2048 |}
              (Some {| FrozenModel.cfg := {| FrozenModel.encoder_seq_length := 2048 |};
                       FrozenModel.frozen := false |})
              eq_refl eq_refl eq_refl) as [m Hm]; [by vm_compute |].
  by rewrite Hm.
Qed.

Lemma example_empty_model_init :
  __init__ Examples.world (Examples.base Examples.empty_cfg)
    Examples.empty_cfg Examples.trainer
  = Ok Examples.empty_model.
Proof.
  unfold Examples.empty_model.
  destruct (init_returns Examples.world (Examples.base Examples.empty_cfg)
              Examples.empty_cfg Examples.trainer VirtualPromptStyle.PROMPT_TUNING
              {| FrozenModel.encoder_seq_length := 2048 |}
              (Some {| FrozenModel.cfg := {| FrozenModel.encoder_seq_length := 2048 |};
                       FrozenModel.frozen := false |})
              eq_refl eq_refl eq_refl) as [m Hm]; [by vm_compute |].
  by rewrite Hm.
Qed.

(** C5.  When [cfg.virtual_prompt_style] is none of prompt-tuning,
    p-tuning, inference and no-prompt, the constructor raises [ValueError]
    with a message that quotes the value.  When it is the value of a
    style, a constructed model has [virtual_prompt_source] [PROMPT_TABLE]
    for prompt-tuning and inference, [PROMPT_ENCODER] for p-tuning and
    [NO_PROMPT] for no-prompt; the constructor returns whenever the frozen
    model is restored and [load_task_templates] returns; and an exception
    of the constructor comes from restoring the frozen model or is the
    [KeyError] or [AssertionError] of [load_task_templates], never from
    the style. *)
Theorem init_virtual_prompt_style (w : World.t) (base : Base.t) (cfg : Cfg.t)
    (trainer : Trainer.t) :
  (Cfg.virtual_prompt_style cfg
     ∉ ["prompt-tuning"; "p-tuning"; "inference"; "no-prompt"] →
   __init__ w base cfg trainer
   = Raise (ValueError ("'" +:+ Cfg.virtual_prompt_style cfg
                        +:+ "' is not a valid VirtualPromptStyle")))
  ∧ (∀ s, VirtualPromptStyle.value s = Cfg.virtual_prompt_style cfg →
       (∀ m, __init__ w base cfg trainer = Ok m →
             virtual_prompt_source m
             = Some match s with
                    | VirtualPromptStyle.PROMPT_TUNING
                    | VirtualPromptStyle.INFERENCE =>
                        VirtualPromptSource.PROMPT_TABLE
                    | VirtualPromptStyle.P_TUNING =>
                        VirtualPromptSource.PROMPT_ENCODER
                    | VirtualPromptStyle.NO_PROMPT =>
                        VirtualPromptSource.NO_PROMPT
                    end)
       ∧ (∀ c frozen_model,
            World.restore_config w (Cfg.language_model_path cfg) = Ok c →
            restore_frozen_model w cfg c = Ok frozen_model →
            (load_task_templates (Cfg.task_templates (Base.cfg base))
               (allocate base trainer
                  (default [] (Cfg.existing_tasks (Base.cfg base)))
                  (default [] (Cfg.new_tasks (Base.cfg base))) s frozen_model)).2
            = Ok () →
            returns (__init__ w base cfg trainer))
       ∧ (∀ e, __init__ w base cfg trainer = Raise e →
            World.restore_config w (Cfg.language_model_path cfg) = Raise e
            ∨ (∃ c, restore_frozen_model w cfg c = Raise e)
            ∨ (∃ name, e = KeyError name)
            ∨ e = AssertionError mismatch_message)).
Proof.
  split.
  - intros Hstyle. unfold __init__. by rewrite of_value_unrecognized.
  - intros s Hs. rewrite (init_eq w base cfg trainer s Hs). repeat split.
    + destruct (World.restore_config w _) as [c | e]; [| done]. cbn.
      destruct (restore_frozen_model w cfg c) as [fm | e]; [| done]. cbn.
      intros m Hm.
      match type of Hm with
      | context [prepare_prompts cfg ?self0] =>
          destruct (prepare_prompts_outcome cfg self0) as [Hout Hfields];
          destruct (prepare_prompts cfg self0) as [self [[] | e]] eqn:Hprep;
          [| done]
      end.
      injection Hm as <-. cbn [fst snd] in *.
      symmetry in Hout. by destruct (Hfields Hout) as [-> _].
    + intros c fm Hc Hfm Hload.
      rewrite <- (init_eq w base cfg trainer s Hs).
      by apply (init_returns w base cfg trainer s c fm).
    + intros e.
      destruct (World.restore_config w _) as [c | e']; [| cbn; intros [= <-]; by left]. cbn.
      destruct (restore_frozen_model w cfg c) as [fm | e'] eqn:Hfm;
        [| cbn; intros [= <-]; right; left; by exists c]. cbn.
      match goal with
      | |- context [prepare_prompts cfg ?self0] =>
          destruct (prepare_prompts_outcome cfg self0) as [Hout _];
          destruct (prepare_prompts cfg self0) as [self [[] | e']]
      end; [done |].
      intros [= <-]. right. right. cbn [snd] in Hout. symmetry in Hout.
      by apply load_task_templates_raises in Hout.
Qed.

Lemma init_virtual_prompt_style_witness :
  __init__ Examples.world (Examples.base Examples.lora_cfg) Examples.lora_cfg
    Examples.trainer
  = Raise (ValueError "'lora' is not a valid VirtualPromptStyle")
  ∧ __init__ Examples.world (Examples.base Examples.p_tuning_cfg)
      Examples.p_tuning_cfg Examples.trainer
    = Ok Examples.model
  ∧ virtual_prompt_source Examples.model
    = Some VirtualPromptSource.PROMPT_ENCODER.
Proof.
  split; [| split].
  - apply (proj1 (init_virtual_prompt_style Examples.world
                    (Examples.base Examples.lora_cfg) Examples.lora_cfg
                    Examples.trainer)).
    intros Hin.
    repeat (apply elem_of_cons in Hin as [Hin | Hin]; [discriminate Hin |]).
    by apply elem_of_nil in Hin.
  - exact example_model_init.
  - exact (proj1 (proj2 (init_virtual_prompt_style Examples.world
                    (Examples.base Examples.p_tuning_cfg) Examples.p_tuning_cfg
                    Examples.trainer) VirtualPromptStyle.P_TUNING eq_refl)
             Examples.model example_model_init).
Defined.

Lemma foldl_max_spec (l : list Z) (a : Z) :
  a ≤ foldl Z.max a l
  ∧ (∀ x, x ∈ l → x ≤ foldl Z.max a l)
  ∧ (foldl Z.max a l = a ∨ foldl Z.max a l ∈ l).
Proof.
  revert a. induction l as [| y l IH]; intros a; cbn [foldl].
  - split; [lia |]. split; [intros x Hx; by apply elem_of_nil in Hx | by left].
  - destruct (IH (Z.max a y)) as (Hge & Hall & Hin). split; [lia |]. split.
    + intros x [-> | Hx]%elem_of_cons; [lia | by apply Hall].
    + destruct Hin as [Heq | Hin]; [| right; by right].
      destruct (Z.max_spec a y) as [[_ Hmax] | [_ Hmax]]; rewrite Heq, Hmax.
      * right. by left.
      * by left.
Qed.

Lemma foldl_max_zero (totals : list Z) :
  (∀ n, n ∈ totals → n = 0) → foldl Z.max 0 totals = 0.
Proof.
  induction totals as [| n totals IH]; intros Hzero; [done |]. cbn [foldl].
  rewrite (Hzero n) by (by left). cbn.
  apply IH. intros n' Hin. apply Hzero. by right.
Qed.

(** The names recorded by the assignments of [load_task_templates] and of
    the constructor after it. *)
Lemma loop_assigned (tasks : list Task.t) (st : t * Z) (name : string) :
  name ∈ assigned st.1 → name ∈ assigned (foldl register_task st tasks).1.
Proof.
  revert st. induction tasks as [| task tasks IH]; intros st Hname; [done |].
  cbn [foldl]. apply IH.
  cbn [register_task fst assigned set_task_templates set_max_virtual_tokens
       set_task_id_num_to_name].
  rewrite !elem_of_union. auto.
Qed.

Lemma check_new_tasks_assigned (self : t) :
  assigned (check_new_tasks self).1 = assigned self.
Proof.
  rewrite check_new_tasks_eq.
  destruct (new_tasks self) as [| first rest]; [done |].
  by destruct (total_virtual_tokens_of self first).
Qed.

Lemma load_task_templates_assigned (tasks : list Task.t) (self : t)
    (name : string) :
  name ∈ ["task_templates"; "task_id_num_to_name"; "max_virtual_tokens"] →
  name ∈ assigned (load_task_templates tasks self).1.
Proof.
  intros Hname. rewrite load_task_templates_eq, check_new_tasks_assigned.
  apply loop_assigned.
  cbn [fst assigned set_task_templates set_max_virtual_tokens
       set_task_id_num_to_name].
  rewrite !elem_of_union, !elem_of_singleton.
  repeat (apply elem_of_cons in Hname as [-> | Hname]; [auto 6 |]).
  by apply elem_of_nil in Hname.
Qed.

Lemma prepare_prompts_assigned (init_cfg : Cfg.t) (self : t) (name : string) :
  (prepare_prompts init_cfg self).2 = Ok () →
  name ∈ ["task_templates"; "task_id_num_to_name"; "max_virtual_tokens";
          "pseudo_tokens"; "pseudo_token_ids"; "pseudo_token_ids_start"] →
  name ∈ assigned (prepare_prompts init_cfg self).1.
Proof.
  rewrite prepare_prompts_eq.
  pose proof (load_task_templates_assigned (Cfg.task_templates (cfg self)) self)
    as Hloaded.
  destruct (load_task_templates (Cfg.task_templates (cfg self)) self)
    as [loaded [[] | e]]; cbn [fst snd] in *; [| discriminate].
  intros _ Hname. cbv zeta.
  cbn [assigned set_virtual_prompt_source set_pad_token_id
       set_pseudo_token_ids_start set_pseudo_token_ids set_tokenizer
       set_pseudo_tokens].
  rewrite !elem_of_union, !elem_of_singleton.
  repeat (apply elem_of_cons in Hname as [-> | Hname];
          [first [ by auto 6
                 | do 4 right; apply Hloaded;
                   rewrite !elem_of_cons; by auto 6 ] |]).
  by apply elem_of_nil in Hname.
Qed.

(** C10.  When the list of task templates is empty, or every task of it
    declares no virtual token, [load_task_templates] assigns
    [max_virtual_tokens] and leaves it at 0, whatever the object held
    before; lines 72 to 76 of the constructor then assign an empty list of
    pseudo tokens, an empty list of pseudo-token ids and [None] as
    [pseudo_token_ids_start], whatever the object held before; and a
    constructed model has these four attributes with these values. *)
Theorem no_virtual_tokens (w : World.t) (base : Base.t) (cfg : Cfg.t)
    (trainer : Trainer.t) :
  Cfg.task_templates (Base.cfg base) = []
  ∨ (∀ task, task ∈ Cfg.task_templates (Base.cfg base) →
             Task.total_virtual_tokens task = 0) →
  (∀ self,
     "max_virtual_tokens"
       ∈ assigned
           (load_task_templates (Cfg.task_templates (Base.cfg base)) self).1
     ∧ max_virtual_tokens
         (load_task_templates (Cfg.task_templates (Base.cfg base)) self).1 = 0)
  ∧ (∀ init_cfg self,
       MegatronFusedRetrievalAdapterModel.cfg self = Base.cfg base →
       (prepare_prompts init_cfg self).2 = Ok () →
       max_virtual_tokens (prepare_prompts init_cfg self).1 = 0
       ∧ pseudo_tokens (prepare_prompts init_cfg self).1 = []
       ∧ pseudo_token_ids (prepare_prompts init_cfg self).1 = []
       ∧ pseudo_token_ids_start (prepare_prompts init_cfg self).1 = None)
  ∧ (∀ m, __init__ w base cfg trainer = Ok m →
          (∀ name,
             name ∈ ["max_virtual_tokens"; "pseudo_tokens"; "pseudo_token_ids";
                     "pseudo_token_ids_start"] →
             name ∈ assigned m)
          ∧ max_virtual_tokens m = 0
          ∧ pseudo_tokens m = []
          ∧ pseudo_token_ids m = []
          ∧ pseudo_token_ids_start m = None).
Proof.
  intros Hzero.
  assert (∀ task, task ∈ Cfg.task_templates (Base.cfg base) →
                  Task.total_virtual_tokens task = 0) as Hall.
  { destruct Hzero as [-> | Hzero]; [| done].
    intros task Hin. by apply elem_of_nil in Hin. }
  assert (∀ self,
            max_virtual_tokens
              (load_task_templates (Cfg.task_templates (Base.cfg base)) self).1
            = 0) as Hmax.
  { intros self.
    destruct (load_task_templates_tables (Cfg.task_templates (Base.cfg base)) self)
      as (_ & _ & -> & _).
    rewrite loop_max_virtual_tokens. apply foldl_max_zero.
    intros n (task & -> & Hin)%list_elem_of_fmap. by apply Hall. }
  assert (∀ init_cfg self,
            MegatronFusedRetrievalAdapterModel.cfg self = Base.cfg base →
            (prepare_prompts init_cfg self).2 = Ok () →
            max_virtual_tokens (prepare_prompts init_cfg self).1 = 0
            ∧ pseudo_tokens (prepare_prompts init_cfg self).1 = []
            ∧ pseudo_token_ids (prepare_prompts init_cfg self).1 = []
            ∧ pseudo_token_ids_start (prepare_prompts init_cfg self).1 = None)
    as Hlines.
  { intros init_cfg self Hcfg Hreturns.
    destruct (prepare_prompts_outcome init_cfg self) as [Hout Hfields].
    rewrite Hreturns in Hout. symmetry in Hout.
    destruct (Hfields Hout) as (_ & _ & _ & Hm & Hpseudo & _ & Hids & Hstart).
    rewrite Hcfg, Hmax in Hm.
    rewrite Hm in Hpseudo.
    change (get_pseudo_tokens 0) with (@nil string) in Hpseudo.
    rewrite Hpseudo in Hids. cbn in Hids. rewrite Hids in Hstart.
    by repeat split. }
  split; [| split; [exact Hlines |]].
  - intros self. split; [| apply Hmax].
    apply load_task_templates_assigned. rewrite !elem_of_cons. auto.
  - intros m (s & fm & _ & Hprep)%init_Ok_inv.
    match type of Hprep with
    | prepare_prompts cfg ?self0 = _ =>
        pose proof (Hlines cfg self0 eq_refl) as Hvalues;
        pose proof (prepare_prompts_assigned cfg self0) as Hnames;
        rewrite Hprep in Hvalues, Hnames; cbn [fst snd] in Hvalues, Hnames
    end.
    split; [| by apply Hvalues].
    intros name Hname. apply Hnames; [done |].
    rewrite !elem_of_cons in Hname. rewrite !elem_of_cons.
    destruct Hname as [-> | [-> | [-> | [-> | Hname]]]];
      first [by auto 8 | by apply elem_of_nil in Hname].
Qed.

Lemma no_virtual_tokens_witness :
  __init__ Examples.world (Examples.base Examples.empty_cfg)
    Examples.empty_cfg Examples.trainer
  = Ok Examples.empty_model
  ∧ "pseudo_token_ids_start" ∈ assigned Examples.empty_model
  ∧ max_virtual_tokens Examples.empty_model = 0
  ∧ pseudo_tokens Examples.empty_model = []
  ∧ pseudo_token_ids Examples.empty_model = []
  ∧ pseudo_token_ids_start Examples.empty_model = None.
Proof.
  split; [exact example_empty_model_init |].
  destruct (proj2 (proj2 (no_virtual_tokens Examples.world
                            (Examples.base Examples.empty_cfg) Examples.empty_cfg
                            Examples.trainer ltac:(by left)))
              Examples.empty_model example_empty_model_init)
    as [Hnames Hvalues].
  split; [| exact Hvalues].
  apply Hnames. rewrite !elem_of_cons. auto 8.
Defined.

(** C7.  The constructor fills the task-template table from the config's
    list of task templates and the pseudo-token vocabulary from the
    table's [max_virtual_tokens].  On a constructed model the six
    attributes are assigned; [task_id_num_to_name] maps the position of
    every task of the list to its name and has no other key;
    [task_templates] holds, under the name of a task that no later task of
    the list bears, the entry written from that task and its position,
    and nothing under a name that no task bears; [max_virtual_tokens] is
    the largest [total_virtual_tokens] of the list, or 0; [pseudo_tokens]
    holds one placeholder per virtual token, numbered from 0; the
    tokenizer is the one of the base class with these tokens added, and
    [pseudo_token_ids] are their ids in it, the first of which is
    [pseudo_token_ids_start].  After that, no call of [setup], of the
    three data hooks, of [build_virtual_prompt_dataset], [collate_fn],
    [validation_step], [pad_batch_and_build_loss_mask],
    [build_virtual_prompt_dataset2],
    [freeze_existing_virtual_prompt_params] or of the adapter methods, nor
    any sequence of such calls, changes one of the six attributes, whether
    the calls return or raise. *)
Theorem prompt_tables_populated_once (w : World.t) :
  (∀ base cfg trainer m,
     __init__ w base cfg trainer = Ok m →
     (∀ name,
        name ∈ ["task_templates"; "task_id_num_to_name"; "max_virtual_tokens";
                "pseudo_tokens"; "pseudo_token_ids"; "pseudo_token_ids_start"] →
        name ∈ assigned m)
     ∧ (∀ (i : nat) task,
          Cfg.task_templates (Base.cfg base) !! i = Some task →
          task_id_num_to_name m !! Z.of_nat i = Some (Task.taskname task))
     ∧ (∀ k, ¬ (0 ≤ k < len (Cfg.task_templates (Base.cfg base))) →
             task_id_num_to_name m !! k = None)
     ∧ (∀ (i : nat) task,
          Cfg.task_templates (Base.cfg base) !! i = Some task →
          (∀ (j : nat) later,
             (i < j)%nat →
             Cfg.task_templates (Base.cfg base) !! j = Some later →
             Task.taskname later ≠ Task.taskname task) →
          task_templates m !! Task.taskname task
          = Some {| Template.prompt_template := Task.prompt_template task;
                    Template.prompt_template_fields :=
                      re_findall_fields (Task.prompt_template task);
                    Template.answer_only_loss :=
                      default false (Task.answer_only_loss task);
                    Template.answer_field := Task.answer_field task;
                    Template.truncate_field := Task.truncate_field task;
                    Template.total_virtual_tokens :=
                      Task.total_virtual_tokens task;
                    Template.virtual_token_splits :=
                      Task.virtual_token_splits task;
                    Template.task_id_num := Z.of_nat i |})
     ∧ (∀ name,
          (∀ task, task ∈ Cfg.task_templates (Base.cfg base) →
                   Task.taskname task ≠ name) →
          task_templates m !! name = None)
     ∧ max_virtual_tokens m
       = foldl Z.max 0
           (Task.total_virtual_tokens <$> Cfg.task_templates (Base.cfg base))
     ∧ len (pseudo_tokens m) = max_virtual_tokens m
     ∧ (∀ i, 0 ≤ i < max_virtual_tokens m →
             pseudo_tokens m !! Z.to_nat i
             = Some ("<prompt_" +:+ str i +:+ ">"))
     ∧ tokenizer m
       = Tokenizer.add_special_tokens (Base.tokenizer base) (pseudo_tokens m)
     ∧ pseudo_token_ids m = Tokenizer.tokens_to_ids (tokenizer m) (pseudo_tokens m)
     ∧ pseudo_token_ids_start m = head (pseudo_token_ids m))
  ∧ (∀ op self, prompt_tables (after w op self) = prompt_tables self)
  ∧ (∀ ops self,
       prompt_tables (foldl (λ self op, after w op self) self ops)
       = prompt_tables self).
Proof.
  split; [| split].
  - intros base cfg trainer m (s & fm & _ & Hprep)%init_Ok_inv.
    set (tasks := Cfg.task_templates (Base.cfg base)).
    match type of Hprep with
    | prepare_prompts cfg ?self0 = _ =>
        set (self := self0) in *;
        destruct (prepare_prompts_outcome cfg self) as [Hout Hfields];
        pose proof (prepare_prompts_assigned cfg self) as Hnames;
        rewrite Hprep in Hout, Hfields, Hnames;
        cbn [fst snd] in Hout, Hfields, Hnames;
        symmetry in Hout;
        destruct (Hfields Hout)
          as (_ & Ht & Hn & Hm & Hpseudo & Htok & Hids & Hstart)
    end.
    change (Cfg.task_templates (MegatronFusedRetrievalAdapterModel.cfg self))
      with tasks in Ht, Hn, Hm.
    destruct (load_task_templates_tables tasks self) as (Ht' & Hn' & Hm' & _).
    cbv zeta in Ht', Hn', Hm'. rewrite Ht' in Ht. rewrite Hn' in Hn.
    rewrite Hm', loop_max_virtual_tokens in Hm.
    cbn [fst max_virtual_tokens set_max_virtual_tokens] in Hm.
    set (st := (set_max_virtual_tokens 0
                  (set_task_id_num_to_name ∅ (set_task_templates ∅ self)), 0))
      in Ht, Hn.
    assert (0 ≤ max_virtual_tokens m) as Hpos.
    { rewrite Hm. exact (proj1 (foldl_max_spec _ 0)). }
    split; [exact (λ name, Hnames name eq_refl) |].
    split; [| split; [| split; [| split; [| split; [exact Hm |]]]]].
    + intros i task Hi. rewrite Hn. exact (loop_names tasks st i task Hi).
    + intros k Hk. rewrite Hn.
      destruct (decide (k < 0)) as [Hneg | Hnonneg].
      * by rewrite (loop_names_below tasks st k Hneg).
      * assert (0 + len tasks ≤ k) as Habove by lia.
        by rewrite (loop_names_above tasks st k Habove).
    + intros i task Hi Hlast. rewrite Ht.
      exact (loop_templates tasks st i task Hi Hlast).
    + intros name Hother. rewrite Ht.
      by rewrite (loop_templates_other tasks st name Hother).
    + split.
      { rewrite Hpseudo. unfold get_pseudo_tokens, len.
        rewrite length_fmap, range_length. lia. }
      split; [| split; [exact Htok | split; [exact Hids | exact Hstart]]].
      intros i Hi. rewrite Hpseudo. unfold get_pseudo_tokens.
      by rewrite list_lookup_fmap, range_lookup.
  - apply after_keeps.
  - intros ops. induction ops as [| op ops IH]; intros self; [done |].
    cbn [foldl]. by rewrite IH, after_keeps.
Qed.

Lemma prompt_tables_populated_once_witness :
  max_virtual_tokens Examples.model = 10
  ∧ pseudo_tokens Examples.model !! 9%nat = Some "<prompt_9>"
  ∧ task_id_num_to_name Examples.model !! 1 = Some "intent"
  ∧ prompt_tables
      (foldl (λ self op, after Examples.world op self) Examples.model
         [call_setup None; call_add_adapter "adapter_1" "linear";
          call_collate_fn Examples.batch 0;
          call_freeze_existing_virtual_prompt_params])
    = prompt_tables Examples.model.
Proof.
  destruct (proj1 (prompt_tables_populated_once Examples.world)
              (Examples.base Examples.p_tuning_cfg) Examples.p_tuning_cfg
              Examples.trainer Examples.model example_model_init)
    as (_ & Hnames & _ & _ & _ & Hmax & _ & Hpseudo & _).
  assert (max_virtual_tokens Examples.model = 10) as Hten
    by (rewrite Hmax; reflexivity).
  split; [exact Hten |]. split; [| split].
  - pose proof (Hpseudo 9 ltac:(rewrite Hten; lia)) as Hninth.
    change (Z.to_nat 9) with 9%nat in Hninth. rewrite Hninth. reflexivity.
  - exact (Hnames 1%nat (Examples.task "intent" 10) eq_refl).
  - apply (proj2 (proj2 (prompt_tables_populated_once Examples.world))).
Defined.

(** * Further properties of the code *)

(** ** The fields of a prompt template *)

Lemma chars_app (s u : string) : chars (s +:+ u) = chars s ++ chars u.
Proof.
  unfold chars. induction s as [| c s IH]; [done |].
  change (c :: list_ascii_of_string (s +:+ u)
          = c :: (list_ascii_of_string s ++ list_ascii_of_string u)).
  by rewrite IH.
Qed.

Lemma string_app_assoc (s u v : string) : (s +:+ u) +:+ v = s +:+ (u +:+ v).
Proof.
  induction s as [| c s IH]; [done |].
  change (String c ((s +:+ u) +:+ v) = String c (s +:+ (u +:+ v))).
  by rewrite IH.
Qed.

Lemma findall_fields_clean (s : string) (open : option string) (field : string) :
  (∀ text, open = Some text →
           (close_brace ∉ chars text) ∧ (line_feed ∉ chars text)) →
  field ∈ findall_fields open s →
  (close_brace ∉ chars field) ∧ (line_feed ∉ chars field).
Proof.
  revert open. induction s as [| c s IH]; intros open Hopen Hin; cbn in Hin.
  - by apply elem_of_nil in Hin.
  - destruct open as [text |].
    + destruct (Hopen text eq_refl) as [Hbrace Hline].
      case_bool_decide as Hc; [| case_bool_decide as Hn].
      * apply elem_of_cons in Hin as [-> | Hin]; [done |].
        by apply (IH None).
      * by apply (IH None).
      * apply (IH (Some (text +:+ String c ""))); [| done].
        intros text' [= <-]. rewrite chars_app. cbn.
        rewrite !elem_of_app, !list_elem_of_singleton.
        split; (intros [Hin' | Heq]; [done |]).
        -- exact (Hc (eq_sym Heq)).
        -- exact (Hn (eq_sym Heq)).
    + case_bool_decide as Hc.
      * apply (IH (Some "")); [| done]. intros text' [= <-]. cbn.
        split; apply not_elem_of_nil.
      * by apply (IH None).
Qed.

(** X1.  No field that [re.findall] extracts from a prompt template holds a
    closing brace or a line feed. *)
Theorem re_findall_fields_clean (template field : string) :
  field ∈ re_findall_fields template →
  (close_brace ∉ chars field) ∧ (line_feed ∉ chars field).
Proof. apply findall_fields_clean. by intros text [=]. Qed.

Lemma re_findall_fields_clean_witness :
  re_findall_fields "<|VIRTUAL_PROMPT_0|> {question} {answer}"
  = ["question"; "answer"]
  ∧ (close_brace ∉ chars "answer") ∧ (line_feed ∉ chars "answer").
Proof.
  split; [reflexivity |].
  apply (re_findall_fields_clean "<|VIRTUAL_PROMPT_0|> {question} {answer}").
  change (re_findall_fields "<|VIRTUAL_PROMPT_0|> {question} {answer}")
    with ["question"; "answer"].
  apply elem_of_cons. right. apply elem_of_cons. by left.
Defined.

Lemma chars_cons (c : ascii) (s : string) : chars (String c s) = c :: chars s.
Proof. reflexivity. Qed.

Lemma string_app_cons (c : ascii) (s u : string) :
  String c s +:+ u = String c (s +:+ u).
Proof. reflexivity. Qed.

Lemma findall_fields_skip (text s : string) :
  (open_brace ∉ chars text) →
  findall_fields None (text +:+ s) = findall_fields None s.
Proof.
  induction text as [| c text IH]; intros Hc; [done |].
  rewrite chars_cons in Hc. apply not_elem_of_cons in Hc as [Hne Hc].
  rewrite string_app_cons. cbn [findall_fields].
  rewrite bool_decide_eq_false_2 by (intros ->; by apply Hne).
  by apply IH.
Qed.

Lemma findall_fields_close (field text s : string) :
  (close_brace ∉ chars field) → (line_feed ∉ chars field) →
  findall_fields (Some text) (field +:+ String "}"%char s)
  = (text +:+ field) :: findall_fields None s.
Proof.
  revert text. induction field as [| c field IH]; intros text Hbrace Hline.
  - change ("" +:+ String "}"%char s) with (String "}"%char s).
    cbn [findall_fields]. rewrite bool_decide_eq_true_2 by done. f_equal.
    clear. induction text as [| d text IH]; [done |].
    rewrite string_app_cons. by rewrite <- IH.
  - rewrite chars_cons in Hbrace, Hline.
    apply not_elem_of_cons in Hbrace as [Hb Hbrace].
    apply not_elem_of_cons in Hline as [Hl Hline].
    rewrite string_app_cons. cbn [findall_fields].
    rewrite (bool_decide_eq_false_2 (c = "}"%char))
      by (intros ->; by apply Hb).
    rewrite (bool_decide_eq_false_2 (c = ascii_of_nat 10))
      by (intros ->; by apply Hl).
    rewrite IH by done. by rewrite string_app_assoc.
Qed.

Lemma findall_fields_none (text : string) :
  (open_brace ∉ chars text) → findall_fields None text = [].
Proof.
  induction text as [| c text IH]; intros Hc; [done |].
  rewrite chars_cons in Hc. apply not_elem_of_cons in Hc as [Hne Hc].
  cbn [findall_fields].
  rewrite bool_decide_eq_false_2 by (intros ->; by apply Hne).
  by apply IH.
Qed.

(** X2.  Reading back a template written from its parts gives the fields
    in order, provided no field holds a closing brace or a line feed and
    the texts around the fields hold no opening brace. *)
Theorem re_findall_fields_write_template (parts : list (string * string))
    (tail : string) :
  (∀ part, part ∈ parts →
           (open_brace ∉ chars part.1)
           ∧ (close_brace ∉ chars part.2) ∧ (line_feed ∉ chars part.2)) →
  (open_brace ∉ chars tail) →
  re_findall_fields (write_template parts tail) = parts.*2.
Proof.
  intros Hparts Htail. unfold re_findall_fields.
  induction parts as [| [text field] parts IH].
  - by apply findall_fields_none.
  - destruct (Hparts (text, field)) as (Htext & Hbrace & Hline); [by left |].
    cbn [fst snd] in Htext, Hbrace, Hline.
    change (write_template ((text, field) :: parts) tail)
      with (text +:+ String "{"%char
                       (field +:+ String "}"%char (write_template parts tail))).
    rewrite findall_fields_skip by done.
    cbn [findall_fields]. rewrite bool_decide_eq_true_2 by done.
    rewrite findall_fields_close by done.
    change (((text, field) :: parts).*2) with (field :: parts.*2).
    change ("" +:+ field) with field. f_equal.
    apply IH. intros part Hin. apply Hparts. by right.
Qed.

Lemma re_findall_fields_write_template_witness :
  re_findall_fields
    (write_template [("Context: ", "context"); (" Question: ", "question")]
                    " Answer:")
  = ["context"; "question"].
Proof.
  apply (re_findall_fields_write_template
           [("Context: ", "context"); (" Question: ", "question")] " Answer:").
  - intros part Hin.
    apply elem_of_cons in Hin as [-> | Hin];
      [| apply list_elem_of_singleton in Hin as ->];
      repeat split; compute_done.
  - compute_done.
Defined.

(** ** More on [load_task_templates] *)

(** X3.  After [load_task_templates] the keys of [task_templates] are the
    names of the tasks of the config list, no more and no less. *)
Theorem load_task_templates_names (tasks : list Task.t) (self : t)
    (name : string) :
  is_Some (task_templates (load_task_templates tasks self).1 !! name)
  ↔ ∃ task, task ∈ tasks ∧ Task.taskname task = name.
Proof.
  destruct (load_task_templates_tables tasks self) as (-> & _).
  set (st0 := (set_max_virtual_tokens 0
                 (set_task_id_num_to_name ∅ (set_task_templates ∅ self)), 0)).
  split.
  - intros Hsome.
    destruct (decide (Exists (λ task, Task.taskname task = name) tasks))
      as [Hex | Hnone].
    + apply Exists_exists in Hex as (task & Hin & Hname). by exists task.
    + rewrite (loop_templates_other tasks st0 name) in Hsome.
      * cbn in Hsome. rewrite lookup_empty in Hsome. by destruct Hsome.
      * intros task Hin Hname. apply Hnone, Exists_exists. by exists task.
  - intros (task & [i Hi]%list_elem_of_lookup & <-).
    destruct (last_bearer tasks i task Hi)
      as (j & task' & _ & Hj & Hname & Hlast).
    rewrite <- Hname, (loop_templates tasks st0 j task' Hj Hlast). by eexists.
Qed.

(** X4.  After [load_task_templates], [max_virtual_tokens] is not
    negative, no task of the list declares more virtual tokens, and it is
    0 or the number some task declares. *)
Theorem load_task_templates_max (tasks : list Task.t) (self : t) :
  0 ≤ max_virtual_tokens (load_task_templates tasks self).1
  ∧ (∀ task, task ∈ tasks →
             Task.total_virtual_tokens task
             ≤ max_virtual_tokens (load_task_templates tasks self).1)
  ∧ (max_virtual_tokens (load_task_templates tasks self).1 = 0
     ∨ ∃ task, task ∈ tasks
               ∧ Task.total_virtual_tokens task
                 = max_virtual_tokens (load_task_templates tasks self).1).
Proof.
  destruct (load_task_templates_tables tasks self) as (_ & _ & -> & _).
  rewrite loop_max_virtual_tokens. cbn [fst max_virtual_tokens set_max_virtual_tokens].
  destruct (foldl_max_spec (Task.total_virtual_tokens <$> tasks) 0)
    as (Hge & Hall & Hin).
  split; [done |]. split.
  - intros task Htask. apply Hall, list_elem_of_fmap. by exists task.
  - destruct Hin as [Heq | (task & Heq & Htask)%list_elem_of_fmap]; [by left |].
    right. by exists task.
Qed.

(** X5.  [load_task_templates] builds the table from the config list
    alone: whatever the object held before, the three attributes of the
    table come out the same, and so does the outcome of the call on
    objects with the same [new_tasks]. *)
Theorem load_task_templates_rebuilds (tasks : list Task.t) (self self' : t) :
  task_templates (load_task_templates tasks self).1
  = task_templates (load_task_templates tasks self').1
  ∧ task_id_num_to_name (load_task_templates tasks self).1
    = task_id_num_to_name (load_task_templates tasks self').1
  ∧ max_virtual_tokens (load_task_templates tasks self).1
    = max_virtual_tokens (load_task_templates tasks self').1
  ∧ (new_tasks self = new_tasks self' →
     (load_task_templates tasks self).2 = (load_task_templates tasks self').2).
Proof.
  assert (task_templates (load_task_templates tasks self).1
          = task_templates (load_task_templates tasks self').1) as Htable.
  { destruct (load_task_templates_tables tasks self) as (-> & _).
    destruct (load_task_templates_tables tasks self') as (-> & _).
    set (st := (set_max_virtual_tokens 0
                  (set_task_id_num_to_name ∅ (set_task_templates ∅ self)), 0)).
    set (st' := (set_max_virtual_tokens 0
                   (set_task_id_num_to_name ∅ (set_task_templates ∅ self')), 0)).
    apply map_eq. intros name.
    destruct (decide (Exists (λ task, Task.taskname task = name) tasks))
      as [Hex | Hnone].
    - apply Exists_exists in Hex as (task & [i Hi]%list_elem_of_lookup & <-).
      destruct (last_bearer tasks i task Hi)
        as (j & task' & _ & Hj & Hname & Hlast).
      rewrite <- Hname.
      by rewrite (loop_templates tasks st j task' Hj Hlast),
                 (loop_templates tasks st' j task' Hj Hlast).
    - assert (∀ task, task ∈ tasks → Task.taskname task ≠ name) as Hother.
      { intros task Hin Hname. apply Hnone, Exists_exists. by exists task. }
      by rewrite (loop_templates_other tasks st name Hother),
                 (loop_templates_other tasks st' name Hother). }
  split; [exact Htable |]. split; [| split].
  - destruct (load_task_templates_tables tasks self) as (_ & -> & _).
    destruct (load_task_templates_tables tasks self') as (_ & -> & _).
    set (st := (set_max_virtual_tokens 0
                  (set_task_id_num_to_name ∅ (set_task_templates ∅ self)), 0)).
    set (st' := (set_max_virtual_tokens 0
                   (set_task_id_num_to_name ∅ (set_task_templates ∅ self')), 0)).
    apply map_eq. intros k.
    destruct (decide (0 ≤ k < len tasks)) as [Hk | Hk].
    + destruct (lookup_lt_is_Some_2 tasks (Z.to_nat k)) as [task Htask];
        [unfold len in Hk; lia |].
      pose proof (loop_names tasks st (Z.to_nat k) task Htask) as H1.
      pose proof (loop_names tasks st' (Z.to_nat k) task Htask) as H2.
      cbn [snd] in H1, H2. rewrite Z.add_0_l, Z2Nat.id in H1, H2 by lia.
      by rewrite H1, H2.
    + destruct (decide (k < 0)) as [Hneg | Hpos].
      * by rewrite (loop_names_below tasks st), (loop_names_below tasks st')
          by done.
      * assert (0 + len tasks ≤ k) as Habove by lia.
        by rewrite (loop_names_above tasks st k Habove),
                   (loop_names_above tasks st' k Habove).
  - destruct (load_task_templates_tables tasks self) as (_ & _ & -> & _).
    destruct (load_task_templates_tables tasks self') as (_ & _ & -> & _).
    by rewrite !loop_max_virtual_tokens.
  - intros Hnew.
    pose proof (load_task_templates_tables tasks self) as (Ht & _).
    pose proof (load_task_templates_tables tasks self') as (Ht' & _).
    cbv zeta in Ht, Ht'. rewrite Ht, Ht' in Htable.
    rewrite !load_task_templates_eq, !check_new_tasks_eq, !loop_new_tasks.
    cbn [fst new_tasks set_max_virtual_tokens set_task_id_num_to_name
         set_task_templates].
    rewrite <- Hnew. destruct (new_tasks self) as [| first rest]; [done |].
    rewrite (total_virtual_tokens_of_ext _ _ first Htable).
    destruct (total_virtual_tokens_of _ first) as [total | e]; [| done].
    cbn [snd]. by rewrite (all_totals_match_ext _ _ total (first :: rest) Htable).
Qed.

Lemma load_task_templates_rebuilds_witness :
  task_templates
    (load_task_templates Examples.mixed_tasks Examples.model).1
  = task_templates
      (load_task_templates Examples.mixed_tasks
         (Examples.fresh ["squad"; "intent"] [])).1
  ∧ (load_task_templates Examples.mixed_tasks Examples.model).2
    = (load_task_templates Examples.mixed_tasks
         (Examples.fresh ["squad"; "intent"] [])).2.
Proof.
  destruct (load_task_templates_rebuilds Examples.mixed_tasks Examples.model
              (Examples.fresh ["squad"; "intent"] []))
    as (Htable & _ & _ & Hout).
  split; [exact Htable |]. apply Hout. by vm_compute.
Defined.

(** ** More on [pad_batch_and_build_loss_mask] *)

Lemma uniform_elim {A} (rows : list (list A)) (r r' : list A) :
  uniform rows = true → r ∈ rows → r' ∈ rows → length r = length r'.
Proof.
  destruct rows as [| r0 rows]; [intros _ Hr; by apply elem_of_nil in Hr |].
  cbn [uniform]. intros Hall.
  assert (∀ x, x ∈ r0 :: rows → length x = length r0) as Hlen.
  { intros x [-> | Hx]%elem_of_cons; [done |].
    rewrite forallb_forall in Hall.
    apply list_elem_of_In, Hall in Hx. by apply bool_decide_eq_true in Hx. }
  intros Hr Hr'. by rewrite (Hlen r), (Hlen r').
Qed.

(** What a call that returns has returned. *)
Lemma pad_batch_Ok_inv (self : t) (input_ids : list (list Z)) (batch_max : Z)
    (answer_starts : list (option Z)) (padded : list (list Z))
    (masks : list (list Q)) :
  pad_batch_and_build_loss_mask self input_ids batch_max answer_starts
  = Ok (padded, masks) →
  padded = (λ p, (pad_row self batch_max p.1 p.2).1)
             <$> zip input_ids answer_starts
  ∧ masks = (λ p, (pad_row self batch_max p.1 p.2).2)
              <$> zip input_ids answer_starts
  ∧ zip input_ids answer_starts ≠ []
  ∧ uniform padded = true.
Proof.
  unfold pad_batch_and_build_loss_mask. cbv zeta.
  rewrite <- !list_fmap_compose.
  change (fst ∘ (λ p : list Z * option Z, pad_row self batch_max p.1 p.2))
    with (λ p : list Z * option Z, (pad_row self batch_max p.1 p.2).1).
  change (snd ∘ (λ p : list Z * option Z, pad_row self batch_max p.1 p.2))
    with (λ p : list Z * option Z, (pad_row self batch_max p.1 p.2).2).
  assert (zip input_ids answer_starts = [] ∨ zip input_ids answer_starts ≠ [])
    as [-> | Hne] by (destruct (zip input_ids answer_starts); [by left | by right]).
  { done. }
  set (ids := (λ p : list Z * option Z, (pad_row self batch_max p.1 p.2).1)
                <$> zip input_ids answer_starts).
  set (ms := (λ p : list Z * option Z, (pad_row self batch_max p.1 p.2).2)
               <$> zip input_ids answer_starts).
  destruct (torch_tensor ids) as [ids' |] eqn:Hids; [| done].
  apply torch_tensor_Ok in Hids as (-> & Hu & _).
  destruct (torch_stack ms) as [ms' |] eqn:Hms; [| done].
  unfold torch_stack in Hms. destruct ms as [| m ms0] eqn:Hmeq; [done |].
  destruct (uniform (m :: ms0)); [| done]. injection Hms as <-.
  by intros [= <- <-].
Qed.

Lemma pad_row_width (self : t) (batch_max : Z) (ids : list Z)
    (answer_start_idx : option Z) :
  len (pad_row self batch_max ids answer_start_idx).1 = Z.max batch_max (len ids)
  ∧ len (pad_row self batch_max ids answer_start_idx).2
    = Z.max batch_max (len ids)
  ∧ take (length ids) (pad_row self batch_max ids answer_start_idx).1 = ids.
Proof.
  unfold pad_row, len. cbn [fst snd]. repeat split.
  - rewrite length_app, repeat_list_length. lia.
  - rewrite length_app, repeat_list_length.
    destruct answer_start_idx as [a |].
    + rewrite length_fmap, range_length. lia.
    + rewrite length_fmap. lia.
  - apply take_app_length.
Qed.

(** X6.  [zip] pairs rows with answer starts and drops what is left of
    the longer list: a call that returns has returned as many padded rows
    and as many loss masks as the shorter of the two lists has elements,
    and at least one. *)
Theorem pad_batch_row_count (self : t) (input_ids : list (list Z))
    (batch_max : Z) (answer_starts : list (option Z))
    (padded : list (list Z)) (masks : list (list Q)) :
  pad_batch_and_build_loss_mask self input_ids batch_max answer_starts
  = Ok (padded, masks) →
  length padded = (length input_ids `min` length answer_starts)%nat
  ∧ length masks = (length input_ids `min` length answer_starts)%nat
  ∧ (0 < length padded)%nat.
Proof.
  intros (-> & -> & Hne & _)%pad_batch_Ok_inv.
  rewrite !length_fmap, length_zip_with. repeat split.
  destruct (zip input_ids answer_starts) eqn:Hzip; [done |].
  apply (f_equal length) in Hzip. rewrite length_zip_with in Hzip.
  cbn in Hzip. lia.
Qed.

Lemma pad_batch_row_count_witness :
  pad_batch_and_build_loss_mask Examples.model [[5; 6; 2]; [7; 2; 4]; [2; 3; 4]]
    3 [Some 2; None]
  = Ok ([[5; 6; 2]; [7; 2; 4]], [[0; 0; 1]%Q; [0; 1; 1]%Q])
  ∧ length [[5; 6; 2]; [7; 2; 4]] = 2%nat.
Proof.
  assert (pad_batch_and_build_loss_mask Examples.model
            [[5; 6; 2]; [7; 2; 4]; [2; 3; 4]] 3 [Some 2; None]
          = Ok ([[5; 6; 2]; [7; 2; 4]], [[0; 0; 1]%Q; [0; 1; 1]%Q])) as Hcall
    by (by vm_compute).
  split; [exact Hcall |].
  by destruct (pad_batch_row_count _ _ _ _ _ _ Hcall) as (-> & _).
Defined.

(** X7.  Rows are never cut: in what a call returns, the row at a
    position starts with the input row of that position and is as long as
    the longer of [batch_max] and the input row, and so is its loss mask.
    So when a row is longer than [batch_max], a call returns only if
    every row has that length. *)
Theorem pad_batch_no_truncation (self : t) (input_ids : list (list Z))
    (batch_max : Z) (answer_starts : list (option Z))
    (padded : list (list Z)) (masks : list (list Q)) :
  pad_batch_and_build_loss_mask self input_ids batch_max answer_starts
  = Ok (padded, masks) →
  (∀ (k : nat) ids answer_start,
     input_ids !! k = Some ids → answer_starts !! k = Some answer_start →
     ∃ row mask,
       padded !! k = Some row ∧ masks !! k = Some mask
       ∧ take (length ids) row = ids
       ∧ len row = Z.max batch_max (len ids)
       ∧ len mask = Z.max batch_max (len ids))
  ∧ (∀ (k k' : nat) ids ids',
       input_ids !! k = Some ids → is_Some (answer_starts !! k) →
       input_ids !! k' = Some ids' → is_Some (answer_starts !! k') →
       Z.max batch_max (len ids) = Z.max batch_max (len ids')).
Proof.
  intros Hcall.
  pose proof Hcall as (-> & -> & Hne & Huniform)%pad_batch_Ok_inv.
  assert (∀ (k : nat) ids a,
            input_ids !! k = Some ids → answer_starts !! k = Some a →
            ((λ p : list Z * option Z, (pad_row self batch_max p.1 p.2).1)
               <$> zip input_ids answer_starts) !! k
            = Some (pad_row self batch_max ids a).1) as Hrow.
  { intros k ids a Hk Ha.
    rewrite list_lookup_fmap, lookup_zip_with, Hk. cbn. by rewrite Ha. }
  split.
  - intros k ids a Hk Ha.
    exists (pad_row self batch_max ids a).1, (pad_row self batch_max ids a).2.
    destruct (pad_row_width self batch_max ids a) as (Hw1 & Hw2 & Htake).
    split; [by apply Hrow |]. split; [| done].
    rewrite list_lookup_fmap, lookup_zip_with, Hk. cbn. by rewrite Ha.
  - intros k k' ids ids' Hk [a Ha] Hk' [a' Ha'].
    destruct (pad_row_width self batch_max ids a) as (<- & _).
    destruct (pad_row_width self batch_max ids' a') as (<- & _).
    unfold len. f_equal.
    apply (uniform_elim _ _ _ Huniform).
    + apply list_elem_of_lookup. exists k. by apply Hrow.
    + apply list_elem_of_lookup. exists k'. by apply Hrow.
Qed.

Lemma pad_batch_no_truncation_witness :
  pad_batch_and_build_loss_mask Examples.model [[5; 6; 2; 3]; [7; 2; 4; 3]] 2
    [Some 2; None]
  = Ok ([[5; 6; 2; 3]; [7; 2; 4; 3]], [[0; 0; 1; 1]%Q; [0; 1; 1; 1]%Q])
  ∧ Z.max 2 (len [5; 6; 2; 3]) = Z.max 2 (len [7; 2; 4; 3]).
Proof.
  assert (pad_batch_and_build_loss_mask Examples.model
            [[5; 6; 2; 3]; [7; 2; 4; 3]] 2 [Some 2; None]
          = Ok ([[5; 6; 2; 3]; [7; 2; 4; 3]], [[0; 0; 1; 1]%Q; [0; 1; 1; 1]%Q]))
    as Hcall by (by vm_compute).
  split; [exact Hcall |].
  by apply (proj2 (pad_batch_no_truncation _ _ _ _ _ _ Hcall) 0%nat 1%nat).
Defined.

(** X8.  Two rows that come out with different lengths make the call
    raise: a row longer than [batch_max] among shorter ones is an error,
    not a row to cut.  When the ids and [pad_token_id] are 64-bit
    integers, the exception is the [ValueError] of [torch.tensor] on rows
    of unequal length. *)
Theorem pad_batch_ragged (self : t) (input_ids : list (list Z))
    (batch_max : Z) (answer_starts : list (option Z))
    (k k' : nat) (ids ids' : list Z) :
  input_ids !! k = Some ids → is_Some (answer_starts !! k) →
  input_ids !! k' = Some ids' → is_Some (answer_starts !! k') →
  Z.max batch_max (len ids) ≠ Z.max batch_max (len ids') →
  raises (pad_batch_and_build_loss_mask self input_ids batch_max answer_starts)
  ∧ ((∀ row token, row ∈ input_ids → token ∈ row → int64 token = true) →
     int64 (pad_token_id self) = true →
     pad_batch_and_build_loss_mask self input_ids batch_max answer_starts
     = Raise (ValueError "expected sequence of equal length")).
Proof.
  intros Hk [a Ha] Hk' [a' Ha'] Hwidth.
  unfold pad_batch_and_build_loss_mask. cbv zeta.
  rewrite <- !list_fmap_compose.
  change (fst ∘ (λ p : list Z * option Z, pad_row self batch_max p.1 p.2))
    with (λ p : list Z * option Z, (pad_row self batch_max p.1 p.2).1).
  set (rows := (λ p : list Z * option Z, (pad_row self batch_max p.1 p.2).1)
                 <$> zip input_ids answer_starts).
  assert (uniform rows = false) as Hragged.
  { destruct (uniform rows) eqn:Huniform; [| done].
    exfalso. apply Hwidth.
    destruct (pad_row_width self batch_max ids a) as (<- & _).
    destruct (pad_row_width self batch_max ids' a') as (<- & _).
    unfold len. f_equal.
    apply (uniform_elim _ _ _ Huniform).
    - apply list_elem_of_lookup. exists k. unfold rows.
      rewrite list_lookup_fmap, lookup_zip_with, Hk. cbn. by rewrite Ha.
    - apply list_elem_of_lookup. exists k'. unfold rows.
      rewrite list_lookup_fmap, lookup_zip_with, Hk'. cbn. by rewrite Ha'. }
  split.
  - destruct (torch_tensor rows) as [rows' |] eqn:Htensor; [| by eexists].
    apply torch_tensor_Ok in Htensor as (_ & Huniform & _). congruence.
  - intros Hrange Hpad. rewrite torch_tensor_ragged; [done | done |].
    intros r ([row start] & -> & Hin)%list_elem_of_fmap.
    apply elem_of_zip_l in Hin. cbn [fst snd] in *.
    apply forallb_forall. intros token Htoken%list_elem_of_In.
    unfold pad_row in Htoken. cbn [fst] in Htoken.
    apply elem_of_app in Htoken as [Htoken | Htoken]; [by apply (Hrange row) |].
    unfold repeat_list in Htoken. by apply elem_of_replicate in Htoken as [-> _].
Qed.

Lemma pad_batch_ragged_witness :
  pad_batch_and_build_loss_mask Examples.model [[5; 6; 2; 3]; [7; 2]] 3
    [Some 2; None]
  = Raise (ValueError "expected sequence of equal length").
Proof.
  refine (proj2 (pad_batch_ragged Examples.model [[5; 6; 2; 3]; [7; 2]] 3
                   [Some 2; None] 0 1 [5; 6; 2; 3] [7; 2]
                   eq_refl _ eq_refl _ _) _ _).
  - by eexists.
  - by eexists.
  - by vm_compute.
  - intros row token [-> | ->%list_elem_of_singleton]%elem_of_cons Htoken;
      repeat (apply elem_of_cons in Htoken as [-> | Htoken]; [reflexivity |]);
      by apply elem_of_nil in Htoken.
  - by vm_compute.
Defined.

(** ** [build_virtual_prompt_dataset] *)

(** What a call that returns a loader has checked and built. *)
Lemma build_loader_inv (w : World.t) (self : t) (args : build_args.t)
    (dataset : GPTPromptLearningDataset.t) (dataloader : DataLoader.t) :
  build_virtual_prompt_dataset w self args
  = Ok (dataset_and_loader dataset dataloader) →
  build_args.get_dataset_only args = false
  ∧ ∃ ps global,
      World.apex w = Some ps
      ∧ build_args.batch_size args = Some global
      ∧ parallel_state.get_data_parallel_world_size ps ≠ 0
      ∧ DataLoader.batch_size dataloader
        * parallel_state.get_data_parallel_world_size ps = global
      ∧ DataLoader.dataset dataloader = dataset
      ∧ DataLoader.sampler dataloader
        = {| DistributedSampler.num_replicas :=
               parallel_state.get_data_parallel_world_size ps;
             DistributedSampler.rank := parallel_state.get_data_parallel_rank ps;
             DistributedSampler.shuffle := build_args.shuffle args |}
      ∧ DataLoader.drop_last dataloader = build_args.drop_last args
      ∧ DataLoader.collate_fn dataloader
        = (if build_args.for_train args then
             if default false (Cfg.sequence_parallel (cfg self)) then
               partial_collate_fn
                 (parallel_state.get_tensor_model_parallel_world_size ps)
             else partial_collate_fn 0
           else inference_collate_fn)
      ∧ GPTPromptLearningDataset.data dataset = build_args.data args
      ∧ GPTPromptLearningDataset.for_train dataset = build_args.for_train args
      ∧ GPTPromptLearningDataset.max_seq_length dataset
        = build_args.max_seq_length args
      ∧ GPTPromptLearningDataset.task_templates dataset = task_templates self
      ∧ GPTPromptLearningDataset.pseudo_tokens dataset = pseudo_tokens self
      ∧ Some (GPTPromptLearningDataset.virtual_prompt_source dataset)
        = virtual_prompt_source self.
Proof.
  unfold build_virtual_prompt_dataset.
  destruct (virtual_prompt_source self) as [source |]; [| done]. cbn.
  destruct (build_args.get_dataset_only args); [done |].
  destruct (World.apex w) as [ps |]; [| done]. cbn.
  destruct (build_args.batch_size args) as [global |]; [| done]. cbn.
  unfold modulo, floordiv.
  case_bool_decide as Hdp; [done |]. cbn.
  case_bool_decide as Hrem; [| done]. cbn.
  intros [= <- <-]. split; [done |]. exists ps, global. cbn.
  repeat split; try done.
  pose proof (Z.div_mod global _ Hdp) as Hdm. lia.
Qed.

(** X9.  A data loader built by [build_virtual_prompt_dataset] splits the
    global batch evenly: its batch size times the number of data-parallel
    ranks is the [batch_size] asked for.  It reads the dataset returned
    with it, through a sampler for this rank, and its collate function is
    the model's [collate_fn] for training, with the tensor-parallel size
    as [tp_workers] under sequence parallelism and 0 otherwise, and the
    dataset's own for inference.  The dataset carries the model's task
    templates and pseudo tokens. *)
Theorem build_virtual_prompt_dataset_loader (w : World.t) (self : t)
    (args : build_args.t) (dataset : GPTPromptLearningDataset.t)
    (dataloader : DataLoader.t) :
  build_virtual_prompt_dataset w self args
  = Ok (dataset_and_loader dataset dataloader) →
  ∃ ps global,
    World.apex w = Some ps
    ∧ build_args.batch_size args = Some global
    ∧ DataLoader.batch_size dataloader
      * parallel_state.get_data_parallel_world_size ps = global
    ∧ DataLoader.dataset dataloader = dataset
    ∧ DistributedSampler.num_replicas (DataLoader.sampler dataloader)
      = parallel_state.get_data_parallel_world_size ps
    ∧ DistributedSampler.rank (DataLoader.sampler dataloader)
      = parallel_state.get_data_parallel_rank ps
    ∧ DataLoader.collate_fn dataloader
      = (if build_args.for_train args then
           if default false (Cfg.sequence_parallel (cfg self)) then
             partial_collate_fn
               (parallel_state.get_tensor_model_parallel_world_size ps)
           else partial_collate_fn 0
         else inference_collate_fn)
    ∧ GPTPromptLearningDataset.task_templates dataset = task_templates self
    ∧ GPTPromptLearningDataset.pseudo_tokens dataset = pseudo_tokens self.
Proof.
  intros (_ & ps & global & Hps & Hglobal & _ & Hsize & Hds & Hsampler & _
          & Hcollate & _ & _ & _ & Htable & Hpseudo & _)%build_loader_inv.
  exists ps, global. rewrite Hsampler. by repeat split.
Qed.

(** X10.  With [get_dataset_only] false, [build_virtual_prompt_dataset]
    raises [NameError] when apex is not installed, [TypeError] when no
    batch size is given, and the [AssertionError] on the global batch
    size when the batch size is not a multiple of the number of
    data-parallel ranks. *)
Theorem build_virtual_prompt_dataset_errors (w : World.t) (self : t)
    (args : build_args.t) :
  is_Some (virtual_prompt_source self) →
  build_args.get_dataset_only args = false →
  (World.apex w = None →
   build_virtual_prompt_dataset w self args
   = Raise (NameError "name 'parallel_state' is not defined"))
  ∧ (∀ ps, World.apex w = Some ps →
       (build_args.batch_size args = None →
        build_virtual_prompt_dataset w self args
        = Raise (TypeError "unsupported operand type(s) for %: 'NoneType' and 'int'"))
       ∧ (∀ global, build_args.batch_size args = Some global →
            parallel_state.get_data_parallel_world_size ps ≠ 0 →
            global `mod` parallel_state.get_data_parallel_world_size ps ≠ 0 →
            build_virtual_prompt_dataset w self args
            = Raise (AssertionError "Global batch size must be evenly divisible by data parallel size"))).
Proof.
  intros [source Hsource] Honly. unfold build_virtual_prompt_dataset.
  rewrite Hsource, Honly. cbn. split.
  - by intros ->.
  - intros ps ->. cbn. split.
    + by intros ->.
    + intros global -> Hdp Hrem. cbn. unfold modulo.
      rewrite bool_decide_eq_false_2 by done. cbn.
      by rewrite bool_decide_eq_false_2.
Qed.

(** X11.  With [get_dataset_only] true, [build_virtual_prompt_dataset]
    returns the dataset alone whenever the model has its
    [virtual_prompt_source]: apex, the process group and the batch size
    are not looked at. *)
Theorem build_virtual_prompt_dataset_only (w : World.t) (self : t)
    (args : build_args.t) :
  is_Some (virtual_prompt_source self) →
  build_args.get_dataset_only args = true →
  ∃ dataset,
    build_virtual_prompt_dataset w self args = Ok (dataset_only dataset)
    ∧ GPTPromptLearningDataset.data dataset = build_args.data args
    ∧ GPTPromptLearningDataset.task_templates dataset = task_templates self
    ∧ GPTPromptLearningDataset.pseudo_tokens dataset = pseudo_tokens self
    ∧ GPTPromptLearningDataset.pad_token_id dataset = pad_token_id self
    ∧ GPTPromptLearningDataset.tokenizer dataset = tokenizer self.
Proof.
  intros [source Hsource] Honly. unfold build_virtual_prompt_dataset.
  rewrite Hsource, Honly. cbn. eexists. by repeat split.
Qed.

Lemma build_virtual_prompt_dataset_loader_witness :
  ∃ dataset dataloader,
    build_virtual_prompt_dataset Examples.world Examples.model
      (Examples.args (Some 8) false)
    = Ok (dataset_and_loader dataset dataloader)
    ∧ DataLoader.batch_size dataloader * 2 = 8
    ∧ DataLoader.collate_fn dataloader = partial_collate_fn 0.
Proof.
  destruct (build_virtual_prompt_dataset Examples.world Examples.model
              (Examples.args (Some 8) false))
    as [[dataset | dataset dataloader] | e] eqn:Hcall;
    [vm_compute in Hcall; discriminate Hcall | |
     vm_compute in Hcall; discriminate Hcall].
  exists dataset, dataloader. split; [done |].
  destruct (build_virtual_prompt_dataset_loader _ _ _ _ _ Hcall)
    as (ps & global & [= <-] & [= <-] & Hsize & _ & _ & _ & Hcollate & _).
  split; [exact Hsize | exact Hcollate].
Defined.

Lemma build_virtual_prompt_dataset_errors_witness :
  build_virtual_prompt_dataset Examples.world_without_apex Examples.model
    (Examples.args (Some 8) false)
  = Raise (NameError "name 'parallel_state' is not defined")
  ∧ build_virtual_prompt_dataset Examples.world Examples.model
      (Examples.args (Some 7) false)
    = Raise (AssertionError "Global batch size must be evenly divisible by data parallel size").
Proof.
  assert (is_Some (virtual_prompt_source Examples.model)) as Hsource
    by (eexists; by vm_compute).
  split.
  - by apply (proj1 (build_virtual_prompt_dataset_errors
                       Examples.world_without_apex Examples.model
                       (Examples.args (Some 8) false) Hsource eq_refl)).
  - eapply (proj2 (build_virtual_prompt_dataset_errors
                     Examples.world Examples.model
                     (Examples.args (Some 7) false) Hsource eq_refl));
      [reflexivity | reflexivity | by vm_compute | by vm_compute].
Defined.

Lemma build_virtual_prompt_dataset_only_witness :
  ∃ dataset,
    build_virtual_prompt_dataset Examples.world_without_apex Examples.model
      (Examples.args None true)
    = Ok (dataset_only dataset)
    ∧ GPTPromptLearningDataset.pseudo_tokens dataset
      = pseudo_tokens Examples.model.
Proof.
  assert (is_Some (virtual_prompt_source Examples.model)) as Hsource
    by (eexists; by vm_compute).
  destruct (build_virtual_prompt_dataset_only Examples.world_without_apex
              Examples.model (Examples.args None true) Hsource eq_refl)
    as (dataset & Hcall & _ & _ & Hpseudo & _).
  by exists dataset.
Defined.

(** ** What a method body leaves alone *)

Lemma kp_ret {A B} (f : t → B) (x : A) : keeps f (mret x).
Proof. by intros self. Qed.

Lemma kp_bind {A B C} (f : t → C) (c : M A) (k : A → M B) :
  keeps f c → (∀ x, keeps f (k x)) → keeps f (c ≫= k).
Proof.
  intros Hc Hk self. unfold mbind, M_bind.
  specialize (Hc self). destruct (c self) as [self' [x | e]]; cbn [fst] in *.
  - by rewrite Hk.
  - done.
Qed.

Lemma kp_get {A B} (f : t → B) (g : t → A) : keeps f (get g).
Proof. by intros self. Qed.

Lemma kp_getattr {A B} (f : t → B) (name : string) (g : t → option A) :
  keeps f (getattr name g).
Proof. intros self. unfold getattr. by destruct (g self). Qed.

Lemma kp_lift {A B} (f : t → B) (r : result A) : keeps f (lift r).
Proof. by intros self. Qed.

Lemma kp_read {A B} (f : t → B) (g : t → result A) :
  keeps f (λ self, (self, g self)).
Proof. by intros self. Qed.

Lemma kp_assign {B} (f : t → B) (set : t → t) :
  (∀ self, f (set self) = f self) → keeps f (assign set).
Proof. intros Hset self. apply Hset. Qed.

(** One step of the proof that a method body keeps a view: split a
    sequence or a branch, or close a read or an assignment that the view
    does not see. *)
Ltac kp_step :=
  first
    [ apply kp_ret
    | apply kp_get
    | apply kp_getattr
    | apply kp_lift
    | apply kp_read
    | apply kp_assign; intros ?; reflexivity
    | apply kp_bind; [| intros ?]
    | match goal with
      | |- keeps _ (if ?b then _ else _) => destruct b
      | |- keeps _ (match ?x with _ => _ end) => destruct x
      end ].

(** [build_virtual_prompt_dataset], as the data hooks call it, assigns
    nothing. *)
Lemma build_from_cfg_state (w : World.t) (data : option (list string))
    (for_train drop_last shuffle : bool) (cache_data_path : option string)
    (self : t) :
  (build_from_cfg w data for_train drop_last shuffle cache_data_path self).1
  = self.
Proof.
  assert (keeps (λ self, self)
            (build_from_cfg w data for_train drop_last shuffle cache_data_path))
    as Hkeeps by (unfold build_from_cfg; repeat kp_step).
  apply Hkeeps.
Qed.

(** When that call returns, the frozen model is there and the dataset and
    the loader have the shape the hook asked for. *)
Lemma build_from_cfg_Ok (w : World.t) (data : option (list string))
    (for_train drop_last shuffle : bool) (cache_data_path : option string)
    (self : t) (dataset : GPTPromptLearningDataset.t)
    (dataloader : DataLoader.t) :
  (build_from_cfg w data for_train drop_last shuffle cache_data_path self).2
  = Ok (dataset, dataloader) →
  ∃ frozen ps global,
    frozen_model self = Some frozen
    ∧ World.apex w = Some ps
    ∧ Cfg.global_batch_size (cfg self) = Some global
    ∧ DataLoader.dataset dataloader = dataset
    ∧ DataLoader.batch_size dataloader
      * parallel_state.get_data_parallel_world_size ps = global
    ∧ DataLoader.drop_last dataloader = drop_last
    ∧ DistributedSampler.shuffle (DataLoader.sampler dataloader) = shuffle
    ∧ DataLoader.collate_fn dataloader
      = (if for_train then
           if default false (Cfg.sequence_parallel (cfg self)) then
             partial_collate_fn
               (parallel_state.get_tensor_model_parallel_world_size ps)
           else partial_collate_fn 0
         else inference_collate_fn)
    ∧ GPTPromptLearningDataset.data dataset = default [] data
    ∧ GPTPromptLearningDataset.for_train dataset = for_train
    ∧ GPTPromptLearningDataset.max_seq_length dataset
      = FrozenModel.encoder_seq_length (FrozenModel.cfg frozen).
Proof.
  unfold build_from_cfg, get, getattr, lift, mbind, M_bind, mret, M_ret.
  destruct (frozen_model self) as [frozen |]; [| done].
  match goal with
  | |- context [build_virtual_prompt_dataset w self ?args] =>
      destruct (build_virtual_prompt_dataset w self args)
        as [[ds | ds dl] | e] eqn:Hcall; [done | | done]
  end.
  cbn [snd]. intros [= <- <-].
  apply build_loader_inv in Hcall
    as (_ & ps & global & Hps & Hglobal & _ & Hsize & Hds & Hsampler & Hdrop
        & Hcollate & Hdata & Htrain & Hmax & _).
  exists frozen, ps, global. rewrite Hsampler. by repeat split.
Qed.

(** The body the three data hooks share, once the config names data: the
    two attributes are assigned when the dataset and the loader are built
    and nothing is assigned otherwise. *)
Lemma hook_outcome (w : World.t) (data : option (list string))
    (for_train drop_last shuffle : bool) (cache_data_path : option string)
    (set_ds : option GPTPromptLearningDataset.t → t → t)
    (set_dl : option DataLoader.t → t → t) (self : t) :
  ((build_from_cfg w data for_train drop_last shuffle cache_data_path
      ≫= λ '(ds, dl), assign (set_ds (Some ds));; assign (set_dl (Some dl)))
     self)
  = match (build_from_cfg w data for_train drop_last shuffle cache_data_path
             self).2 with
    | Ok (ds, dl) => (set_dl (Some dl) (set_ds (Some ds) self), Ok ())
    | Raise e => (self, Raise e)
    end.
Proof.
  unfold mbind at 1. unfold M_bind.
  pose proof (build_from_cfg_state w data for_train drop_last shuffle
                cache_data_path self) as Hstate.
  destruct (build_from_cfg w data for_train drop_last shuffle cache_data_path
              self) as [self' [[ds dl] | e]]; cbn [fst snd] in *; by subst.
Qed.

(** ** The data hooks *)

Lemma setup_training_data_eq (w : World.t) (self : t) :
  setup_training_data w self
  = if truthy (DataCfg.train_ds (Cfg.data (cfg self))) then
      match (build_from_cfg w (DataCfg.train_ds (Cfg.data (cfg self)))
               true true true
               (DataCfg.train_cache_data_path (Cfg.data (cfg self))) self).2 with
      | Ok (ds, dl) => (set__train_dl (Some dl) (set__train_ds (Some ds) self), Ok ())
      | Raise e => (self, Raise e)
      end
    else (self, Ok ()).
Proof.
  rewrite <- hook_outcome. unfold setup_training_data, get.
  unfold mbind at 1. unfold M_bind at 1.
  by destruct (truthy _).
Qed.

(** X12.  [setup_training_data] does nothing when the config names no
    training data.  Otherwise it needs the frozen model, whose absence is
    an [AttributeError]; whenever it raises, the object is as before; and
    when it returns, it has assigned [_train_ds] and [_train_dl] and
    nothing else, the loader reads that dataset, shuffled and dropping
    the last incomplete batch, its batch size is the global batch size
    divided by the number of data-parallel ranks, and it collates with the
    model's [collate_fn]. *)
Theorem setup_training_data_spec (w : World.t) (self : t) :
  (truthy (DataCfg.train_ds (Cfg.data (cfg self))) = false →
   setup_training_data w self = (self, Ok ()))
  ∧ (∀ e, (setup_training_data w self).2 = Raise e →
          (setup_training_data w self).1 = self)
  ∧ (truthy (DataCfg.train_ds (Cfg.data (cfg self))) = true →
     frozen_model self = None →
     setup_training_data w self = (self, Raise (AttributeError "frozen_model")))
  ∧ (truthy (DataCfg.train_ds (Cfg.data (cfg self))) = true →
     (setup_training_data w self).2 = Ok () →
     ∃ ds dl frozen ps global,
       (setup_training_data w self).1
       = set__train_dl (Some dl) (set__train_ds (Some ds) self)
       ∧ frozen_model self = Some frozen
       ∧ World.apex w = Some ps
       ∧ Cfg.global_batch_size (cfg self) = Some global
       ∧ DataLoader.dataset dl = ds
       ∧ DataLoader.batch_size dl
         * parallel_state.get_data_parallel_world_size ps = global
       ∧ DataLoader.drop_last dl = true
       ∧ DistributedSampler.shuffle (DataLoader.sampler dl) = true
       ∧ (∃ tp_workers, DataLoader.collate_fn dl = partial_collate_fn tp_workers)
       ∧ GPTPromptLearningDataset.data ds
         = default [] (DataCfg.train_ds (Cfg.data (cfg self)))
       ∧ GPTPromptLearningDataset.for_train ds = true
       ∧ GPTPromptLearningDataset.max_seq_length ds
         = FrozenModel.encoder_seq_length (FrozenModel.cfg frozen)).
Proof.
  rewrite setup_training_data_eq. split; [| split; [| split]].
  - by intros ->.
  - intros e. destruct (truthy _); [| done].
    by destruct (build_from_cfg _ _ _ _ _ _ self).2 as [[ds dl] | e'].
  - intros -> Hfrozen.
    unfold build_from_cfg, get, getattr, mbind, M_bind. by rewrite Hfrozen.
  - intros -> Hreturns.
    destruct (build_from_cfg _ _ _ _ _ _ self).2 as [[ds dl] | e] eqn:Hbuilt;
      [| done].
    apply build_from_cfg_Ok in Hbuilt
      as (frozen & ps & global & Hfrozen & Hps & Hglobal & Hds & Hsize & Hdrop
          & Hshuffle & Hcollate & Hdata & Htrain & Hmax).
    exists ds, dl, frozen, ps, global. repeat split; try done.
    + destruct (default false _); by eexists.
Qed.

Lemma setup_validation_data_eq (w : World.t) (self : t) :
  setup_validation_data w self
  = if truthy (DataCfg.validation_ds (Cfg.data (cfg self))) then
      match (build_from_cfg w (DataCfg.validation_ds (Cfg.data (cfg self)))
               true true false
               (DataCfg.validation_cache_data_path (Cfg.data (cfg self))) self).2 with
      | Ok (ds, dl) => (set__validation_dl (Some dl) (set__validation_ds (Some ds) self), Ok ())
      | Raise e => (self, Raise e)
      end
    else (self, Ok ()).
Proof.
  rewrite <- hook_outcome. unfold setup_validation_data, get.
  unfold mbind at 1. unfold M_bind at 1.
  by destruct (truthy _).
Qed.

(** X13.  [setup_validation_data] does nothing when the config names no
    validation data.  Otherwise it needs the frozen model; whenever it
    raises, the object is as before; and when it returns, it has assigned
    [_validation_ds] and [_validation_dl] and nothing else, the loader
    reads that dataset in order, without shuffling, drops the last
    incomplete batch, and collates with the model's [collate_fn], the
    dataset being built for training. *)
Theorem setup_validation_data_spec (w : World.t) (self : t) :
  (truthy (DataCfg.validation_ds (Cfg.data (cfg self))) = false →
   setup_validation_data w self = (self, Ok ()))
  ∧ (∀ e, (setup_validation_data w self).2 = Raise e →
          (setup_validation_data w self).1 = self)
  ∧ (truthy (DataCfg.validation_ds (Cfg.data (cfg self))) = true →
     frozen_model self = None →
     setup_validation_data w self = (self, Raise (AttributeError "frozen_model")))
  ∧ (truthy (DataCfg.validation_ds (Cfg.data (cfg self))) = true →
     (setup_validation_data w self).2 = Ok () →
     ∃ ds dl frozen ps global,
       (setup_validation_data w self).1
       = set__validation_dl (Some dl) (set__validation_ds (Some ds) self)
       ∧ frozen_model self = Some frozen
       ∧ World.apex w = Some ps
       ∧ Cfg.global_batch_size (cfg self) = Some global
       ∧ DataLoader.dataset dl = ds
       ∧ DataLoader.batch_size dl
         * parallel_state.get_data_parallel_world_size ps = global
       ∧ DataLoader.drop_last dl = true
       ∧ DistributedSampler.shuffle (DataLoader.sampler dl) = false
       ∧ (∃ tp_workers, DataLoader.collate_fn dl = partial_collate_fn tp_workers)
       ∧ GPTPromptLearningDataset.data ds
         = default [] (DataCfg.validation_ds (Cfg.data (cfg self)))
       ∧ GPTPromptLearningDataset.for_train ds = true
       ∧ GPTPromptLearningDataset.max_seq_length ds
         = FrozenModel.encoder_seq_length (FrozenModel.cfg frozen)).
Proof.
  rewrite setup_validation_data_eq. split; [| split; [| split]].
  - by intros ->.
  - intros e. destruct (truthy _); [| done].
    by destruct (build_from_cfg _ _ _ _ _ _ self).2 as [[ds dl] | e'].
  - intros -> Hfrozen.
    unfold build_from_cfg, get, getattr, mbind, M_bind. by rewrite Hfrozen.
  - intros -> Hreturns.
    destruct (build_from_cfg _ _ _ _ _ _ self).2 as [[ds dl] | e] eqn:Hbuilt;
      [| done].
    apply build_from_cfg_Ok in Hbuilt
      as (frozen & ps & global & Hfrozen & Hps & Hglobal & Hds & Hsize & Hdrop
          & Hshuffle & Hcollate & Hdata & Htrain & Hmax).
    exists ds, dl, frozen, ps, global. repeat split; try done.
    + destruct (default false _); by eexists.
Qed.

Lemma setup_test_data_eq (w : World.t) (self : t) :
  setup_test_data w self
  = if truthy (DataCfg.test_ds (Cfg.data (cfg self))) then
      match (build_from_cfg w (DataCfg.test_ds (Cfg.data (cfg self)))
               false false false
               (DataCfg.test_cache_data_path (Cfg.data (cfg self))) self).2 with
      | Ok (ds, dl) => (set__test_dl (Some dl) (set__test_ds (Some ds) self), Ok ())
      | Raise e => (self, Raise e)
      end
    else (self, Ok ()).
Proof.
  rewrite <- hook_outcome. unfold setup_test_data, get.
  unfold mbind at 1. unfold M_bind at 1.
  by destruct (truthy _).
Qed.

(** X14.  [setup_test_data] does nothing when the config names no test
    data.  Otherwise it needs the frozen model; whenever it raises, the
    object is as before; and when it returns, it has assigned [_test_ds]
    and [_test_dl] and nothing else, the loader reads that dataset in
    order, keeps the last incomplete batch, and collates with the
    dataset's [inference_collate_fn], the dataset being built for
    inference. *)
Theorem setup_test_data_spec (w : World.t) (self : t) :
  (truthy (DataCfg.test_ds (Cfg.data (cfg self))) = false →
   setup_test_data w self = (self, Ok ()))
  ∧ (∀ e, (setup_test_data w self).2 = Raise e →
          (setup_test_data w self).1 = self)
  ∧ (truthy (DataCfg.test_ds (Cfg.data (cfg self))) = true →
     frozen_model self = None →
     setup_test_data w self = (self, Raise (AttributeError "frozen_model")))
  ∧ (truthy (DataCfg.test_ds (Cfg.data (cfg self))) = true →
     (setup_test_data w self).2 = Ok () →
     ∃ ds dl frozen ps global,
       (setup_test_data w self).1
       = set__test_dl (Some dl) (set__test_ds (Some ds) self)
       ∧ frozen_model self = Some frozen
       ∧ World.apex w = Some ps
       ∧ Cfg.global_batch_size (cfg self) = Some global
       ∧ DataLoader.dataset dl = ds
       ∧ DataLoader.batch_size dl
         * parallel_state.get_data_parallel_world_size ps = global
       ∧ DataLoader.drop_last dl = false
       ∧ DistributedSampler.shuffle (DataLoader.sampler dl) = false
       ∧ DataLoader.collate_fn dl = inference_collate_fn
       ∧ GPTPromptLearningDataset.data ds
         = default [] (DataCfg.test_ds (Cfg.data (cfg self)))
       ∧ GPTPromptLearningDataset.for_train ds = false
       ∧ GPTPromptLearningDataset.max_seq_length ds
         = FrozenModel.encoder_seq_length (FrozenModel.cfg frozen)).
Proof.
  rewrite setup_test_data_eq. split; [| split; [| split]].
  - by intros ->.
  - intros e. destruct (truthy _); [| done].
    by destruct (build_from_cfg _ _ _ _ _ _ self).2 as [[ds dl] | e'].
  - intros -> Hfrozen.
    unfold build_from_cfg, get, getattr, mbind, M_bind. by rewrite Hfrozen.
  - intros -> Hreturns.
    destruct (build_from_cfg _ _ _ _ _ _ self).2 as [[ds dl] | e] eqn:Hbuilt;
      [| done].
    apply build_from_cfg_Ok in Hbuilt
      as (frozen & ps & global & Hfrozen & Hps & Hglobal & Hds & Hsize & Hdrop
          & Hshuffle & Hcollate & Hdata & Htrain & Hmax).
    exists ds, dl, frozen, ps, global. repeat split; try done.

Qed.

Lemma setup_training_data_spec_witness :
  ∃ ds dl,
    (setup_training_data Examples.world Examples.model).1
    = set__train_dl (Some dl) (set__train_ds (Some ds) Examples.model)
    ∧ DataLoader.dataset dl = ds
    ∧ DistributedSampler.shuffle (DataLoader.sampler dl) = true.
Proof.
  destruct (proj2 (proj2 (proj2 (setup_training_data_spec Examples.world
                                   Examples.model)))
              ltac:(by vm_compute) ltac:(by vm_compute))
    as (ds & dl & frozen & ps & global & Hstate & _ & _ & _ & Hds & _ & _
        & Hshuffle & _).
  exists ds, dl. split; [exact Hstate |]. split; [exact Hds | exact Hshuffle].
Defined.

Lemma setup_validation_data_spec_witness :
  ∃ ds dl,
    (setup_validation_data Examples.world Examples.model).1
    = set__validation_dl (Some dl) (set__validation_ds (Some ds) Examples.model)
    ∧ DataLoader.dataset dl = ds
    ∧ DistributedSampler.shuffle (DataLoader.sampler dl) = false.
Proof.
  destruct (proj2 (proj2 (proj2 (setup_validation_data_spec Examples.world
                                   Examples.model)))
              ltac:(by vm_compute) ltac:(by vm_compute))
    as (ds & dl & frozen & ps & global & Hstate & _ & _ & _ & Hds & _ & _
        & Hshuffle & _).
  exists ds, dl. split; [exact Hstate |]. split; [exact Hds | exact Hshuffle].
Defined.

Lemma setup_test_data_spec_witness :
  setup_test_data Examples.world Examples.model = (Examples.model, Ok ()).
Proof.
  apply (proj1 (setup_test_data_spec Examples.world Examples.model)).
  by vm_compute.
Defined.

(** ** [setup] *)

(** The attributes [setup] and the data hooks read stay as they are
    through the two hooks [setup] calls. *)
Lemma hooks_keep_inputs (w : World.t) :
  keeps (λ self, (cfg self, trainer self, tokenizer self, frozen_model self))
        (setup_training_data w)
  ∧ keeps (λ self, (cfg self, trainer self, tokenizer self, frozen_model self))
          (setup_validation_data w).
Proof.
  split.
  - unfold setup_training_data, build_from_cfg. repeat kp_step.
  - unfold setup_validation_data, build_from_cfg. repeat kp_step.
Qed.

(** [setup] written out, for the case that is not prediction. *)
Lemma setup_training_eq (w : World.t) (stage : option string) (self : t) :
  stage ≠ Some "predict" →
  virtual_prompt_style self ≠ VirtualPromptStyle.INFERENCE →
  setup w stage self
  = match setup_training_data w self with
    | (s1, Raise e) => (s1, Raise e)
    | (s1, Ok _) =>
        match setup_validation_data w s1 with
        | (s2, Raise e) => (s2, Raise e)
        | (s2, Ok _) =>
            match floordiv (Trainer.world_size (trainer s2)
                            * Cfg.micro_batch_size (cfg s2))
                           (Cfg.tensor_model_parallel_size (cfg s2)) with
            | Raise e => (s2, Raise e)
            | Ok global_batch_size =>
                match floordiv (Trainer.max_steps (trainer s2)
                                * Trainer.accumulate_grad_batches (trainer s2))
                               (Trainer.val_check_interval (trainer s2)) with
                | Raise e => (s2, Raise e)
                | Ok checks =>
                    match World.build_train_valid_test_datasets w (cfg s2)
                            (trainer s2) (tokenizer s2)
                            [Trainer.max_steps (trainer s2)
                             * Trainer.accumulate_grad_batches (trainer s2)
                             * global_batch_size;
                             (checks + 1) * Trainer.limit_val_batches (trainer s2)
                             * global_batch_size;
                             Trainer.limit_test_batches (trainer s2)
                             * global_batch_size] with
                    | Raise e => (s2, Raise e)
                    | Ok (train, valid, test) =>
                        (set_retro_test_ds (Some test)
                           (set_retro_validation_ds (Some valid)
                              (set_retro_train_ds (Some train) s2)),
                         match frozen_model s2 with
                         | Some _ => Ok ()
                         | None => Raise (AttributeError "frozen_model")
                         end)
                    end
                end
            end
        end
    end.
Proof.
  intros Hstage Hstyle.
  unfold setup, get, getattr, assign, lift, mbind, M_bind, mret, M_ret.
  rewrite (bool_decide_eq_false_2 _ Hstage), (bool_decide_eq_false_2 _ Hstyle).
  cbn [orb].
  destruct (setup_training_data w self) as [s1 [[] | e]]; [| done].
  destruct (setup_validation_data w s1) as [s2 [[] | e]]; [| done].
  destruct (floordiv _ _) as [global_batch_size | e]; [| done].
  destruct (floordiv _ _) as [checks | e]; [| done].
  destruct (World.build_train_valid_test_datasets _ _ _ _ _)
    as [[[train valid] test] | e]; [| done].
  cbn [frozen_model set_retro_test_ds set_retro_validation_ds set_retro_train_ds].
  by destruct (frozen_model s2).
Qed.

(** X15.  When [setup] returns outside prediction, the tensor-parallel
    size and the validation interval are not 0, the frozen model is
    there, and the three retro datasets are the ones
    [build_train_valid_test_datasets] returns for the model's config,
    trainer and tokenizer and for these sample counts, [N] being
    [max_steps * accumulate_grad_batches] and [B] being
    [world_size * micro_batch_size // tensor_model_parallel_size]:
    [N * B] for training, [(N // val_check_interval + 1) *
    limit_val_batches * B] for validation, [limit_test_batches * B] for
    test.  Nothing but the two data hooks ran before. *)
Theorem setup_training_outcome (w : World.t) (stage : option string) (self : t) :
  stage ≠ Some "predict" →
  virtual_prompt_style self ≠ VirtualPromptStyle.INFERENCE →
  (setup w stage self).2 = Ok () →
  ∃ train valid test,
    Cfg.tensor_model_parallel_size (cfg self) ≠ 0
    ∧ Trainer.val_check_interval (trainer self) ≠ 0
    ∧ is_Some (frozen_model self)
    ∧ World.build_train_valid_test_datasets w (cfg self) (trainer self)
        (tokenizer self)
        [Trainer.max_steps (trainer self)
         * Trainer.accumulate_grad_batches (trainer self)
         * ((Trainer.world_size (trainer self) * Cfg.micro_batch_size (cfg self))
            `div` Cfg.tensor_model_parallel_size (cfg self));
         ((Trainer.max_steps (trainer self)
           * Trainer.accumulate_grad_batches (trainer self))
          `div` Trainer.val_check_interval (trainer self) + 1)
         * Trainer.limit_val_batches (trainer self)
         * ((Trainer.world_size (trainer self) * Cfg.micro_batch_size (cfg self))
            `div` Cfg.tensor_model_parallel_size (cfg self));
         Trainer.limit_test_batches (trainer self)
         * ((Trainer.world_size (trainer self) * Cfg.micro_batch_size (cfg self))
            `div` Cfg.tensor_model_parallel_size (cfg self))]
      = Ok (train, valid, test)
    ∧ (setup w stage self).1
      = set_retro_test_ds (Some test)
          (set_retro_validation_ds (Some valid)
             (set_retro_train_ds (Some train)
                (setup_validation_data w (setup_training_data w self).1).1)).
Proof.
  intros Hstage Hstyle. rewrite (setup_training_eq w stage self Hstage Hstyle).
  destruct (hooks_keep_inputs w) as [Hk1 Hk2].
  specialize (Hk1 self).
  destruct (setup_training_data w self) as [s1 [[] | e]]; [| done].
  cbn [fst] in *. specialize (Hk2 s1).
  destruct (setup_validation_data w s1) as [s2 [[] | e]]; [| done].
  cbn [fst] in *. rewrite Hk1 in Hk2. injection Hk2 as -> -> -> ->.
  unfold floordiv. case_bool_decide as Htp; [done |].
  case_bool_decide as Hvci; [done |].
  destruct (World.build_train_valid_test_datasets _ _ _ _ _)
    as [[[train valid] test] | e] eqn:Hbuild; [| done].
  cbn [fst snd]. destruct (frozen_model self) as [frozen |] eqn:Hfrozen; [| done].
  intros _. exists train, valid, test. by repeat split.
Qed.

Lemma setup_training_outcome_witness :
  retro_train_ds (setup Examples.world None Examples.model).1
  = Some {| retro_split := "train"; retro_num_samples := 800 |}
  ∧ retro_validation_ds (setup Examples.world None Examples.model).1
    = Some {| retro_split := "valid"; retro_num_samples := 440 |}
  ∧ retro_test_ds (setup Examples.world None Examples.model).1
    = Some {| retro_split := "test"; retro_num_samples := 40 |}.
Proof.
  destruct (setup_training_outcome Examples.world None Examples.model)
    as (train & valid & test & _ & _ & _ & Hbuild & ->);
    [done | by vm_compute | by vm_compute |].
  vm_compute in Hbuild. by injection Hbuild as <- <- <-.
Defined.

Lemma hooks_keep_retro (w : World.t) :
  keeps (λ self, (retro_train_ds self, retro_validation_ds self,
                  retro_test_ds self))
        (setup_training_data w)
  ∧ keeps (λ self, (retro_train_ds self, retro_validation_ds self,
                    retro_test_ds self))
          (setup_validation_data w).
Proof.
  split.
  - unfold setup_training_data, build_from_cfg. repeat kp_step.
  - unfold setup_validation_data, build_from_cfg. repeat kp_step.
Qed.

(** X16.  With a tensor-parallel size of 0, [setup] outside prediction
    raises [ZeroDivisionError], and it does so after the two data hooks:
    when they return, what they assigned stays on the object, and the
    retro datasets are not assigned. *)
Theorem setup_zero_tensor_parallel (w : World.t) (stage : option string)
    (self : t) :
  stage ≠ Some "predict" →
  virtual_prompt_style self ≠ VirtualPromptStyle.INFERENCE →
  Cfg.tensor_model_parallel_size (cfg self) = 0 →
  (setup_training_data w self).2 = Ok () →
  (setup_validation_data w (setup_training_data w self).1).2 = Ok () →
  setup w stage self
  = ((setup_validation_data w (setup_training_data w self).1).1,
     Raise (ZeroDivisionError "integer division or modulo by zero"))
  ∧ retro_train_ds (setup w stage self).1 = retro_train_ds self
  ∧ retro_validation_ds (setup w stage self).1 = retro_validation_ds self
  ∧ retro_test_ds (setup w stage self).1 = retro_test_ds self.
Proof.
  intros Hstage Hstyle Htp. rewrite (setup_training_eq w stage self Hstage Hstyle).
  destruct (hooks_keep_inputs w) as [Hk1 Hk2].
  destruct (hooks_keep_retro w) as [Hr1 Hr2].
  specialize (Hk1 self). specialize (Hr1 self).
  destruct (setup_training_data w self) as [s1 [[] | e]]; [| done].
  cbn [fst snd] in *. specialize (Hk2 s1). specialize (Hr2 s1).
  destruct (setup_validation_data w s1) as [s2 [[] | e]]; [| done].
  cbn [fst snd] in *. intros _ _.
  rewrite Hk1 in Hk2. injection Hk2 as Hcfg _ _ _.
  rewrite Hr1 in Hr2. injection Hr2 as Htrain Hvalid Htest.
  unfold floordiv. rewrite Hcfg, Htp, bool_decide_eq_true_2 by done.
  cbn [fst]. by repeat split.
Qed.

Lemma setup_zero_tensor_parallel_witness :
  (setup Examples.world None Examples.zero_tp_model).2
  = Raise (ZeroDivisionError "integer division or modulo by zero")
  ∧ retro_train_ds (setup Examples.world None Examples.zero_tp_model).1
    = retro_train_ds Examples.zero_tp_model.
Proof.
  destruct (setup_zero_tensor_parallel Examples.world None Examples.zero_tp_model)
    as (Hsetup & Hretro & _);
    [done | by vm_compute | by vm_compute | by vm_compute | by vm_compute |].
  split; [by rewrite Hsetup | exact Hretro].
Defined.

(** X17.  [setup] never assigns the test dataset or its loader: the call
    of [setup_test_data] is commented out.  Whatever the stage and however
    it ends, it also leaves the config, the trainer, the tokenizer, the
    tasks, the style and source of the virtual prompts, the layers, the
    prompt table and the word embeddings as they are.  For the stage
    [predict], and for every stage on a model of style inference, it only
    freezes the frozen model, and raises [AttributeError] without any
    change when there is none. *)
Theorem setup_footprint (w : World.t) (stage : option string) (self : t) :
  _test_ds (setup w stage self).1 = _test_ds self
  ∧ _test_dl (setup w stage self).1 = _test_dl self
  ∧ (cfg (setup w stage self).1, trainer (setup w stage self).1,
     tokenizer (setup w stage self).1, existing_tasks (setup w stage self).1,
     new_tasks (setup w stage self).1)
    = (cfg self, trainer self, tokenizer self, existing_tasks self,
       new_tasks self)
  ∧ (virtual_prompt_style (setup w stage self).1,
     virtual_prompt_source (setup w stage self).1,
     layers (setup w stage self).1, prompt_table (setup w stage self).1,
     word_embeddings (setup w stage self).1, pad_token_id (setup w stage self).1)
    = (virtual_prompt_style self, virtual_prompt_source self, layers self,
       prompt_table self, word_embeddings self, pad_token_id self)
  ∧ (stage = Some "predict"
     ∨ virtual_prompt_style self = VirtualPromptStyle.INFERENCE →
     setup w stage self
     = match frozen_model self with
       | Some frozen =>
           (set_frozen_model (Some (FrozenModel.freeze frozen)) self, Ok ())
       | None => (self, Raise (AttributeError "frozen_model"))
       end).
Proof.
  assert (∀ B (f : t → B),
            (∀ v self, f (set_frozen_model v self) = f self) →
            (∀ v self, f (set__train_ds v self) = f self) →
            (∀ v self, f (set__train_dl v self) = f self) →
            (∀ v self, f (set__validation_ds v self) = f self) →
            (∀ v self, f (set__validation_dl v self) = f self) →
            (∀ v self, f (set_retro_train_ds v self) = f self) →
            (∀ v self, f (set_retro_validation_ds v self) = f self) →
            (∀ v self, f (set_retro_test_ds v self) = f self) →
            keeps f (setup w stage)) as Hkeeps.
  { intros B f H1 H2 H3 H4 H5 H6 H7 H8.
    unfold setup, setup_training_data, setup_validation_data, build_from_cfg.
    repeat first [apply kp_assign; intros ?; solve [auto] | kp_step]. }
  split; [by apply (Hkeeps _ _test_ds) |].
  split; [by apply (Hkeeps _ _test_dl) |].
  split; [by apply (Hkeeps _ (λ s, (cfg s, trainer s, tokenizer s,
                                    existing_tasks s, new_tasks s))) |].
  split; [by apply (Hkeeps _ (λ s, (virtual_prompt_style s,
                                    virtual_prompt_source s, layers s,
                                    prompt_table s, word_embeddings s,
                                    pad_token_id s))) |].
  intros Hpredict.
  unfold setup, get, getattr, assign, mbind, M_bind.
  assert (bool_decide (stage = Some "predict")
          || bool_decide (virtual_prompt_style self = VirtualPromptStyle.INFERENCE)
          = true) as ->.
  { destruct Hpredict as [Hs | Hs];
      rewrite (bool_decide_eq_true_2 _ Hs); [done | apply orb_true_r]. }
  by destruct (frozen_model self).
Qed.

Lemma setup_footprint_witness :
  setup Examples.world (Some "predict") Examples.model
  = (set_frozen_model
       (Some {| FrozenModel.cfg := {| FrozenModel.encoder_seq_length := 2048 |};
                FrozenModel.frozen := true |})
       Examples.model,
     Ok ()).
Proof.
  rewrite (proj2 (proj2 (proj2 (proj2
             (setup_footprint Examples.world (Some "predict") Examples.model))))
             ltac:(by left)).
  assert (frozen_model Examples.model
          = Some {| FrozenModel.cfg := {| FrozenModel.encoder_seq_length := 2048 |};
                    FrozenModel.frozen := false |}) as -> by (by vm_compute).
  reflexivity.
Defined.

(** ** [freeze_existing_virtual_prompt_params] *)

(** X18.  [freeze_existing_virtual_prompt_params] needs the prompt table
    and raises [AttributeError] without any change when there is none.
    Otherwise it keeps the names of the table and leaves a prompt tunable
    exactly when its name is among [new_tasks]; it then freezes the word
    embeddings and returns, or raises [AttributeError] when there are no
    word embeddings, the prompt table being updated all the same. *)
Theorem freeze_existing_virtual_prompt_params_spec (self : t) :
  (prompt_table self = None →
   freeze_existing_virtual_prompt_params self
   = (self, Raise (AttributeError "prompt_table")))
  ∧ (∀ table, prompt_table self = Some table →
       (∃ table',
          prompt_table (freeze_existing_virtual_prompt_params self).1
          = Some table'
          ∧ ∀ name,
              table' !! name
              = (λ _, bool_decide (name ∈ new_tasks self)) <$> table !! name)
       ∧ (word_embeddings self = None →
          (freeze_existing_virtual_prompt_params self).2
          = Raise (AttributeError "word_embeddings"))
       ∧ (is_Some (word_embeddings self) →
          (freeze_existing_virtual_prompt_params self).2 = Ok ()
          ∧ word_embeddings (freeze_existing_virtual_prompt_params self).1
            = Some false)).
Proof.
  unfold freeze_existing_virtual_prompt_params, get, getattr, assign, mbind,
    M_bind.
  split.
  - by intros ->.
  - intros table ->. cbn [word_embeddings set_prompt_table].
    split; [| split].
    + eexists. split.
      * by destruct (word_embeddings self).
      * intros name. rewrite map_lookup_imap. by destruct (table !! name).
    + by intros ->.
    + by intros [flag ->].
Qed.

(** ** The adapter methods *)

(** The loop over the layers: it stops at the first layer whose call
    raises, with the layers before it as their calls left them, that layer
    as its call left it, and the others as they were. *)
Lemma update_layers_stop (f : Layer → Layer * result unit)
    (visited pre pre' post : list Layer) (bad bad' : Layer) (e : exn) :
  Forall2 (λ layer layer', f layer = (layer', Ok ())) pre pre' →
  f bad = (bad', Raise e) →
  update_layers f visited (pre ++ bad :: post)
  = (visited ++ pre' ++ bad' :: post, Raise e).
Proof.
  intros Hpre Hbad. revert visited.
  induction Hpre as [| layer layer' pre pre' Hlayer _ IH]; intros visited.
  - cbn. by rewrite Hbad.
  - cbn [app update_layers]. rewrite Hlayer, IH. by rewrite <- app_assoc.
Qed.

Lemma update_layers_all (f : Layer → Layer * result unit)
    (visited todo todo' : list Layer) :
  Forall2 (λ layer layer', f layer = (layer', Ok ())) todo todo' →
  update_layers f visited todo = (visited ++ todo', Ok ()).
Proof.
  intros Htodo. revert visited.
  induction Htodo as [| layer layer' todo todo' Hlayer _ IH]; intros visited.
  - cbn. by rewrite app_nil_r.
  - cbn [update_layers]. rewrite Hlayer, IH. by rewrite <- app_assoc.
Qed.

Lemma update_layers_length (f : Layer → Layer * result unit)
    (visited todo : list Layer) :
  length (update_layers f visited todo).1 = (length visited + length todo)%nat.
Proof.
  revert visited. induction todo as [| layer todo IH]; intros visited.
  - cbn. lia.
  - cbn [update_layers]. destruct (f layer) as [layer' [[] | e]].
    + rewrite IH, length_app. cbn. lia.
    + cbn. rewrite length_app. cbn. lia.
Qed.

(** X19.  [add_adapter] calls [add_adapter] on the layers in order and
    keeps their number.  When every call returns, every layer is as its
    call left it and the method returns.  When a call raises, the method
    raises the same exception: the layers before that one are as their
    calls left them, that one is as its failed call left it, and those
    after it are as before. *)
Theorem add_adapter_spec (w : World.t) (name adapter_cfg : string) (self : t) :
  length (layers (add_adapter w name adapter_cfg self).1) = length (layers self)
  ∧ (∀ layers',
       Forall2 (λ layer layer',
                  World.layer_add_adapter w layer name adapter_cfg
                  = (layer', Ok ()))
               (layers self) layers' →
       add_adapter w name adapter_cfg self = (set_layers layers' self, Ok ()))
  ∧ (∀ pre pre' bad bad' post e,
       layers self = pre ++ bad :: post →
       Forall2 (λ layer layer',
                  World.layer_add_adapter w layer name adapter_cfg
                  = (layer', Ok ()))
               pre pre' →
       World.layer_add_adapter w bad name adapter_cfg = (bad', Raise e) →
       add_adapter w name adapter_cfg self
       = (set_layers (pre' ++ bad' :: post) self, Raise e)).
Proof.
  unfold add_adapter. split; [| split].
  - pose proof (update_layers_length
                  (λ layer, World.layer_add_adapter w layer name adapter_cfg)
                  [] (layers self)) as Hlen.
    by destruct (update_layers _ [] (layers self)).
  - intros layers' Hall. by rewrite (update_layers_all _ [] _ layers' Hall).
  - intros pre pre' bad bad' post e -> Hpre Hbad.
    by rewrite (update_layers_stop _ [] pre pre' post bad bad' e Hpre Hbad).
Qed.

Lemma add_adapter_spec_witness :
  add_adapter Examples.world "adapter_1" "linear"
    (set_layers [[("adapter_0", false)]; []] Examples.model)
  = (set_layers [[("adapter_0", false); ("adapter_1", true)];
                 [("adapter_1", true)]]
       (set_layers [[("adapter_0", false)]; []] Examples.model),
     Ok ()).
Proof.
  apply (proj1 (proj2 (add_adapter_spec Examples.world "adapter_1" "linear"
                         (set_layers [[("adapter_0", false)]; []]
                            Examples.model)))).
  cbn [layers set_layers]. by repeat constructor.
Defined.

(** X20.  [set_enabled_adapters] calls [set_enabled_adapters] on the
    layers in order and keeps their number; it returns with every layer
    as its call left it when every call returns, and raises at the first
    call that raises, with the layers before that one as their calls left
    them, that one as its failed call left it, and the others as before. *)
Theorem set_enabled_adapters_spec (w : World.t) (name : option string)
    (enabled : bool) (self : t) :
  length (layers (set_enabled_adapters w name enabled self).1)
  = length (layers self)
  ∧ (∀ layers',
       Forall2 (λ layer layer',
                  World.layer_set_enabled_adapters w layer name enabled
                  = (layer', Ok ()))
               (layers self) layers' →
       set_enabled_adapters w name enabled self = (set_layers layers' self, Ok ()))
  ∧ (∀ pre pre' bad bad' post e,
       layers self = pre ++ bad :: post →
       Forall2 (λ layer layer',
                  World.layer_set_enabled_adapters w layer name enabled
                  = (layer', Ok ()))
               pre pre' →
       World.layer_set_enabled_adapters w bad name enabled = (bad', Raise e) →
       set_enabled_adapters w name enabled self
       = (set_layers (pre' ++ bad' :: post) self, Raise e)).
Proof.
  unfold set_enabled_adapters. split; [| split].
  - pose proof (update_layers_length
                  (λ layer, World.layer_set_enabled_adapters w layer name enabled)
                  [] (layers self)) as Hlen.
    by destruct (update_layers _ [] (layers self)).
  - intros layers' Hall. by rewrite (update_layers_all _ [] _ layers' Hall).
  - intros pre pre' bad bad' post e -> Hpre Hbad.
    by rewrite (update_layers_stop _ [] pre pre' post bad bad' e Hpre Hbad).
Qed.

Lemma set_enabled_adapters_spec_witness :
  set_enabled_adapters Examples.world (Some "adapter_0") true
    (set_layers [[("adapter_0", false)]; []] Examples.model)
  = (set_layers [[("adapter_0", true)]; []]
       (set_layers [[("adapter_0", false)]; []] Examples.model),
     Ok ()).
Proof.
  apply (proj1 (proj2 (set_enabled_adapters_spec Examples.world
                         (Some "adapter_0") true
                         (set_layers [[("adapter_0", false)]; []]
                            Examples.model)))).
  cbn [layers set_layers]. repeat constructor.
Defined.

(** X21.  [get_enabled_adapters] lists every name that some layer
    reports as enabled, each once. *)
Theorem get_enabled_adapters_spec (w : World.t) (self : t) :
  NoDup (get_enabled_adapters w self)
  ∧ ∀ name,
      name ∈ get_enabled_adapters w self
      ↔ ∃ layer,
          layer ∈ layers self ∧ name ∈ World.layer_get_enabled_adapters w layer.
Proof.
  unfold get_enabled_adapters. split; [apply NoDup_remove_dups |].
  intros name. rewrite elem_of_remove_dups, list_elem_of_In, in_concat. split.
  - intros (names & Hnames%list_elem_of_In & Hname%list_elem_of_In).
    apply list_elem_of_fmap in Hnames as (layer & -> & Hlayer). by exists layer.
  - intros (layer & Hlayer & Hname).
    exists (World.layer_get_enabled_adapters w layer).
    split; apply list_elem_of_In; [| done].
    apply list_elem_of_fmap. by exists layer.
Qed.
